(** * Employee bulk uploader: validation and import pipeline

    Shallow embedding of
    [employee_bulk_uploader/wizard/employee_bulk_upload_wizard.py] and
    [employee_bulk_uploader/models/import_log.py], and the properties of
    the specification proved or refuted on it.

    Conventions of the embedding.
    - A Python [str] is a Rocq [string]; one [ascii] stands for one
      character with code point below 256.
    - A cell value handed over by the spreadsheet reader is a [pyval]; a
      row dictionary is a [gmap string pyval] (the order of the keys is not
      kept).
    - A Python call that may raise is a computation of the monad [M]: it
      returns [Ok v] or [Raise e] together with the resulting world.  The
      database cursor keeps the uncommitted writes when an exception
      travels; only [savepoint] and the end of the request ([request]) undo
      them.
    - A table of the directory store is the list of its records in the
      order in which [search] returns them; [search(..., limit=1)] is the
      first record that matches, and [create] appends.  Record ids come
      from one sequence that a rollback does not rewind.
    - The preview lines of the wizard are the list [line_ids], in the
      order in which [action_validate] creates them (ascending row
      number, which is also the [_order] of the model); a line is known by
      its position in that list.
    - Everything the module calls but does not define is a field of the
      record [externals], over which every general theorem quantifies: the
      reader's date-serial conversion, [repr] of a float, [int] of a text,
      SQL [ILIKE], the translation function, the password hash, the random
      source, the clock, and the constraints of the directory store (which
      writes it refuses, and with which message).
    - Logging and the visual styling of the generated workbooks are left
      out; a generated workbook is the table it holds. *)

From Stdlib Require Import ZArith NArith Lia Ascii String List Bool SpecFloat Sorted.
From stdpp Require Import base option list gmap strings.

Local Open Scope string_scope.
Local Open Scope Z_scope.
Local Open Scope list_scope.

(* ===================================================================== *)
(** ** Python strings *)
(* ===================================================================== *)

Module PyStr.

(** [str.isspace] on the code points below 256. *)
Definition isspace (c : ascii) : bool :=
  let n := N_of_ascii c in
  ((9 <=? n) && (n <=? 13) || (28 <=? n) && (n <=? 32)
   || (n =? 133) || (n =? 160))%N.

Fixpoint lstrip (s : string) : string :=
  match s with
  | EmptyString => EmptyString
  | String c r => if isspace c then lstrip r else s
  end.

Fixpoint rstrip (s : string) : string :=
  match s with
  | EmptyString => EmptyString
  | String c r =>
      match rstrip r with
      | EmptyString => if isspace c then EmptyString else String c EmptyString
      | r' => String c r'
      end
  end.

(** [s.strip()] *)
Definition strip (s : string) : string := rstrip (lstrip s).

(** [s.startswith(c)] for a one-character prefix. *)
Definition startswith (s : string) (c : ascii) : bool :=
  match s with
  | String c' _ => bool_decide (c' = c)
  | EmptyString => false
  end.

(** [s.lower()] on the code points below 256. *)
Definition lower_char (c : ascii) : ascii :=
  let n := N_of_ascii c in
  if ((65 <=? n) && (n <=? 90)
      || (192 <=? n) && (n <=? 222) && negb (n =? 215))%N
  then ascii_of_N (n + 32) else c.

Fixpoint lower (s : string) : string :=
  match s with
  | EmptyString => EmptyString
  | String c r => String (lower_char c) (lower r)
  end.

(** [s.split(sep)] for a one-character separator. *)
Fixpoint split_go (sep : ascii) (cur : string) (s : string) : list string :=
  match s with
  | EmptyString => [String.rev cur]
  | String c r =>
      if bool_decide (c = sep) then String.rev cur :: split_go sep EmptyString r
      else split_go sep (String c cur) r
  end.

Definition split (sep : ascii) (s : string) : list string :=
  split_go sep EmptyString s.

(** [sep.join(parts)] *)
Fixpoint join (sep : string) (parts : list string) : string :=
  match parts with
  | [] => EmptyString
  | [p] => p
  | p :: ps => p +:+ sep +:+ join sep ps
  end.

Definition nl : string := String (ascii_of_N 10) EmptyString.

(** Decimal digits of a natural number, most significant first. *)
Definition digit (n : N) : ascii := ascii_of_N (48 + n).

Fixpoint str_N_go (fuel : nat) (n : N) (acc : string) : string :=
  match fuel with
  | O => acc
  | S f =>
      let acc' := String (digit (n mod 10)) acc in
      if (n <? 10)%N then acc' else str_N_go f (n / 10) acc'
  end.

Definition str_N (n : N) : string :=
  str_N_go (S (N.to_nat (N.log2 n))) n EmptyString.

(** [str(z)] for a Python [int]. *)
Definition str_Z (z : Z) : string :=
  if z <? 0 then String "-" (str_N (Z.to_N (- z))) else str_N (Z.to_N z).

(** Zero-padded decimal of width [w] (as [%02d], [%04d]). *)
Fixpoint zfill_go (w : nat) (s : string) : string :=
  match w with
  | O => s
  | S w' => zfill_go w' (String "0" s)
  end.

Definition zfill (w : nat) (n : N) : string :=
  let s := str_N n in
  zfill_go (w - String.length s) s.

(** Every character of [s] satisfies [p]. *)
Fixpoint all_chars (p : ascii -> bool) (s : string) : bool :=
  match s with
  | EmptyString => true
  | String c r => p c && all_chars p r
  end.

Definition no_space (s : string) : bool :=
  all_chars (fun c => negb (isspace c)) s.

Definition is_digit (c : ascii) : bool :=
  let n := N_of_ascii c in ((48 <=? n) && (n <=? 57))%N.

Definition digit_val (c : ascii) : Z := Z.of_N (N_of_ascii c) - 48.

End PyStr.

(* ===================================================================== *)
(** ** Calendar dates and cell values *)
(* ===================================================================== *)

Record date := Date { year : Z; month : Z; day : Z }.

Record datetime := DateTime {
  dt_date : date; hour : Z; minute : Z; second : Z; microsecond : Z }.

Global Instance date_eq_dec : EqDecision date.
Proof. solve_decision. Defined.

Module Calendar.

Definition is_leap (y : Z) : bool :=
  (y mod 4 =? 0) && (negb (y mod 100 =? 0) || (y mod 400 =? 0)).

Definition days_in_month (y m : Z) : Z :=
  if m =? 2 then (if is_leap y then 29 else 28)
  else if (m =? 4) || (m =? 6) || (m =? 9) || (m =? 11) then 30
  else 31.

(** The check made by the constructor [datetime.date(y, m, d)]. *)
Definition valid (y m d : Z) : bool :=
  (1 <=? y) && (y <=? 9999) && (1 <=? m) && (m <=? 12)
  && (1 <=? d) && (d <=? days_in_month y m).

(** [date.isoformat()] *)
Definition isoformat (d : date) : string :=
  PyStr.zfill 4 (Z.to_N (year d)) +:+ "-" +:+ PyStr.zfill 2 (Z.to_N (month d))
  +:+ "-" +:+ PyStr.zfill 2 (Z.to_N (day d)).

(** [str(datetime)] of a naive datetime: [isoformat(sep=' ')]. *)
Definition str_datetime (t : datetime) : string :=
  isoformat (dt_date t) +:+ " " +:+ PyStr.zfill 2 (Z.to_N (hour t))
  +:+ ":" +:+ PyStr.zfill 2 (Z.to_N (minute t))
  +:+ ":" +:+ PyStr.zfill 2 (Z.to_N (second t))
  +:+ (if microsecond t =? 0 then ""
       else "." +:+ PyStr.zfill 6 (Z.to_N (microsecond t))).

End Calendar.

(** The values a cell (or a header) can hold once the reader has typed it.
    [PFloat] carries the IEEE value as sign, mantissa and binary exponent. *)
Inductive pyval :=
| PNone
| PStr (s : string)
| PInt (z : Z)
| PFloat (f : spec_float)
| PBool (b : bool)
| PDate (d : date)
| PDateTime (t : datetime).

Module PyFloat.

(** [f.is_integer()] *)
Definition is_integer (f : spec_float) : bool :=
  match f with
  | S754_zero _ => true
  | S754_finite _ m e =>
      if 0 <=? e then true
      else (Z.pos m mod 2 ^ (- e) =? 0)
  | _ => false
  end.

(** [int(f)]: truncation towards zero ([None] where Python raises). *)
Definition to_int (f : spec_float) : option Z :=
  match f with
  | S754_zero _ => Some 0
  | S754_finite s m e =>
      let a := if 0 <=? e then Z.pos m * 2 ^ e else Z.pos m / 2 ^ (- e) in
      Some (if s then - a else a)
  | _ => None
  end.

(** Truth value of a float: only the zeros are false. *)
Definition truthy (f : spec_float) : bool :=
  match f with S754_zero _ => false | _ => true end.

End PyFloat.

(* ===================================================================== *)
(** ** Exceptions and results *)
(* ===================================================================== *)

(** The texts of the [UserError]s the wizard raises.  They go through the
    translation function [_], so they are kept symbolic. *)
Inductive user_msg :=
| UploadFileFirst
| ValidateBeforeImporting
| OpenpyxlRequired
| CouldNotReadExcel (why : string)
| ExcelFileEmpty
| RowHasValidationErrors (row : pyval) (err : string)
| RowFailedDuringImport (row : pyval) (err : string).

Inductive exn :=
| UserError (m : user_msg)
| ValueError (m : string)
| TypeError (m : string)
| PyException (m : string)   (* [raise Exception(m)] *)
| StoreError (m : string).   (* a write refused by the directory store *)

(** [str(exc)]; [tr] is the translation function [_]. *)
Definition exn_str (tr : user_msg -> string) (e : exn) : string :=
  match e with
  | UserError m => tr m
  | ValueError m | TypeError m | PyException m | StoreError m => m
  end.

Inductive res (A : Type) :=
| Ok (a : A)
| Raise (e : exn).
Arguments Ok {A} a.
Arguments Raise {A} e.

(* ===================================================================== *)
(** ** [datetime.strptime] for the directives the wizard uses *)
(* ===================================================================== *)

Module Strptime.

Inductive directive := DY | Dm | Dd.

Inductive fmt_item :=
| Dir (d : directive)
| Lit (c : ascii).

Global Instance directive_eq_dec : EqDecision directive.
Proof. solve_decision. Defined.

(** A character class, and the regular expression of a directive: an
    ordered list of alternatives, each a sequence of classes. *)
Definition cls := ascii -> bool.

Definition one (c : ascii) : cls := fun x => bool_decide (x = c).
Definition range (lo hi : ascii) : cls :=
  fun x => ((N_of_ascii lo <=? N_of_ascii x)
            && (N_of_ascii x <=? N_of_ascii hi))%N.

Definition regex_of (d : directive) : list (list cls) :=
  match d with
  | DY => [[PyStr.is_digit; PyStr.is_digit; PyStr.is_digit; PyStr.is_digit]]
  | Dm => [[one "1"; range "0" "2"]; [one "0"; range "1" "9"]; [range "1" "9"]]
  | Dd => [[one "3"; range "0" "1"]; [range "1" "2"; PyStr.is_digit];
           [one "0"; range "1" "9"]; [range "1" "9"];
           [one " "; range "1" "9"]]
  end.

(** Match a sequence of classes at the head of [s]: the matched text and
    the rest. *)
Fixpoint match_seq (cs : list cls) (s : string) : option (string * string) :=
  match cs with
  | [] => Some (EmptyString, s)
  | c :: cs' =>
      match s with
      | String x r =>
          if c x then
            match match_seq cs' r with
            | Some (txt, rest) => Some (String x txt, rest)
            | None => None
            end
          else None
      | EmptyString => None
      end
  end.

Fixpoint first_some {A B} (f : A -> option B) (l : list A) : option B :=
  match l with
  | [] => None
  | a :: l' => match f a with Some b => Some b | None => first_some f l' end
  end.

(** [re.match] of the compiled format: alternatives are tried in order
    and the first one that lets the rest of the format match is kept. *)
Fixpoint match_fmt (fmt : list fmt_item) (s : string)
  : option (list (directive * string) * string) :=
  match fmt with
  | [] => Some ([], s)
  | Lit c :: fmt' =>
      match s with
      | String x r => if bool_decide (x = c) then match_fmt fmt' r else None
      | EmptyString => None
      end
  | Dir d :: fmt' =>
      first_some
        (fun alt =>
           match match_seq alt s with
           | Some (txt, r) =>
               match match_fmt fmt' r with
               | Some (groups, rest) => Some ((d, txt) :: groups, rest)
               | None => None
               end
           | None => None
           end)
        (regex_of d)
  end.

(** [int(txt)] of a matched group (digits, possibly after one blank). *)
Fixpoint int_digits (acc : Z) (s : string) : Z :=
  match s with
  | EmptyString => acc
  | String c r => int_digits (10 * acc + PyStr.digit_val c) r
  end.

Definition int_group (txt : string) : Z := int_digits 0 (PyStr.strip txt).

Fixpoint group (d : directive) (default : Z) (gs : list (directive * string)) : Z :=
  match gs with
  | [] => default
  | (d', txt) :: gs' =>
      if bool_decide (d' = d) then int_group txt else group d default gs'
  end.

(** [datetime.strptime(s, fmt)]: [ValueError] when the text does not
    match, when text is left over, or when the date does not exist. *)
Definition strptime (s : string) (fmt : list fmt_item) : res datetime :=
  match match_fmt fmt s with
  | None => Raise (ValueError "time data does not match format")
  | Some (gs, rest) =>
      if bool_decide (rest = EmptyString) then
        let y := group DY 1900 gs in
        let m := group Dm 1 gs in
        let d := group Dd 1 gs in
        if Calendar.valid y m d then Ok (DateTime (Date y m d) 0 0 0 0)
        else Raise (ValueError "day is out of range for month")
      else Raise (ValueError "unconverted data remains")
  end.

(** ['%Y-%m-%d'], ['%d/%m/%Y'], ['%d-%m-%Y'], ['%m/%d/%Y'] *)
Definition fmt_Y_m_d : list fmt_item := [Dir DY; Lit "-"; Dir Dm; Lit "-"; Dir Dd].
Definition fmt_d_m_Y_slash : list fmt_item := [Dir Dd; Lit "/"; Dir Dm; Lit "/"; Dir DY].
Definition fmt_d_m_Y_dash : list fmt_item := [Dir Dd; Lit "-"; Dir Dm; Lit "-"; Dir DY].
Definition fmt_m_d_Y_slash : list fmt_item := [Dir Dm; Lit "/"; Dir Dd; Lit "/"; Dir DY].

End Strptime.

(** What a format makes of a text: its date, or nothing. *)
Definition accepts (raw : string) (fmt : list Strptime.fmt_item) : option date :=
  match Strptime.strptime raw fmt with
  | Ok t => Some (dt_date t)
  | Raise _ => None
  end.


(* ===================================================================== *)
(** ** The directory store and the wizard's own records *)
(* ===================================================================== *)

(** [res.company] *)
Record company := {
  company_id : Z; company_name : string; company_partner_id : option Z }.

(** [hr.department] *)
Record department := {
  department_id : Z; department_name : string; department_company_id : Z }.

(** A record with an id and a name: [hr.job], [hr.religion],
    [hr.blood.group], [res.country], [hr.contract.type], [res.groups]. *)
Record named := { named_id : Z; named_name : string }.

(** The dictionary [employee_vals] built by [_import_row].  A value that
    the code replaces by [False] when empty is an [option]. *)
Record employee_vals := {
  ev_name : string;
  ev_company_id : Z;
  ev_employee_id_no : string;
  ev_device_user_id : string;
  ev_work_email : string;
  ev_work_phone : option string;
  ev_mobile_phone : option string;
  ev_identification_id : option string;
  ev_employee_type : option string;
  ev_contract_type_id : option Z;
  ev_personal_email : option string;
  ev_private_email : option string;
  ev_private_phone : option string;
  ev_permanent_address : option string;
  ev_present_address : option string;
  ev_department_id : option Z;
  ev_job_id : option Z;
  ev_supervisor_id : option Z;
  ev_dotted_supervisor_id : option Z;
  ev_parent_id : option Z;
  ev_religion_id : option Z;
  ev_blood_group_id : option Z;
  ev_birthday : option date;
  ev_sex : option string;
  ev_tin_number : option string;
  ev_place_of_birth : option string;
  ev_country_id : option Z;
  ev_hr_responsible_id : Z;
  ev_joining_date : option date;
}.

(** [hr.employee] *)
Record employee := {
  employee_id : Z;
  employee_fields : employee_vals;
  employee_work_contact_id : option Z;
  employee_bank_account_ids : list Z;
  employee_user_id : option Z;
}.

(** The dictionary [user_vals] built by [_import_row]. *)
Record user_vals := {
  uv_name : string;
  uv_login : string;
  uv_email : string;
  uv_company_id : Z;
  uv_company_ids : list Z;
  uv_group_ids : list Z;
}.

(** [res.users] *)
Record user := {
  user_id : Z;
  user_fields : user_vals;
  user_password : option string;
}.

(** [res.partner.bank] *)
Record bank_account := {
  bank_id : Z;
  bank_acc_number : string;
  bank_company_id : Z;
  bank_partner_id : option Z;
}.

(** The tables of the directory store.  A list is in the order in which
    [search] returns the records; a created record goes to the end. *)
Record directory := {
  res_company : list company;
  hr_department : list department;
  hr_job : list named;
  hr_employee : list employee;
  res_users : list user;
  hr_religion : list named;
  hr_blood_group : list named;
  res_country : list named;
  hr_contract_type : list named;
  res_partner_bank : list bank_account;
  res_groups : list named;
  (** [env.ref('base.group_user')], [None] when the reference is missing *)
  base_group_user : option Z;
}.

Inductive import_status_t := Pending | Success | Failed.

(** [employee.bulk.upload.line] *)
Record line := {
  line_wizard_id : Z;
  line_row_no : Z;
  line_employee_id_no : string;
  line_device_user_id : string;
  line_name : string;
  line_work_email : string;
  line_company : string;
  line_department : string;
  line_job : string;
  line_is_valid : bool;
  line_import_status : import_status_t;
  line_error_text : string;
  (** the dictionary handed to [json.dumps] *)
  line_raw_json : gmap string string;
}.

(** The dictionary returned by [_validate_row]. *)
Record line_vals := {
  lv_wizard_id : Z;
  lv_row_no : pyval;
  lv_employee_id_no : string;
  lv_device_user_id : string;
  lv_name : string;
  lv_work_email : string;
  lv_company : string;
  lv_department : string;
  lv_job : string;
  lv_is_valid : bool;
  lv_error_text : string;
  lv_raw_json : gmap string string;
}.

(** The uploaded file as the reader sees it: unreadable, or the rows of the
    active sheet, each a tuple of cell values. *)
Inductive xlsx :=
| Unreadable (why : string)
| Sheet (rows : list (list pyval)).

Inductive wizard_state := Draft | Preview | Done.

Global Instance wizard_state_eq_dec : EqDecision wizard_state.
Proof. solve_decision. Defined.

(** A generated workbook: its sheet title, the header row and the data
    rows, and the file name it is offered under. *)
Record artifact := {
  art_title : string;
  art_headers : list string;
  art_rows : list (list pyval);
  art_filename : string;
}.

(** [employee.bulk.upload.wizard] (the fields the actions read or write) *)
Record wizard := {
  wizard_id : Z;
  wizard_file : option xlsx;
  create_missing_departments : bool;
  create_missing_jobs : bool;
  stop_on_error : bool;
  line_ids : list line;
  wizard_state_of : wizard_state;
  import_log_id : option Z;
  output_file : option artifact;
  error_file : option artifact;
  import_summary : option string;
}.

(** [employee.bulk.import.log] *)
Record import_log := {
  log_id : Z;
  log_name : string;
  log_imported_count : Z;
  log_failed_count : Z;
  log_output_file : option artifact;
  log_error_file : option artifact;
  log_summary : string;
}.

(** What the database cursor holds: everything a rollback undoes. *)
Record db := {
  dir : directory;
  wiz : wizard;
  import_logs : list import_log;
}.

(** The world of a request: the cursor, the id sequence (which a rollback
    does not rewind) and the number of passwords drawn so far. *)
Record world := {
  cr : db;
  id_seq : Z;
  draws : nat;
}.

(** A write on an [hr.employee] record. *)
Inductive employee_write :=
| WritePhones (work_phone mobile_phone private_phone : option string)
| LinkBankAccount (bank : Z)
| SetUser (uid : Z).

(** A write sent to the directory store. *)
Inductive store_op :=
| CreateDepartment (name : string) (company : Z)
| CreateJob (name : string)
| CreateReligion (name : string)
| CreateBloodGroup (name : string)
| CreateContractType (name : string)
| CreateEmployee (vals : employee_vals)
| WriteEmployee (id : Z) (w : employee_write)
| CreateBankAccount (acc_number : string) (company : Z) (partner : option Z)
| CreateUser (vals : user_vals)
| SetEncryptedPassword (id : Z) (hash : string).

(* ===================================================================== *)
(** ** What the module calls but does not define *)
(* ===================================================================== *)

Record externals := {
  (** the translation function [_], applied to a message and its arguments *)
  translate : user_msg -> string;
  (** [import openpyxl] succeeds *)
  openpyxl_installed : bool;
  (** the constraints of the directory store: [Some why] when the store
      refuses the write, in the state given, by raising an exception *)
  store_refuses : directory -> store_op -> option string;
  (** the work contact the store gives a new employee, if any *)
  new_work_contact : directory -> employee_vals -> option Z;
  (** [repr] of a float *)
  float_repr : spec_float -> string;
  (** [openpyxl.utils.datetime.from_excel(raw).date()] *)
  from_excel_date : pyval -> res date;
  (** [int(s)] of a text *)
  int_of_str : string -> res Z;
  (** SQL [ILIKE], the [=ilike] operator of a search domain *)
  ilike : string -> string -> bool;
  (** [env['res.users']._crypt_context().hash] *)
  crypt_hash : string -> string;
  (** the [n]-th password drawn from [random.SystemRandom()] *)
  system_random_password : nat -> string;
  (** [hr.employee._fields['employee_type'].selection], [None] when
      reading it raises *)
  employee_type_selection : option (list (string * string));
  (** [env.user.id] *)
  env_uid : Z;
  (** [fields.Datetime.now()] and [fields.Date.today()], as texts *)
  datetime_now : string;
  date_today : string;
}.

Section Wizard.

Context (E : externals).

(** [str(v)] *)
Definition py_str (v : pyval) : string :=
  match v with
  | PNone => "None"
  | PStr s => s
  | PInt z => PyStr.str_Z z
  | PFloat f => float_repr E f
  | PBool b => if b then "True" else "False"
  | PDate d => Calendar.isoformat d
  | PDateTime t => Calendar.str_datetime t
  end.

(** Truth value of [v], as tested by [not v] and [v or ...]. *)
Definition truthy (v : pyval) : bool :=
  match v with
  | PNone => false
  | PStr s => negb (bool_decide (s = EmptyString))
  | PInt z => negb (z =? 0)
  | PFloat f => PyFloat.truthy f
  | PBool b => b
  | PDate _ | PDateTime _ => true
  end.

(** [raw is None or raw == ''] *)
Definition is_none_or_empty (raw : pyval) : bool :=
  match raw with
  | PNone => true
  | PStr s => bool_decide (s = EmptyString)
  | _ => false
  end.

Definition DATE_FORMATS : list (list Strptime.fmt_item) :=
  [Strptime.fmt_Y_m_d; Strptime.fmt_d_m_Y_slash;
   Strptime.fmt_d_m_Y_dash; Strptime.fmt_m_d_Y_slash].

(** The loop [for fmt in (...): try: return strptime(raw, fmt).date()
    except ValueError: continue], followed by [return None]. *)
Fixpoint _parse_date_formats (raw : string) (fmts : list (list Strptime.fmt_item))
  : res (option date) :=
  match fmts with
  | [] => Ok None
  | fmt :: fmts' =>
      match Strptime.strptime raw fmt with
      | Ok t => Ok (Some (dt_date t))
      | Raise (ValueError _) => _parse_date_formats raw fmts'
      | Raise e => Raise e
      end
  end.

Definition isinstance_float (raw : pyval) : bool :=
  match raw with PFloat _ => true | _ => false end.

(** [bool] is a subclass of [int]. *)
Definition isinstance_int (raw : pyval) : bool :=
  match raw with PInt _ | PBool _ => true | _ => false end.

(** [try: return from_excel(raw).date() except Exception: pass] *)
Definition try_from_excel (raw : pyval) : option date :=
  match from_excel_date E raw with
  | Ok d => Some d
  | Raise _ => None
  end.

(** [_parse_date(raw)]; Python's [None] is [None]. *)
Definition _parse_date (raw : pyval) : res (option date) :=
  if is_none_or_empty raw then Ok None
  else
    match raw with
    | PDateTime t => Ok (Some (dt_date t))
    | PDate d => Ok (Some d)
    | _ =>
        match (if isinstance_float raw then try_from_excel raw else None) with
        | Some d => Ok (Some d)
        | None =>
            match (if isinstance_int raw then try_from_excel raw else None) with
            | Some d => Ok (Some d)
            | None =>
                _parse_date_formats (PyStr.strip (py_str raw)) DATE_FORMATS
            end
        end
    end.

(** [_parse_str(raw)] *)
Definition _parse_str (raw : pyval) : string :=
  if is_none_or_empty raw then EmptyString
  else
    let raw' :=
      match raw with
      | PFloat f =>
          if PyFloat.is_integer f then
            match PyFloat.to_int f with Some z => PInt z | None => raw end
          else raw
      | _ => raw
      end in
    let result := PyStr.strip (py_str raw') in
    if (String.length result =? 10)%nat && PyStr.startswith result "1"
    then String "0" result
    else result.

(* =================================================================== *)
(** *** The monad of a request *)
(* =================================================================== *)

Definition M (A : Type) : Type := world -> res A * world.

Definition ret {A} (a : A) : M A := fun w => (Ok a, w).

Definition bind {A B} (m : M A) (k : A -> M B) : M B :=
  fun w =>
    match m w with
    | (Ok a, w') => k a w'
    | (Raise e, w') => (Raise e, w')
    end.

Definition raise {A} (e : exn) : M A := fun w => (Raise e, w).

Definition lift_res {A} (r : res A) : M A := fun w => (r, w).

Notation "'let*' x ':=' m 'in' k" := (bind m (fun x => k))
  (at level 10, x name, m at level 100, k at level 200, only parsing).

(** [try: m except Exception as e: h(e)] *)
Definition try_except {A} (m : M A) (h : exn -> M A) : M A :=
  fun w =>
    match m w with
    | (Ok a, w') => (Ok a, w')
    | (Raise e, w') => h e w'
    end.

(** The world after a rollback to the cursor of [w]: what is not in the
    cursor (the id sequence, the random source) stays as [w'] has it. *)
Definition rollback (w w' : world) : world :=
  {| cr := cr w; id_seq := id_seq w'; draws := draws w' |}.

(** [with env.cr.savepoint(): m]: when [m] raises, the cursor goes back to
    where it was on entry and the exception travels on. *)
Definition savepoint {A} (m : M A) : M A :=
  fun w =>
    match m w with
    | (Ok a, w') => (Ok a, w')
    | (Raise e, w') => (Raise e, rollback w w')
    end.

Definition get_dir : M directory := fun w => (Ok (dir (cr w)), w).
Definition get_wiz : M wizard := fun w => (Ok (wiz (cr w)), w).

Definition modify_dir (f : directory -> directory) : M unit :=
  fun w =>
    (Ok tt,
     {| cr := {| dir := f (dir (cr w)); wiz := wiz (cr w);
                 import_logs := import_logs (cr w) |};
        id_seq := id_seq w; draws := draws w |}).

Definition modify_wiz (f : wizard -> wizard) : M unit :=
  fun w =>
    (Ok tt,
     {| cr := {| dir := dir (cr w); wiz := f (wiz (cr w));
                 import_logs := import_logs (cr w) |};
        id_seq := id_seq w; draws := draws w |}).

Definition add_import_log (l : import_log) : M unit :=
  fun w =>
    (Ok tt,
     {| cr := {| dir := dir (cr w); wiz := wiz (cr w);
                 import_logs := import_logs (cr w) ++ [l] |};
        id_seq := id_seq w; draws := draws w |}).

(** The id given to the next created record. *)
Definition next_id : M Z :=
  fun w => (Ok (id_seq w), {| cr := cr w; id_seq := id_seq w + 1; draws := draws w |}).

(** [_random_password()] *)
Definition _random_password : M string :=
  fun w =>
    (Ok (system_random_password E (draws w)),
     {| cr := cr w; id_seq := id_seq w; draws := S (draws w) |}).

(** The store checks a write before it performs it. *)
Definition store_check (op : store_op) : M unit :=
  let* d := get_dir in
  match store_refuses E d op with
  | Some why => raise (StoreError why)
  | None => ret tt
  end.

Fixpoint forM {A B} (l : list A) (f : A -> M B) : M (list B) :=
  match l with
  | [] => ret []
  | a :: l' => let* b := f a in let* bs := forM l' f in ret (b :: bs)
  end.

Fixpoint forM_ {A} (l : list A) (f : A -> M unit) : M unit :=
  match l with
  | [] => ret tt
  | a :: l' => let* _ := f a in forM_ l' f
  end.

(* =================================================================== *)
(** *** The directory store: searches and writes *)
(* =================================================================== *)

Definition with_hr_department (f : list department -> list department)
  (d : directory) : directory :=
  {| res_company := res_company d; hr_department := f (hr_department d);
     hr_job := hr_job d; hr_employee := hr_employee d;
     res_users := res_users d; hr_religion := hr_religion d;
     hr_blood_group := hr_blood_group d; res_country := res_country d;
     hr_contract_type := hr_contract_type d;
     res_partner_bank := res_partner_bank d; res_groups := res_groups d;
     base_group_user := base_group_user d |}.

Definition with_hr_job (f : list named -> list named)
  (d : directory) : directory :=
  {| res_company := res_company d; hr_department := hr_department d;
     hr_job := f (hr_job d); hr_employee := hr_employee d;
     res_users := res_users d; hr_religion := hr_religion d;
     hr_blood_group := hr_blood_group d; res_country := res_country d;
     hr_contract_type := hr_contract_type d;
     res_partner_bank := res_partner_bank d; res_groups := res_groups d;
     base_group_user := base_group_user d |}.

Definition with_hr_employee (f : list employee -> list employee)
  (d : directory) : directory :=
  {| res_company := res_company d; hr_department := hr_department d;
     hr_job := hr_job d; hr_employee := f (hr_employee d);
     res_users := res_users d; hr_religion := hr_religion d;
     hr_blood_group := hr_blood_group d; res_country := res_country d;
     hr_contract_type := hr_contract_type d;
     res_partner_bank := res_partner_bank d; res_groups := res_groups d;
     base_group_user := base_group_user d |}.

Definition with_res_users (f : list user -> list user)
  (d : directory) : directory :=
  {| res_company := res_company d; hr_department := hr_department d;
     hr_job := hr_job d; hr_employee := hr_employee d;
     res_users := f (res_users d); hr_religion := hr_religion d;
     hr_blood_group := hr_blood_group d; res_country := res_country d;
     hr_contract_type := hr_contract_type d;
     res_partner_bank := res_partner_bank d; res_groups := res_groups d;
     base_group_user := base_group_user d |}.

Definition with_hr_religion (f : list named -> list named)
  (d : directory) : directory :=
  {| res_company := res_company d; hr_department := hr_department d;
     hr_job := hr_job d; hr_employee := hr_employee d;
     res_users := res_users d; hr_religion := f (hr_religion d);
     hr_blood_group := hr_blood_group d; res_country := res_country d;
     hr_contract_type := hr_contract_type d;
     res_partner_bank := res_partner_bank d; res_groups := res_groups d;
     base_group_user := base_group_user d |}.

Definition with_hr_blood_group (f : list named -> list named)
  (d : directory) : directory :=
  {| res_company := res_company d; hr_department := hr_department d;
     hr_job := hr_job d; hr_employee := hr_employee d;
     res_users := res_users d; hr_religion := hr_religion d;
     hr_blood_group := f (hr_blood_group d); res_country := res_country d;
     hr_contract_type := hr_contract_type d;
     res_partner_bank := res_partner_bank d; res_groups := res_groups d;
     base_group_user := base_group_user d |}.

Definition with_hr_contract_type (f : list named -> list named)
  (d : directory) : directory :=
  {| res_company := res_company d; hr_department := hr_department d;
     hr_job := hr_job d; hr_employee := hr_employee d;
     res_users := res_users d; hr_religion := hr_religion d;
     hr_blood_group := hr_blood_group d; res_country := res_country d;
     hr_contract_type := f (hr_contract_type d);
     res_partner_bank := res_partner_bank d; res_groups := res_groups d;
     base_group_user := base_group_user d |}.

Definition with_res_partner_bank (f : list bank_account -> list bank_account)
  (d : directory) : directory :=
  {| res_company := res_company d; hr_department := hr_department d;
     hr_job := hr_job d; hr_employee := hr_employee d;
     res_users := res_users d; hr_religion := hr_religion d;
     hr_blood_group := hr_blood_group d; res_country := res_country d;
     hr_contract_type := hr_contract_type d;
     res_partner_bank := f (res_partner_bank d); res_groups := res_groups d;
     base_group_user := base_group_user d |}.

(** [search([(field, '=', value)], limit=1)]: the first record, if any. *)
Definition search_eq {A} (field : A -> string) (value : string) (table : list A)
  : option A :=
  List.find (fun r => bool_decide (field r = value)) table.

(** [search([(field, '=ilike', value)], limit=1)] *)
Definition search_ilike {A} (field : A -> string) (value : string) (table : list A)
  : option A :=
  List.find (fun r => ilike E (field r) value) table.

Definition search_company (name : string) : M (option company) :=
  let* d := get_dir in ret (search_eq company_name name (res_company d)).

Definition search_department (name : string) (company : Z) : M (option department) :=
  let* d := get_dir in
  ret (List.find
         (fun r => bool_decide (department_name r = name)
                   && (department_company_id r =? company))
         (hr_department d)).

Definition search_job (name : string) : M (option named) :=
  let* d := get_dir in ret (search_eq named_name name (hr_job d)).

Definition search_employee (field : employee_vals -> string) (value : string)
  : M (option employee) :=
  let* d := get_dir in
  ret (search_eq (fun e => field (employee_fields e)) value (hr_employee d)).

Definition search_user_login (login : string) : M (option user) :=
  let* d := get_dir in
  ret (search_eq (fun u => uv_login (user_fields u)) login (res_users d)).

(** [create] on one of the name-only models. *)
Definition create_named (op : store_op)
  (put : (list named -> list named) -> directory -> directory) (name : string)
  : M named :=
  let* _ := store_check op in
  let* id := next_id in
  let r := {| named_id := id; named_name := name |} in
  let* _ := modify_dir (put (fun t => t ++ [r])) in
  ret r.

Definition create_department (name : string) (company : Z) : M department :=
  let* _ := store_check (CreateDepartment name company) in
  let* id := next_id in
  let r := {| department_id := id; department_name := name;
              department_company_id := company |} in
  let* _ := modify_dir (with_hr_department (fun t => t ++ [r])) in
  ret r.

Definition create_employee (vals : employee_vals) : M employee :=
  let* _ := store_check (CreateEmployee vals) in
  let* d := get_dir in
  let* id := next_id in
  let r := {| employee_id := id; employee_fields := vals;
              employee_work_contact_id := new_work_contact E d vals;
              employee_bank_account_ids := [];
              employee_user_id := None |} in
  let* _ := modify_dir (with_hr_employee (fun t => t ++ [r])) in
  ret r.

Definition set_phones (wp mp pp : option string) (v : employee_vals)
  : employee_vals :=
  {| ev_name := ev_name v; ev_company_id := ev_company_id v;
     ev_employee_id_no := ev_employee_id_no v;
     ev_device_user_id := ev_device_user_id v;
     ev_work_email := ev_work_email v;
     ev_work_phone := from_option Some (ev_work_phone v) wp;
     ev_mobile_phone := from_option Some (ev_mobile_phone v) mp;
     ev_identification_id := ev_identification_id v;
     ev_employee_type := ev_employee_type v;
     ev_contract_type_id := ev_contract_type_id v;
     ev_personal_email := ev_personal_email v;
     ev_private_email := ev_private_email v;
     ev_private_phone := from_option Some (ev_private_phone v) pp;
     ev_permanent_address := ev_permanent_address v;
     ev_present_address := ev_present_address v;
     ev_department_id := ev_department_id v; ev_job_id := ev_job_id v;
     ev_supervisor_id := ev_supervisor_id v;
     ev_dotted_supervisor_id := ev_dotted_supervisor_id v;
     ev_parent_id := ev_parent_id v; ev_religion_id := ev_religion_id v;
     ev_blood_group_id := ev_blood_group_id v;
     ev_birthday := ev_birthday v; ev_sex := ev_sex v;
     ev_tin_number := ev_tin_number v;
     ev_place_of_birth := ev_place_of_birth v;
     ev_country_id := ev_country_id v;
     ev_hr_responsible_id := ev_hr_responsible_id v;
     ev_joining_date := ev_joining_date v |}.

(** The effect of a write on the employee record it addresses; a key left
    out of [phone_vals] is [None] and leaves the field as it is. *)
Definition apply_employee_write (w : employee_write) (e : employee) : employee :=
  match w with
  | WritePhones wp mp pp =>
      {| employee_id := employee_id e;
         employee_fields := set_phones wp mp pp (employee_fields e);
         employee_work_contact_id := employee_work_contact_id e;
         employee_bank_account_ids := employee_bank_account_ids e;
         employee_user_id := employee_user_id e |}
  | LinkBankAccount b =>
      {| employee_id := employee_id e;
         employee_fields := employee_fields e;
         employee_work_contact_id := employee_work_contact_id e;
         employee_bank_account_ids :=
           if bool_decide (b ∈ employee_bank_account_ids e)
           then employee_bank_account_ids e
           else employee_bank_account_ids e ++ [b];
         employee_user_id := employee_user_id e |}
  | SetUser u =>
      {| employee_id := employee_id e;
         employee_fields := employee_fields e;
         employee_work_contact_id := employee_work_contact_id e;
         employee_bank_account_ids := employee_bank_account_ids e;
         employee_user_id := Some u |}
  end.

Definition write_employee (id : Z) (w : employee_write) : M unit :=
  let* _ := store_check (WriteEmployee id w) in
  modify_dir
    (with_hr_employee
       (List.map (fun e => if employee_id e =? id
                           then apply_employee_write w e else e))).

Definition create_bank_account (acc : string) (company : Z) (partner : option Z)
  : M bank_account :=
  let* _ := store_check (CreateBankAccount acc company partner) in
  let* id := next_id in
  let r := {| bank_id := id; bank_acc_number := acc;
              bank_company_id := company; bank_partner_id := partner |} in
  let* _ := modify_dir (with_res_partner_bank (fun t => t ++ [r])) in
  ret r.

Definition create_user (vals : user_vals) : M user :=
  let* _ := store_check (CreateUser vals) in
  let* id := next_id in
  let r := {| user_id := id; user_fields := vals; user_password := None |} in
  let* _ := modify_dir (with_res_users (fun t => t ++ [r])) in
  ret r.

Definition _set_encrypted_password (id : Z) (hash : string) : M unit :=
  let* _ := store_check (SetEncryptedPassword id hash) in
  modify_dir
    (with_res_users
       (List.map (fun u => if user_id u =? id
                           then {| user_id := user_id u;
                                   user_fields := user_fields u;
                                   user_password := Some hash |}
                           else u))).

(* =================================================================== *)
(** *** Parsing the uploaded file *)
(* =================================================================== *)

(** [all(v is None or str(v).strip() == '' for v in row_vals)] *)
Definition row_is_empty (row_vals : list pyval) : bool :=
  forallb
    (fun v => match v with
              | PNone => true
              | _ => bool_decide (PyStr.strip (py_str v) = EmptyString)
              end)
    row_vals.

(** [row_dict = {'_row_no': row_idx}] followed by [row_dict[hdr] = val]
    for the cells that stand under a header. *)
Definition make_row_dict (headers : list string) (row_idx : Z)
  (row_vals : list pyval) : gmap string pyval :=
  fold_left (fun d hv => <[ hv.1 := hv.2 ]> d)
            (zip headers row_vals)
            {[ "_row_no" := PInt row_idx ]}.

(** The loop over [enumerate(rows_iter, start=2)]. *)
Fixpoint parse_rows (headers : list string) (row_idx : Z)
  (rows : list (list pyval)) : list (gmap string pyval) :=
  match rows with
  | [] => []
  | row_vals :: rows' =>
      if row_is_empty row_vals then parse_rows headers (row_idx + 1) rows'
      else make_row_dict headers row_idx row_vals
           :: parse_rows headers (row_idx + 1) rows'
  end.

(** [[str(h).strip() if h is not None else '' for h in raw_headers]] *)
Definition normalise_headers (raw_headers : list pyval) : list string :=
  List.map (fun h => match h with
                     | PNone => EmptyString
                     | _ => PyStr.strip (py_str h)
                     end) raw_headers.

(** What [_parse_excel] makes of the [file] field ([None]: no file, on
    which [base64.b64decode] raises). *)
Definition parse_file (file : option xlsx) : res (list (gmap string pyval)) :=
  if negb (openpyxl_installed E) then Raise (UserError OpenpyxlRequired)
  else
    match file with
    | None => Raise (UserError (CouldNotReadExcel "no file"))
    | Some (Unreadable why) => Raise (UserError (CouldNotReadExcel why))
    | Some (Sheet []) => Raise (UserError ExcelFileEmpty)
    | Some (Sheet (raw_headers :: rows)) =>
        Ok (parse_rows (normalise_headers raw_headers) 2 rows)
    end.

(** [self._parse_excel()] *)
Definition _parse_excel : M (list (gmap string pyval)) :=
  let* w := get_wiz in
  lift_res (parse_file (wizard_file w)).

(* =================================================================== *)
(** *** Validation *)
(* =================================================================== *)

Definition dq : string := String (ascii_of_N 34) EmptyString.
Definition quoted (s : string) : string := dq +:+ s +:+ dq.

(** The messages [_validate_row] appends to [errors]. *)
Inductive verror :=
| Required (what : string)
| CompanyNotFound (name : string)
| EmployeeIdExists (value existing : string)
| DeviceIdExists (value existing : string)
| WorkEmailUsed (value existing : string)
| DuplicateEmployeeId (value : string) (row : Z)
| DuplicateDeviceId (value : string) (row : Z)
| DuplicateWorkEmail (value : string) (row : Z)
| DepartmentNotFound (name company : string)
| DesignationNotFound (name : string)
| ReferenceUnresolved (label value : string)
| JoiningDateUnparsed (raw : string)
| BirthDateUnparsed (raw : string).

(** The text of a message, as the f-string builds it. *)
Definition verror_text (e : verror) : string :=
  match e with
  | Required what => what +:+ " is required."
  | CompanyNotFound n => "Company " +:+ quoted n +:+ " not found."
  | EmployeeIdExists v n =>
      "Employee ID " +:+ quoted v +:+ " already exists (employee: " +:+ n +:+ ")."
  | DeviceIdExists v n =>
      "Device ID " +:+ quoted v +:+ " already exists (employee: " +:+ n +:+ ")."
  | WorkEmailUsed v n =>
      "Work Email " +:+ quoted v +:+ " is already used as login (user: "
      +:+ n +:+ ")."
  | DuplicateEmployeeId v r =>
      "Duplicate Employee ID " +:+ quoted v +:+ " in this upload batch (row "
      +:+ PyStr.str_Z r +:+ ")."
  | DuplicateDeviceId v r =>
      "Duplicate Device ID " +:+ quoted v +:+ " in this upload batch (row "
      +:+ PyStr.str_Z r +:+ ")."
  | DuplicateWorkEmail v r =>
      "Duplicate Work Email " +:+ quoted v +:+ " in this upload batch (row "
      +:+ PyStr.str_Z r +:+ ")."
  | DepartmentNotFound n c =>
      "Department " +:+ quoted n +:+ " not found under company " +:+ quoted c
      +:+ ". Enable " +:+ quoted "Create Missing Departments"
      +:+ " or add the department first."
  | DesignationNotFound n =>
      "Designation " +:+ quoted n +:+ " not found. Enable "
      +:+ quoted "Create Missing Designations" +:+ " or add it first."
  | ReferenceUnresolved l v =>
      l +:+ " " +:+ quoted v +:+ " could not be resolved. "
      +:+ "Provide either Employee ID or Work Email of an existing employee."
  | JoiningDateUnparsed r =>
      "Joining Date " +:+ quoted r +:+ " could not be parsed. "
      +:+ "Use DD/MM/YYYY or YYYY-MM-DD format."
  | BirthDateUnparsed r =>
      "Date of Birth " +:+ quoted r +:+ " could not be parsed as a date. "
      +:+ "Use DD/MM/YYYY or YYYY-MM-DD format."
  end.

(** A duplicate found inside the uploaded batch. *)
Definition is_batch_duplicate (e : verror) : bool :=
  match e with
  | DuplicateEmployeeId _ _ | DuplicateDeviceId _ _ | DuplicateWorkEmail _ _ => true
  | _ => false
  end.

Definition nonempty (s : string) : bool := negb (bool_decide (s = EmptyString)).

(** [if cond: errors.append(e)] *)
Definition when (cond : bool) (e : verror) : list verror :=
  if cond then [e] else [].

(** Truth value of a record id or [None]. *)
Definition truthy_id (i : option Z) : bool :=
  match i with Some z => negb (z =? 0) | None => false end.

(** [row_data.get(label)] *)
Definition get (row_data : gmap string pyval) (label : string) : pyval :=
  default PNone (row_data !! label).

(** [str(get(label) or '').strip()] *)
Definition stripped_or_empty (v : pyval) : string :=
  PyStr.strip (py_str (if truthy v then v else PStr EmptyString)).

(** [self._resolve_employee_ref(ref)] *)
Definition _resolve_employee_ref (ref : string) : M (option Z) :=
  if negb (nonempty ref) then ret None
  else
    let* emp := search_employee ev_employee_id_no ref in
    match emp with
    | Some e => ret (Some (employee_id e))
    | None =>
        let* emp := search_employee ev_work_email ref in
        ret (employee_id <$> emp)
    end.

(** The batch check: one pass over [self.line_ids]. *)
Definition batch_duplicates (lines : list line)
  (emp_id_no device_id work_email : string) : list verror :=
  flat_map
    (fun ln =>
       when (nonempty emp_id_no
             && bool_decide (line_employee_id_no ln = emp_id_no))
            (DuplicateEmployeeId emp_id_no (line_row_no ln))
       ++ when (nonempty device_id
                && bool_decide (line_device_user_id ln = device_id))
               (DuplicateDeviceId device_id (line_row_no ln))
       ++ when (nonempty work_email
                && bool_decide (line_work_email ln = work_email))
               (DuplicateWorkEmail work_email (line_row_no ln)))
    lines.

(** [not raw or str(raw).strip() == ''] *)
Definition blank (raw : pyval) : bool :=
  negb (truthy raw) || bool_decide (PyStr.strip (py_str raw) = EmptyString).

(** The check of the joining date: required, and parseable when given. *)
Definition joining_date_errors (joining_date_raw : pyval) : M (list verror) :=
  if blank joining_date_raw then ret [Required "Joining Date"]
  else
    let* d := lift_res (_parse_date joining_date_raw) in
    ret (when (negb (bool_decide (is_Some d)))
              (JoiningDateUnparsed (py_str joining_date_raw))).

(** The check of the date of birth: parseable when given. *)
Definition birth_date_errors (dob_raw : pyval) : M (list verror) :=
  if truthy dob_raw
     && negb (bool_decide (PyStr.strip (py_str dob_raw) = EmptyString))
  then
    let* d := lift_res (_parse_date dob_raw) in
    ret (when (negb (bool_decide (is_Some d)))
              (BirthDateUnparsed (py_str dob_raw)))
  else ret [].

(** The list [errors] at the end of [_validate_row]. *)
Definition validation_errors (row_data : gmap string pyval) : M (list verror) :=
  let get := get row_data in
  let company_name := _parse_str (get "Business Unit") in
  let emp_id_no := _parse_str (get "Employee ID") in
  let device_id := _parse_str (get "Device ID") in
  let work_email := _parse_str (get "Work Email") in
  let dept_name := _parse_str (get "Department") in
  let job_name := _parse_str (get "Designation") in
  let required :=
    when (negb (nonempty company_name)) (Required "Business Unit (company_id)")
    ++ when (negb (nonempty (_parse_str (get "Employee Name"))))
            (Required "Employee Name")
    ++ when (negb (nonempty emp_id_no)) (Required "Employee ID")
    ++ when (negb (nonempty device_id)) (Required "Device ID")
    ++ when (negb (nonempty work_email)) (Required "Work Email")
    ++ when (negb (nonempty (_parse_str (get "Permanent Address"))))
            (Required "Permanent Address")
    ++ when (negb (nonempty (_parse_str (get "Present Address"))))
            (Required "Present Address")
    ++ when (negb (truthy (get "Date of Birth"))) (Required "Date of Birth")
    ++ when (negb (nonempty (_parse_str (get "Gender")))) (Required "Gender")
    ++ when (negb (nonempty (_parse_str (get "Religion")))) (Required "Religion")
    ++ when (negb (nonempty (_parse_str (get "NID No")))) (Required "NID No")
    ++ when (negb (nonempty (_parse_str (get "Place of Birth"))))
            (Required "Place of Birth")
    ++ when (negb (nonempty (_parse_str (get "Nationality (Country)"))))
            (Required "Nationality (Country)")
    ++ when (negb (nonempty (_parse_str (get "Employee Type"))))
            (Required "Employee Type")
    ++ when (negb (nonempty (_parse_str (get "Employment Type"))))
            (Required "Employment Type") in
  (* company resolution *)
  let* company :=
    (if nonempty company_name then search_company company_name else ret None) in
  let company_errors :=
    when (nonempty company_name && negb (bool_decide (is_Some company)))
         (CompanyNotFound company_name) in
  let company_id := company_id <$> company in
  (* uniqueness in the store *)
  let* by_id :=
    (if nonempty emp_id_no then search_employee ev_employee_id_no emp_id_no
     else ret None) in
  let* by_device :=
    (if nonempty device_id then search_employee ev_device_user_id device_id
     else ret None) in
  let* by_login :=
    (if nonempty work_email then search_user_login work_email else ret None) in
  let store_errors :=
    match by_id with
    | Some e => [EmployeeIdExists emp_id_no (ev_name (employee_fields e))]
    | None => []
    end
    ++ match by_device with
       | Some e => [DeviceIdExists device_id (ev_name (employee_fields e))]
       | None => []
       end
    ++ match by_login with
       | Some u => [WorkEmailUsed work_email (uv_name (user_fields u))]
       | None => []
       end in
  (* uniqueness within the batch *)
  let* w := get_wiz in
  let batch_errors :=
    batch_duplicates (line_ids w) emp_id_no device_id work_email in
  (* department and job *)
  let* dept_errors :=
    match company_id with
    | Some cid =>
        if nonempty dept_name && truthy_id company_id then
          let* dept := search_department dept_name cid in
          ret (when (negb (bool_decide (is_Some dept))
                     && negb (create_missing_departments w))
                    (DepartmentNotFound dept_name company_name))
        else ret []
    | None => ret []
    end in
  let* job_errors :=
    (if nonempty job_name then
       let* job := search_job job_name in
       ret (when (negb (bool_decide (is_Some job))
                  && negb (create_missing_jobs w))
                 (DesignationNotFound job_name))
     else ret []) in
  (* supervisor, dotted supervisor, line manager *)
  let* ref_errors :=
    forM ["Supervisor"; "Dotted Supervisor"; "Line Manager"]
      (fun label =>
         let raw_val := stripped_or_empty (get label) in
         if nonempty raw_val then
           let* found := _resolve_employee_ref raw_val in
           ret (when (negb (truthy_id found))
                     (ReferenceUnresolved label raw_val))
         else ret []) in
  (* dates *)
  let* joining_errors := joining_date_errors (get "Joining Date") in
  let* dob_errors := birth_date_errors (get "Date of Birth") in
  ret (required ++ company_errors ++ store_errors ++ batch_errors
       ++ dept_errors ++ job_errors ++ concat ref_errors
       ++ joining_errors ++ dob_errors).

(** [self._validate_row(row_data)] *)
Definition _validate_row (row_data : gmap string pyval) : M line_vals :=
  let* errors := validation_errors row_data in
  let* w := get_wiz in
  ret {| lv_wizard_id := wizard_id w;
         lv_row_no := default (PStr "?") (row_data !! "_row_no");
         lv_employee_id_no := _parse_str (get row_data "Employee ID");
         lv_device_user_id := _parse_str (get row_data "Device ID");
         lv_name := _parse_str (get row_data "Employee Name");
         lv_work_email := _parse_str (get row_data "Work Email");
         lv_company := _parse_str (get row_data "Business Unit");
         lv_department := _parse_str (get row_data "Department");
         lv_job := _parse_str (get row_data "Designation");
         lv_is_valid := (length errors =? 0)%nat;
         lv_error_text := PyStr.join PyStr.nl (List.map verror_text errors);
         lv_raw_json :=
           (fun v => match v with PNone => EmptyString | _ => py_str v end)
             <$> row_data |}.

(** What an [Integer] field stores: [int(value or 0)]. *)
Definition Integer_convert (v : pyval) : res Z :=
  if negb (truthy v) then Ok 0
  else
    match v with
    | PInt z => Ok z
    | PBool b => Ok (if b then 1 else 0)
    | PFloat f =>
        match PyFloat.to_int f with
        | Some z => Ok z
        | None => Raise (ValueError "cannot convert float to integer")
        end
    | PStr s => int_of_str E s
    | _ => Raise (TypeError "int() argument must be a string or a number")
    end.

(** The record the command [(0, 0, vals)] creates; [import_status] takes
    its default. *)
Definition line_of_vals (v : line_vals) : res line :=
  match Integer_convert (lv_row_no v) with
  | Raise e => Raise e
  | Ok n =>
      Ok {| line_wizard_id := lv_wizard_id v; line_row_no := n;
            line_employee_id_no := lv_employee_id_no v;
            line_device_user_id := lv_device_user_id v;
            line_name := lv_name v; line_work_email := lv_work_email v;
            line_company := lv_company v;
            line_department := lv_department v; line_job := lv_job v;
            line_is_valid := lv_is_valid v;
            line_import_status := Pending;
            line_error_text := lv_error_text v;
            line_raw_json := lv_raw_json v |}
  end.

Fixpoint lines_of_vals (vs : list line_vals) : res (list line) :=
  match vs with
  | [] => Ok []
  | v :: vs' =>
      match line_of_vals v with
      | Raise e => Raise e
      | Ok l =>
          match lines_of_vals vs' with
          | Raise e => Raise e
          | Ok ls => Ok (l :: ls)
          end
      end
  end.

Definition with_lines (f : list line -> list line) (w : wizard) : wizard :=
  {| wizard_id := wizard_id w; wizard_file := wizard_file w;
     create_missing_departments := create_missing_departments w;
     create_missing_jobs := create_missing_jobs w;
     stop_on_error := stop_on_error w;
     line_ids := f (line_ids w);
     wizard_state_of := wizard_state_of w;
     import_log_id := import_log_id w;
     output_file := output_file w; error_file := error_file w;
     import_summary := import_summary w |}.

Definition with_state (st : wizard_state) (w : wizard) : wizard :=
  {| wizard_id := wizard_id w; wizard_file := wizard_file w;
     create_missing_departments := create_missing_departments w;
     create_missing_jobs := create_missing_jobs w;
     stop_on_error := stop_on_error w;
     line_ids := line_ids w;
     wizard_state_of := st;
     import_log_id := import_log_id w;
     output_file := output_file w; error_file := error_file w;
     import_summary := import_summary w |}.

(** The window action every button returns. *)
Inductive action := ActWindow (res_id : Z).

(** [_compute_has_errors] *)
Definition has_errors (w : wizard) : bool :=
  existsb (fun ln => negb (line_is_valid ln)) (line_ids w).

(** [self.action_validate()] *)
Definition action_validate : M action :=
  let* w := get_wiz in
  if negb (bool_decide (is_Some (wizard_file w)))
  then raise (UserError UploadFileFirst)
  else
    let* rows := _parse_excel in
    (* [self.line_ids.unlink()] *)
    let* _ := modify_wiz (with_lines (fun _ => [])) in
    let* validated_lines := forM rows _validate_row in
    (* [self.write({'line_ids': [(0, 0, v) ...], 'state': 'preview'})] *)
    let* new_lines := lift_res (lines_of_vals validated_lines) in
    let* _ := modify_wiz (fun w => with_state Preview
                                     (with_lines (fun l => l ++ new_lines) w)) in
    ret (ActWindow (wizard_id w)).

(* =================================================================== *)
(** *** Importing one row *)
(* =================================================================== *)

(** The three ['error'] results of [_import_row]. *)
Inductive import_error :=
| ImportCompanyNotFound (name : string)
| FailedToCreateEmployee (exc : string)
| FailedToCreateUser (exc : string).

Definition import_error_text (e : import_error) : string :=
  match e with
  | ImportCompanyNotFound n => "Company " +:+ quoted n +:+ " not found."
  | FailedToCreateEmployee x => "Failed to create employee: " +:+ x
  | FailedToCreateUser x => "Failed to create user for employee: " +:+ x
  end.

(** The dictionary of a row that went in. *)
Record imported := {
  im_employee_name : string;
  im_login_email : string;
  im_password : string;
  im_company : string;
  im_department : string;
  im_designation : string;
}.

Inductive import_result :=
| ImportFailed (e : import_error)
| Imported (r : imported).

(** [s or False] *)
Definition or_False (s : string) : option string :=
  if nonempty s then Some s else None.

(** [i or False] for a record id *)
Definition id_or_False (i : option Z) : option Z :=
  if truthy_id i then i else None.

(** [_GENDER_MAP.get(key, False)] *)
Definition _GENDER_MAP_get (key : string) : option string :=
  if bool_decide (key = "male") then Some "male"
  else if bool_decide (key = "female") then Some "female"
  else if bool_decide (key = "other") then Some "other"
  else None.

(** The search through the selection of [employee_type]; [None] when no
    entry matches or when reading the selection raises. *)
Definition match_employee_type (emp_type_raw : string) : option string :=
  match employee_type_selection E with
  | None => None
  | Some selection =>
      fst <$> List.find
        (fun kl => bool_decide (PyStr.lower emp_type_raw = PyStr.lower kl.1)
                   || bool_decide (PyStr.lower emp_type_raw = PyStr.lower kl.2))
        selection
  end.

(** [final_emp_type] *)
Definition final_employee_type (emp_type_raw : string) : option string :=
  if nonempty emp_type_raw then
    let found := match_employee_type emp_type_raw ≫= or_False in
    match found with
    | Some k => Some k
    | None =>
        if bool_decide (PyStr.lower emp_type_raw = "freelancer")
        then Some "freelance"
        else or_False (PyStr.lower emp_type_raw)
    end
  else None.

(** Look a name up with [=ilike]; create the record when it is missing. *)
Definition find_or_create_named (table : directory -> list named)
  (op : string -> store_op)
  (put : (list named -> list named) -> directory -> directory)
  (name : string) : M (option Z) :=
  if nonempty name then
    let* d := get_dir in
    match search_ilike named_name name (table d) with
    | Some r => ret (Some (named_id r))
    | None =>
        let* r := create_named (op name) put name in
        ret (Some (named_id r))
    end
  else ret None.

(** The loop over the bank account numbers of a row. *)
Definition attach_bank_accounts (emp : employee) (comp : company)
  (bank_accounts_str : string) : M unit :=
  if nonempty bank_accounts_str then
    let bank_acc_list :=
      List.filter nonempty
        (List.map PyStr.strip (PyStr.split "," bank_accounts_str)) in
    forM_ bank_acc_list
      (fun acc_number =>
         let partner_id :=
           if truthy_id (employee_work_contact_id emp)
           then employee_work_contact_id emp
           else company_partner_id comp in
         let* d := get_dir in
         let* bank_acc :=
           match search_eq bank_acc_number acc_number (res_partner_bank d) with
           | Some b => ret b
           | None =>
               create_bank_account acc_number (company_id comp)
                 (id_or_False partner_id)
           end in
         write_employee (employee_id emp) (LinkBankAccount (bank_id bank_acc)))
  else ret tt.

(** [self._import_row(row_data, env)] *)
Definition _import_row (row_data : gmap string pyval) : M import_result :=
  let get := get row_data in
  let company_name := _parse_str (get "Business Unit") in
  let emp_name := _parse_str (get "Employee Name") in
  let emp_id_no := _parse_str (get "Employee ID") in
  let device_id := _parse_str (get "Device ID") in
  let work_email := _parse_str (get "Work Email") in
  let dept_name := _parse_str (get "Department") in
  let job_name := _parse_str (get "Designation") in
  let* w := get_wiz in
  let* company := search_company company_name in
  match company with
  | None => ret (ImportFailed (ImportCompanyNotFound company_name))
  | Some company =>
      (* department *)
      let* dept_id :=
        (if nonempty dept_name then
           let* dept := search_department dept_name (company_id company) in
           match dept with
           | Some r => ret (Some (department_id r))
           | None =>
               if create_missing_departments w then
                 let* r := create_department dept_name (company_id company) in
                 ret (Some (department_id r))
               else ret None
           end
         else ret None) in
      (* job *)
      let* job_id :=
        (if nonempty job_name then
           let* job := search_job job_name in
           match job with
           | Some r => ret (Some (named_id r))
           | None =>
               if create_missing_jobs w then
                 let* r := create_named (CreateJob job_name) with_hr_job job_name in
                 ret (Some (named_id r))
               else ret None
           end
         else ret None) in
      (* supervisor, dotted supervisor, line manager *)
      let* supervisor_id := _resolve_employee_ref (_parse_str (get "Supervisor")) in
      let* dotted_supervisor_id :=
        _resolve_employee_ref (_parse_str (get "Dotted Supervisor")) in
      let* parent_id := _resolve_employee_ref (_parse_str (get "Line Manager")) in
      (* religion, blood group, country *)
      let* religion_id :=
        find_or_create_named hr_religion CreateReligion with_hr_religion
          (_parse_str (get "Religion")) in
      let* blood_group_id :=
        find_or_create_named hr_blood_group CreateBloodGroup with_hr_blood_group
          (_parse_str (get "Blood Group")) in
      let country_name := _parse_str (get "Nationality (Country)") in
      let* d := get_dir in
      let country_id :=
        if nonempty country_name
        then named_id <$> search_ilike named_name country_name (res_country d)
        else None in
      (* dates, gender, employee type, contract type *)
      let* joining_date := lift_res (_parse_date (get "Joining Date")) in
      let* birthday := lift_res (_parse_date (get "Date of Birth")) in
      let gender := _GENDER_MAP_get (PyStr.lower (_parse_str (get "Gender"))) in
      let final_emp_type := final_employee_type (_parse_str (get "Employee Type")) in
      let* contract_type_id :=
        find_or_create_named hr_contract_type CreateContractType
          with_hr_contract_type (_parse_str (get "Employment Type")) in
      let employee_vals :=
        {| ev_name := emp_name;
           ev_company_id := company_id company;
           ev_employee_id_no := emp_id_no;
           ev_device_user_id := device_id;
           ev_work_email := work_email;
           ev_work_phone := or_False (_parse_str (get "Work Phone Number"));
           ev_mobile_phone := or_False (_parse_str (get "Work Mobile"));
           ev_identification_id := or_False (_parse_str (get "NID No"));
           ev_employee_type := final_emp_type;
           ev_contract_type_id := id_or_False contract_type_id;
           ev_personal_email := or_False (_parse_str (get "Personal Email"));
           ev_private_email := or_False (_parse_str (get "Private Email"));
           ev_private_phone := or_False (_parse_str (get "Personal Phone"));
           ev_permanent_address :=
             or_False (stripped_or_empty (get "Permanent Address"));
           ev_present_address :=
             or_False (stripped_or_empty (get "Present Address"));
           ev_department_id := dept_id;
           ev_job_id := job_id;
           ev_supervisor_id := id_or_False supervisor_id;
           ev_dotted_supervisor_id := id_or_False dotted_supervisor_id;
           ev_parent_id := id_or_False parent_id;
           ev_religion_id := id_or_False religion_id;
           ev_blood_group_id := id_or_False blood_group_id;
           ev_birthday := birthday;
           ev_sex := gender;
           ev_tin_number := or_False (_parse_str (get "TIN Number"));
           ev_place_of_birth := or_False (_parse_str (get "Place of Birth"));
           ev_country_id := id_or_False country_id;
           ev_hr_responsible_id := env_uid E;
           ev_joining_date := joining_date |} in
      (* create the employee, then write the phone fields once more *)
      let* created :=
        try_except
          (let* employee := create_employee employee_vals in
           let* _ :=
             (if bool_decide (is_Some (ev_work_phone employee_vals))
                 || bool_decide (is_Some (ev_mobile_phone employee_vals))
                 || bool_decide (is_Some (ev_private_phone employee_vals))
              then write_employee (employee_id employee)
                     (WritePhones (ev_work_phone employee_vals)
                                  (ev_mobile_phone employee_vals)
                                  (ev_private_phone employee_vals))
              else ret tt) in
           ret (inr employee))
          (fun exc =>
             ret (inl (FailedToCreateEmployee (exn_str (translate E) exc)))) in
      match created with
      | inl err => ret (ImportFailed err)
      | inr employee =>
          let* _ :=
            attach_bank_accounts employee company
              (_parse_str (get "Bank Accounts")) in
          (* the account *)
          let* password := _random_password in
          try_except
            (let* d := get_dir in
             let* base_group :=
               match base_group_user d with
               | Some g => ret g
               | None => raise (ValueError "External ID not found: base.group_user")
               end in
             let groups_list :=
               base_group ::
               match search_eq named_name "Normal Employees" (res_groups d) with
               | Some g => [named_id g]
               | None => []
               end in
             let user_vals :=
               {| uv_name := emp_name; uv_login := work_email;
                  uv_email := work_email;
                  uv_company_id := company_id company;
                  uv_company_ids := [company_id company];
                  uv_group_ids := groups_list |} in
             let* user := create_user user_vals in
             let* _ :=
               _set_encrypted_password (user_id user) (crypt_hash E password) in
             let* _ := write_employee (employee_id employee) (SetUser (user_id user)) in
             ret (Imported
                    {| im_employee_name := emp_name;
                       im_login_email := work_email;
                       im_password := password;
                       im_company := company_name;
                       im_department := dept_name;
                       im_designation := job_name |}))
            (fun exc =>
               ret (ImportFailed
                      (FailedToCreateUser (exn_str (translate E) exc))))
      end
  end.

(* =================================================================== *)
(** *** Confirming the import *)
(* =================================================================== *)

(** An entry of [failed_rows]. *)
Record failed_row := { fr_row_no : pyval; fr_error : string }.

(** The integer a value is equal to as a dictionary key, if any. *)
Definition int_key (v : pyval) : option Z :=
  match v with
  | PInt z => Some z
  | PBool b => Some (if b then 1 else 0)
  | PFloat f => if PyFloat.is_integer f then PyFloat.to_int f else None
  | _ => None
  end.

(** [{ln.row_no: ln for ln in self.line_ids}]; a line is known by its
    position in [line_ids]. *)
Definition build_line_by_row (lines : list line) : gmap Z nat :=
  fold_left (fun m il => <[ line_row_no il.2 := il.1 ]> m)
            (zip (List.seq 0 (length lines)) lines) ∅.

(** [line_by_row.get(row_data['_row_no'])] *)
Definition lookup_line (line_by_row : gmap Z nat) (row_data : gmap string pyval)
  : option nat :=
  int_key (get row_data "_row_no") ≫= (line_by_row !!.).

Definition set_status (st : import_status_t) (l : line) : line :=
  {| line_wizard_id := line_wizard_id l; line_row_no := line_row_no l;
     line_employee_id_no := line_employee_id_no l;
     line_device_user_id := line_device_user_id l;
     line_name := line_name l; line_work_email := line_work_email l;
     line_company := line_company l; line_department := line_department l;
     line_job := line_job l; line_is_valid := line_is_valid l;
     line_import_status := st;
     line_error_text := line_error_text l;
     line_raw_json := line_raw_json l |}.

Definition set_error_text (txt : string) (l : line) : line :=
  {| line_wizard_id := line_wizard_id l; line_row_no := line_row_no l;
     line_employee_id_no := line_employee_id_no l;
     line_device_user_id := line_device_user_id l;
     line_name := line_name l; line_work_email := line_work_email l;
     line_company := line_company l; line_department := line_department l;
     line_job := line_job l; line_is_valid := line_is_valid l;
     line_import_status := line_import_status l;
     line_error_text := txt;
     line_raw_json := line_raw_json l |}.

(** [if line: line.<field> = ...] *)
Definition update_line (ix : option nat) (f : line -> line) : M unit :=
  match ix with
  | Some i => modify_wiz (with_lines (alter f i))
  | None => ret tt
  end.

(** The world once [update_line ix f] has run. *)
Definition touch_line (ix : option nat) (f : line -> line) (w : world) : world :=
  snd (update_line ix f w).

(** The line a row is matched to, read from the cursor. *)
Definition read_line (ix : option nat) : M (option line) :=
  let* w := get_wiz in
  ret (ix ≫= (line_ids w !!.)).

(** [line and not line.is_valid], with the error text of the line. *)
Definition invalid_line (l : option line) : option string :=
  match l with
  | Some ln => if line_is_valid ln then None else Some (line_error_text ln)
  | None => None
  end.

(** The error text of the line a row is matched to, when that line is
    marked invalid: the test [line and not line.is_valid] of both loops. *)
Definition marked_invalid (line_by_row : gmap Z nat)
  (row_data : gmap string pyval) (w : wizard) : option string :=
  invalid_line (lookup_line line_by_row row_data ≫= (line_ids w !!.)).

(** The body of the loop under [stop_on_error].  The entry the code appends
    to [failed_rows] before it raises for an invalid row is lost with the
    raise and is not kept here. *)
Definition confirm_row_stop (line_by_row : gmap Z nat)
  (acc : list imported * list failed_row) (row_data : gmap string pyval)
  : M (list imported * list failed_row) :=
  let row_no := get row_data "_row_no" in
  let line := lookup_line line_by_row row_data in
  let* ln := read_line line in
  match invalid_line ln with
  | Some err =>
      let* _ := update_line line (set_status Failed) in
      raise (UserError (RowHasValidationErrors row_no err))
  | None =>
      let* result := _import_row row_data in
      match result with
      | ImportFailed e =>
          let* _ := update_line line (set_status Failed) in
          let* _ := update_line line (set_error_text (import_error_text e)) in
          raise (UserError (RowFailedDuringImport row_no (import_error_text e)))
      | Imported r =>
          let* _ := update_line line (set_status Success) in
          ret (acc.1 ++ [r], acc.2)
      end
  end.

(** The body of the loop of the partial import; [acc] holds the lists
    [results] and [failed_rows], which are Python lists and are not part of
    what a savepoint undoes. *)
Definition confirm_row_partial (line_by_row : gmap Z nat)
  (acc : list imported * list failed_row) (row_data : gmap string pyval)
  : M (list imported * list failed_row) :=
  let row_no := get row_data "_row_no" in
  let line := lookup_line line_by_row row_data in
  let* ln := read_line line in
  match invalid_line ln with
  | Some err =>
      let* _ := update_line line (set_status Failed) in
      ret (acc.1, acc.2 ++ [{| fr_row_no := row_no; fr_error := err |}])
  | None =>
      try_except
        (savepoint
           (let* result := _import_row row_data in
            match result with
            | ImportFailed e => raise (PyException (import_error_text e))
            | Imported r =>
                let* _ := update_line line (set_status Success) in
                ret (acc.1 ++ [r], acc.2)
            end))
        (fun exc =>
           let msg := exn_str (translate E) exc in
           let* _ := update_line line (set_status Failed) in
           let* _ := update_line line (set_error_text msg) in
           ret (acc.1, acc.2 ++ [{| fr_row_no := row_no; fr_error := msg |}]))
  end.

(** [for row_data in rows: body] with the two lists it appends to. *)
Fixpoint confirm_loop
  (body : list imported * list failed_row -> gmap string pyval
          -> M (list imported * list failed_row))
  (acc : list imported * list failed_row) (rows : list (gmap string pyval))
  : M (list imported * list failed_row) :=
  match rows with
  | [] => ret acc
  | row_data :: rows' =>
      let* acc' := body acc row_data in
      confirm_loop body acc' rows'
  end.

(** [self._build_output_excel(results)]; [None] is the pair
    [(False, False)]. *)
Definition _build_output_excel (results : list imported) : M (option artifact) :=
  match results with
  | [] => ret None
  | _ =>
      if negb (openpyxl_installed E) then raise (UserError OpenpyxlRequired)
      else
        ret (Some
               {| art_title := "Imported Employees";
                  art_headers := ["Employee Name"; "Login Email"; "Password";
                                  "Company"; "Department"; "Designation"];
                  art_rows :=
                    List.map
                      (fun r => [PStr (im_employee_name r); PStr (im_login_email r);
                                 PStr (im_password r); PStr (im_company r);
                                 PStr (im_department r); PStr (im_designation r)])
                      results;
                  art_filename :=
                    "employee_import_output_" +:+ date_today E +:+ ".xlsx" |})
  end.

(** [self._build_error_excel(failed_rows)] *)
Definition _build_error_excel (failed_rows : list failed_row) : M (option artifact) :=
  match failed_rows with
  | [] => ret None
  | _ =>
      if negb (openpyxl_installed E) then raise (UserError OpenpyxlRequired)
      else
        ret (Some
               {| art_title := "Errors";
                  art_headers := ["Row #"; "Error Details"];
                  art_rows :=
                    List.map (fun fr => [fr_row_no fr; PStr (fr_error fr)])
                             failed_rows;
                  art_filename :=
                    "employee_import_errors_" +:+ date_today E +:+ ".xlsx" |})
  end.

Definition str_len {A} (l : list A) : string :=
  PyStr.str_Z (Z.of_nat (length l)).

(** The text of [import_summary]. *)
Definition summary_text (rows : list (gmap string pyval))
  (results : list imported) (failed_rows : list failed_row) : string :=
  PyStr.join PyStr.nl
    ["Total rows: " +:+ str_len rows;
     "Imported:   " +:+ str_len results;
     "Failed:     " +:+ str_len failed_rows].

Definition finish_wizard (log : Z) (out err : option artifact) (summary : string)
  (w : wizard) : wizard :=
  {| wizard_id := wizard_id w; wizard_file := wizard_file w;
     create_missing_departments := create_missing_departments w;
     create_missing_jobs := create_missing_jobs w;
     stop_on_error := stop_on_error w;
     line_ids := line_ids w;
     wizard_state_of := Done;
     import_log_id := Some log;
     output_file := out; error_file := err;
     import_summary := Some summary |}.

(** [self.action_confirm_import()] *)
Definition action_confirm_import : M action :=
  let* w := get_wiz in
  if negb (bool_decide (wizard_state_of w = Preview))
  then raise (UserError ValidateBeforeImporting)
  else
    let* rows := _parse_excel in
    let line_by_row := build_line_by_row (line_ids w) in
    let* acc :=
      (if stop_on_error w
       then confirm_loop (confirm_row_stop line_by_row) ([], []) rows
       else confirm_loop (confirm_row_partial line_by_row) ([], []) rows) in
    let results := acc.1 in
    let failed_rows := acc.2 in
    let* out := _build_output_excel results in
    let* err := _build_error_excel failed_rows in
    let summary := summary_text rows results failed_rows in
    let* id := next_id in
    let* _ :=
      add_import_log
        {| log_id := id;
           log_name := "Import " +:+ datetime_now E;
           log_imported_count := Z.of_nat (length results);
           log_failed_count := Z.of_nat (length failed_rows);
           log_output_file := out; log_error_file := err;
           log_summary := summary |} in
    let* _ := modify_wiz (finish_wizard id out err summary) in
    ret (ActWindow (wizard_id w)).

(** One request: the cursor is committed when the call returns and
    rolled back when it raises. *)
Definition request {A} (m : M A) : M A := savepoint m.

(** The parts of the world the statements below speak of. *)
Definition dir_of (w : world) : directory := dir (cr w).
Definition wiz_of (w : world) : wizard := wiz (cr w).
Definition logs_of (w : world) : list import_log := import_logs (cr w).

(** The number of [hr.employee] records in the cursor. *)
Definition employee_count (w : world) : nat := length (hr_employee (dir_of w)).

(** [m], run in [w], only reads and returns a value that satisfies [P]. *)
Definition gives {A} (m : M A) (w : world) (P : A -> Prop) : Prop :=
  exists a, m w = (Ok a, w) /\ P a.

(** The world once [self.line_ids.unlink()] has run. *)
Definition unlinked (w : world) : world :=
  snd (modify_wiz (with_lines (fun _ => [])) w).

(** The world once the new lines and the state [preview] are written. *)
Definition previewed (new_lines : list line) (w : world) : world :=
  snd (modify_wiz (fun z => with_state Preview
                              (with_lines (fun l => l ++ new_lines) z)) w).

(** No message of the list reports a duplicate inside the batch. *)
Definition no_batch_duplicate (errs : list verror) : Prop :=
  Forall (fun e => is_batch_duplicate e = false) errs.

(** [m] only reads: it returns a value and leaves the world as it found it. *)
Definition reads {A} (m : M A) : Prop :=
  forall w, exists a, m w = (Ok a, w).

(** [m] leaves the part [f] of the world as it found it, whether it returns
    or raises. *)
Definition preserves {A X} (f : world -> X) (m : M A) : Prop :=
  forall w, f (snd (m w)) = f w.

(** The writes of the directory store touch neither the wizard nor the
    import logs. *)
Definition beside_directory {A} (m : M A) : Prop :=
  preserves logs_of m /\ preserves wiz_of m.

(** The row that failed, as [failed_rows] records it. *)
Definition failed (row_data : gmap string pyval) (msg : string) : failed_row :=
  {| fr_row_no := get row_data "_row_no"; fr_error := msg |}.

(** The log record and the wizard fields a run ends with. *)
Definition summary_log (id : Z) (rows : list (gmap string pyval))
  (results : list imported) (failed_rows : list failed_row)
  (out err : option artifact) : import_log :=
  {| log_id := id;
     log_name := "Import " +:+ datetime_now E;
     log_imported_count := Z.of_nat (length results);
     log_failed_count := Z.of_nat (length failed_rows);
     log_output_file := out; log_error_file := err;
     log_summary := summary_text rows results failed_rows |}.

End Wizard.

(* ===================================================================== *)
(** ** The column map, the template and the downloads *)
(* ===================================================================== *)

(** [COLUMN_MAP]: Excel header, Odoo field and field type, in the order of
    the dictionary. *)
Definition COLUMN_MAP : list (string * (string * string)) :=
  [ ("Business Unit",         ("company_id", "m2o_company"));
    ("Employee Name",         ("name", "char"));
    ("Employee ID",           ("employee_id_no", "char"));
    ("Device ID",             ("device_user_id", "char"));
    ("Joining Date",          ("joining_date", "date"));
    ("Department",            ("department_id", "m2o_department"));
    ("Designation",           ("job_id", "m2o_job"));
    ("Supervisor",            ("supervisor_id", "m2o_employee"));
    ("Dotted Supervisor",     ("dotted_supervisor_id", "m2o_employee"));
    ("Line Manager",          ("parent_id", "m2o_employee"));
    ("Work Email",            ("work_email", "char"));
    ("Work Mobile",           ("mobile_phone", "char"));
    ("Work Phone Number",     ("work_phone", "char"));
    ("Personal Phone",        ("private_phone", "char"));
    ("Private Email",         ("private_email", "char"));
    ("Permanent Address",     ("permanent_address", "char"));
    ("Present Address",       ("present_address", "char"));
    ("Date of Birth",         ("birthday", "date"));
    ("Gender",                ("sex", "gender"));
    ("Religion",              ("religion_id", "m2o_religion"));
    ("Blood Group",           ("blood_group_id", "m2o_blood_group"));
    ("NID No",                ("identification_id", "char"));
    ("TIN Number",            ("tin_number", "char"));
    ("Place of Birth",        ("place_of_birth", "char"));
    ("Nationality (Country)", ("country_id", "char"));
    ("Employee Type",         ("employee_type", "char"));
    ("Employment Type",       ("employee_category", "char"));
    ("Bank Accounts",         ("bank_account_ids", "char")) ].

Definition REQUIRED_FIELDS : list string :=
  [ "company_id"; "name"; "employee_id_no"; "device_user_id"; "work_email";
    "joining_date";
    "permanent_address"; "present_address"; "birthday"; "sex";
    "religion_id"; "identification_id"; "place_of_birth"; "country_id";
    "employee_type"; "employee_category" ].

(** [{hdr for hdr, (field, _) in COLUMN_MAP.items() if field in REQUIRED_FIELDS}];
    the set is kept as the list of its members, in the order of the map. *)
Definition REQUIRED_HEADERS : list string :=
  fst <$> List.filter (fun e => bool_decide (e.2.1 ∈ REQUIRED_FIELDS)) COLUMN_MAP.

(** [{hdr for hdr, (_, ftype) in COLUMN_MAP.items() if ftype == 'date'}] *)
Definition date_headers : list string :=
  fst <$> List.filter (fun e => bool_decide (e.2.2 = "date")) COLUMN_MAP.

(** A column of the template: its header cell, whether the header carries
    the fill and the font of a required column, the width, and the number
    format given to the cells of the rows 2 to 1000. *)
Record template_column := {
  tc_header : string;
  tc_is_required : bool;
  tc_width : Z;
  tc_number_format : option string;
}.

(** The loop over [enumerate(headers, start=1)] of
    [action_download_template]. *)
Definition template_columns : list template_column :=
  List.map
    (fun header =>
       {| tc_header := header;
          tc_is_required := bool_decide (header ∈ REQUIRED_HEADERS);
          tc_width := 22;
          tc_number_format :=
            if bool_decide (header ∈ date_headers) then Some "DD/MM/YYYY"
            else None |})
    (fst <$> COLUMN_MAP).

(** The workbook of the template, as the table it holds. *)
Definition template_artifact : artifact :=
  {| art_title := "Employees";
     art_headers := tc_header <$> template_columns;
     art_rows := [];
     art_filename := "employee_upload_template.xlsx" |}.

(** The action [ir.actions.act_url] a download button returns. *)
Inductive url_action := ActUrl (url : string).

(** The two [UserError]s of the download buttons: "No output file
    available yet. Please run the import first." and "No error report
    available." *)
Inductive download_error := NoOutputFile | NoErrorReport.

Definition with_output (out : option artifact) (w : wizard) : wizard :=
  {| wizard_id := wizard_id w; wizard_file := wizard_file w;
     create_missing_departments := create_missing_departments w;
     create_missing_jobs := create_missing_jobs w;
     stop_on_error := stop_on_error w;
     line_ids := line_ids w;
     wizard_state_of := wizard_state_of w;
     import_log_id := import_log_id w;
     output_file := out; error_file := error_file w;
     import_summary := import_summary w |}.

(** What [action_show_error] of a preview line returns: [True], or the
    notification with the row number of its title and its message. *)
Inductive show_error := ShowNothing | DisplayNotification (row_no : Z) (message : string).

(** [EmployeeBulkUploadLine.action_show_error] *)
Definition action_show_error (l : line) : show_error :=
  if negb (nonempty (line_error_text l)) then ShowNothing
  else DisplayNotification (line_row_no l) (line_error_text l).

Section Downloads.

Context (E : externals).

Notation "'let*' x ':=' m 'in' k" := (bind m (fun x => k))
  (at level 10, x name, m at level 100, k at level 200, only parsing).

(** [self.action_download_output()]; the left side is the [UserError]
    raised. *)
Definition action_download_output (w : wizard) : download_error + url_action :=
  match output_file w with
  | None => inl NoOutputFile
  | Some a =>
      inr (ActUrl ("/web/content/employee.bulk.upload.wizard/"
                   +:+ PyStr.str_Z (wizard_id w) +:+ "/output_file/"
                   +:+ art_filename a +:+ "?download=true"))
  end.

(** [self.action_download_errors()] *)
Definition action_download_errors (w : wizard) : download_error + url_action :=
  match error_file w with
  | None => inl NoErrorReport
  | Some a =>
      inr (ActUrl ("/web/content/employee.bulk.upload.wizard/"
                   +:+ PyStr.str_Z (wizard_id w) +:+ "/error_file/"
                   +:+ art_filename a +:+ "?download=true"))
  end.

(** [self.action_download_template()] *)
Definition action_download_template : M url_action :=
  if negb (openpyxl_installed E) then raise (UserError OpenpyxlRequired)
  else
    let* w := get_wiz in
    let* _ := modify_wiz (with_output (Some template_artifact)) in
    ret (ActUrl ("/web/content/employee.bulk.upload.wizard/"
                 +:+ PyStr.str_Z (wizard_id w)
                 +:+ "/output_file/employee_upload_template.xlsx?download=true")).

End Downloads.

(** [models/import_log.py]: the two buttons of an import log.  They make
    no test of the file; a field that is [False] is printed as such by the
    f-string. *)
Module EmployeeBulkImportLog.

Definition filename_of (f : option artifact) : string :=
  match f with Some a => art_filename a | None => "False" end.

Definition action_download_output (l : import_log) : url_action :=
  ActUrl ("/web/content/employee.bulk.import.log/" +:+ PyStr.str_Z (log_id l)
          +:+ "/output_file/" +:+ filename_of (log_output_file l)
          +:+ "?download=true").

Definition action_download_errors (l : import_log) : url_action :=
  ActUrl ("/web/content/employee.bulk.import.log/" +:+ PyStr.str_Z (log_id l)
          +:+ "/error_file/" +:+ filename_of (log_error_file l)
          +:+ "?download=true").

End EmployeeBulkImportLog.

(* ===================================================================== *)
(** ** The random password, character by character *)
(* ===================================================================== *)

Module SystemRandom.

Definition ascii_letters : string :=
  "abcdefghijklmnopqrstuvwxyzABCDEFGHIJKLMNOPQRSTUVWXYZ".

Definition digits : string := "0123456789".

(** [random.SystemRandom().choice(seq)]: [seq[randbelow(len(seq))]], with
    [None] where the index is out of range. *)
Definition choice (randbelow : nat -> nat) (seq : string) : option ascii :=
  String.get (randbelow (String.length seq)) seq.

(** [''.join(choice(chars) for _ in range(length))]; [rand k] is the
    [k]-th call to the generator. *)
Fixpoint join_choices (rand : nat -> nat -> nat) (chars : string)
  (k length : nat) : option string :=
  match length with
  | O => Some EmptyString
  | S n =>
      match choice (rand k) chars with
      | None => None
      | Some c =>
          match join_choices rand chars (S k) n with
          | None => None
          | Some r => Some (String c r)
          end
      end
  end.

(** [_random_password(length)], drawing from the [k]-th call on. *)
Definition _random_password (rand : nat -> nat -> nat) (k : nat) (length : nat)
  : option string :=
  let chars := ascii_letters +:+ digits in
  join_choices rand chars k length.

(** [str.isalnum] on the code points below 128. *)
Definition is_ascii_alnum (c : ascii) : bool :=
  let n := N_of_ascii c in
  ((48 <=? n) && (n <=? 57) || (65 <=? n) && (n <=? 90)
   || (97 <=? n) && (n <=? 122))%N.

End SystemRandom.

(* ===================================================================== *)
(** ** What validation computes from what it reads *)
(* ===================================================================== *)

Section ValidationValue.

Context (E : externals).

(** The number of [res.users] records in the cursor. *)
Definition user_count (w : world) : nat := length (res_users (dir_of w)).

(** The value of [_resolve_employee_ref ref], read off the store [d]. *)
Definition resolve_in (d : directory) (ref : string) : option Z :=
  if negb (nonempty ref) then None
  else
    match search_eq (fun e => ev_employee_id_no (employee_fields e)) ref
            (hr_employee d) with
    | Some e => Some (employee_id e)
    | None =>
        employee_id
          <$> search_eq (fun e => ev_work_email (employee_fields e)) ref
                (hr_employee d)
    end.

(** The value of [validation_errors row_data], read off what the method
    reads: the store [d], the preview lines of the wizard and its two
    flags. *)
Definition validation_errors_in (d : directory) (lines : list line)
  (create_departments create_jobs : bool) (row_data : gmap string pyval)
  : list verror :=
  let get := get row_data in
  let cname := _parse_str E (get "Business Unit") in
  let emp_id_no := _parse_str E (get "Employee ID") in
  let device_id := _parse_str E (get "Device ID") in
  let work_email := _parse_str E (get "Work Email") in
  let dept_name := _parse_str E (get "Department") in
  let job_name := _parse_str E (get "Designation") in
  let required :=
    when (negb (nonempty cname)) (Required "Business Unit (company_id)")
    ++ when (negb (nonempty (_parse_str E (get "Employee Name"))))
            (Required "Employee Name")
    ++ when (negb (nonempty emp_id_no)) (Required "Employee ID")
    ++ when (negb (nonempty device_id)) (Required "Device ID")
    ++ when (negb (nonempty work_email)) (Required "Work Email")
    ++ when (negb (nonempty (_parse_str E (get "Permanent Address"))))
            (Required "Permanent Address")
    ++ when (negb (nonempty (_parse_str E (get "Present Address"))))
            (Required "Present Address")
    ++ when (negb (truthy (get "Date of Birth"))) (Required "Date of Birth")
    ++ when (negb (nonempty (_parse_str E (get "Gender")))) (Required "Gender")
    ++ when (negb (nonempty (_parse_str E (get "Religion")))) (Required "Religion")
    ++ when (negb (nonempty (_parse_str E (get "NID No")))) (Required "NID No")
    ++ when (negb (nonempty (_parse_str E (get "Place of Birth"))))
            (Required "Place of Birth")
    ++ when (negb (nonempty (_parse_str E (get "Nationality (Country)"))))
            (Required "Nationality (Country)")
    ++ when (negb (nonempty (_parse_str E (get "Employee Type"))))
            (Required "Employee Type")
    ++ when (negb (nonempty (_parse_str E (get "Employment Type"))))
            (Required "Employment Type") in
  let company :=
    if nonempty cname then search_eq company_name cname (res_company d)
    else None in
  let company_errors :=
    when (nonempty cname && negb (bool_decide (is_Some company)))
         (CompanyNotFound cname) in
  let company_id := company_id <$> company in
  let by_id :=
    if nonempty emp_id_no
    then search_eq (fun e => ev_employee_id_no (employee_fields e)) emp_id_no
           (hr_employee d)
    else None in
  let by_device :=
    if nonempty device_id
    then search_eq (fun e => ev_device_user_id (employee_fields e)) device_id
           (hr_employee d)
    else None in
  let by_login :=
    if nonempty work_email
    then search_eq (fun u => uv_login (user_fields u)) work_email (res_users d)
    else None in
  let store_errors :=
    match by_id with
    | Some e => [EmployeeIdExists emp_id_no (ev_name (employee_fields e))]
    | None => []
    end
    ++ match by_device with
       | Some e => [DeviceIdExists device_id (ev_name (employee_fields e))]
       | None => []
       end
    ++ match by_login with
       | Some u => [WorkEmailUsed work_email (uv_name (user_fields u))]
       | None => []
       end in
  let batch_errors := batch_duplicates lines emp_id_no device_id work_email in
  let dept_errors :=
    match company_id with
    | Some cid =>
        if nonempty dept_name && truthy_id company_id then
          when (negb (bool_decide
                        (is_Some
                           (List.find
                              (fun r => bool_decide (department_name r = dept_name)
                                        && (department_company_id r =? cid))
                              (hr_department d))))
                && negb create_departments)
               (DepartmentNotFound dept_name cname)
        else []
    | None => []
    end in
  let job_errors :=
    if nonempty job_name then
      when (negb (bool_decide (is_Some (search_eq named_name job_name (hr_job d))))
            && negb create_jobs)
           (DesignationNotFound job_name)
    else [] in
  let ref_errors :=
    List.map
      (fun label =>
         let raw_val := stripped_or_empty E (get label) in
         if nonempty raw_val then
           when (negb (truthy_id (resolve_in d raw_val)))
                (ReferenceUnresolved label raw_val)
         else [])
      ["Supervisor"; "Dotted Supervisor"; "Line Manager"] in
  let joining_errors :=
    if blank E (get "Joining Date") then [Required "Joining Date"]
    else match _parse_date E (get "Joining Date") with
         | Ok None => [JoiningDateUnparsed (py_str E (get "Joining Date"))]
         | _ => []
         end in
  let dob_errors :=
    if truthy (get "Date of Birth")
       && negb (bool_decide (PyStr.strip (py_str E (get "Date of Birth"))
                             = EmptyString))
    then match _parse_date E (get "Date of Birth") with
         | Ok None => [BirthDateUnparsed (py_str E (get "Date of Birth"))]
         | _ => []
         end
    else [] in
  required ++ company_errors ++ store_errors ++ batch_errors
  ++ dept_errors ++ job_errors ++ concat ref_errors
  ++ joining_errors ++ dob_errors.

(** The dictionary [_validate_row] returns, from the list of its errors. *)
Definition line_vals_of (wizard : Z) (errors : list verror)
  (row_data : gmap string pyval) : line_vals :=
  {| lv_wizard_id := wizard;
     lv_row_no := default (PStr "?") (row_data !! "_row_no");
     lv_employee_id_no := _parse_str E (get row_data "Employee ID");
     lv_device_user_id := _parse_str E (get row_data "Device ID");
     lv_name := _parse_str E (get row_data "Employee Name");
     lv_work_email := _parse_str E (get row_data "Work Email");
     lv_company := _parse_str E (get row_data "Business Unit");
     lv_department := _parse_str E (get row_data "Department");
     lv_job := _parse_str E (get row_data "Designation");
     lv_is_valid := (length errors =? 0)%nat;
     lv_error_text := PyStr.join PyStr.nl (List.map verror_text errors);
     lv_raw_json :=
       (fun v => match v with PNone => EmptyString | _ => py_str E v end)
         <$> row_data |}.

(** The value of [_validate_row row_data] in the world [w]. *)
Definition validated_row (w : world) (row_data : gmap string pyval) : line_vals :=
  line_vals_of (wizard_id (wiz_of w))
    (validation_errors_in (dir_of w) (line_ids (wiz_of w))
       (create_missing_departments (wiz_of w))
       (create_missing_jobs (wiz_of w)) row_data)
    row_data.

(** The world a run that returns ends in: the log is created and the
    wizard is written, from the world [w1] the loop has left. *)
Definition finished (rows : list (gmap string pyval))
  (acc : list imported * list failed_row) (out err : option artifact)
  (w1 : world) : world :=
  snd (modify_wiz
         (finish_wizard (id_seq w1) out err (summary_text rows acc.1 acc.2))
         (snd (add_import_log
                 (summary_log E (id_seq w1) rows acc.1 acc.2 out err)
                 (snd (next_id w1))))).

(** The positions, from 0, of the rows of a sheet that are not empty. *)
Definition kept_rows (rows : list (list pyval)) : list nat :=
  List.filter (fun k => negb (row_is_empty E (nth k rows [])))
              (List.seq 0 (length rows)).

(** The label under which the validator reports a required header. *)
Definition required_label (header : string) : string :=
  if bool_decide (header = "Business Unit") then "Business Unit (company_id)"
  else header.

End ValidationValue.

(* ===================================================================== *)
(** ** Checks run over every year, month and day *)
(* ===================================================================== *)

(** The year [y], written on four digits, is four digits that read [y]. *)
Definition year_reads_back (y : N) : bool :=
  match PyStr.zfill 4 y with
  | String a (String b (String c (String e EmptyString))) =>
      PyStr.is_digit a && PyStr.is_digit b && PyStr.is_digit c
      && PyStr.is_digit e
      && (Strptime.int_digits 0 (PyStr.zfill 4 y) =? Z.of_N y)
  | _ => false
  end.

(** The text [-mm-dd] of a month and a day. *)
Definition month_day_text (m d : N) : string :=
  "-" +:+ PyStr.zfill 2 m +:+ "-" +:+ PyStr.zfill 2 d.

(** The rest of the format [%Y-%m-%d] matches [-mm-dd], all of it, and
    reads the month and the day back. *)
Definition month_day_read_back (m d : N) : bool :=
  PyStr.no_space (month_day_text m d)
  && match Strptime.match_fmt
             [Strptime.Lit "-"; Strptime.Dir Strptime.Dm;
              Strptime.Lit "-"; Strptime.Dir Strptime.Dd]
             (month_day_text m d) with
     | Some ([(Strptime.Dm, tm); (Strptime.Dd, td)], EmptyString) =>
         (Strptime.int_group tm =? Z.of_N m) && (Strptime.int_group td =? Z.of_N d)
     | _ => false
     end.

(* ===================================================================== *)
(** ** Texts of dates and the width of a format *)
(* ===================================================================== *)

(** The most characters a directive, an item and a format can take. *)
Definition dir_width (d : Strptime.directive) : nat :=
  match d with Strptime.DY => 4 | Strptime.Dm => 2 | Strptime.Dd => 2 end.

Definition item_width (i : Strptime.fmt_item) : nat :=
  match i with Strptime.Dir d => dir_width d | Strptime.Lit _ => 1 end.

Definition fmt_width (fmt : list Strptime.fmt_item) : nat :=
  list_sum (List.map item_width fmt).

(** A day, a month and a year written on two, two and four digits with
    the separator [sep] between them. *)
Definition dmy_text (sep : ascii) (a b y : N) : string :=
  PyStr.zfill 2 a +:+ String sep (PyStr.zfill 2 b +:+ String sep (PyStr.zfill 4 y)).

(** The numbers whose two digits the expression of a directive matches:
    a day from 1 to 31, a month from 1 to 12. *)
Definition field_ok (d : Strptime.directive) (n : Z) : bool :=
  match d with
  | Strptime.Dd => (1 <=? n) && (n <=? 31)
  | Strptime.Dm => (1 <=? n) && (n <=? 12)
  | Strptime.DY => false
  end.

(** The number [n], written on two digits, is two digits that read [n]. *)
Definition two_digits_read_back (n : N) : bool :=
  match PyStr.zfill 2 n with
  | String a (String b EmptyString) =>
      PyStr.is_digit a && PyStr.is_digit b
      && (Strptime.int_group (PyStr.zfill 2 n) =? Z.of_N n)
  | _ => false
  end.

(* ===================================================================== *)
(** ** Statements about what a computation leaves behind *)
(* ===================================================================== *)

(** When [m] is run in a world that satisfies [P] and returns, the value
    and the world it returns satisfy [Q]. *)
Definition triple {A} (P : world -> Prop) (m : M A) (Q : A -> world -> Prop)
  : Prop :=
  forall w, P w -> forall a w', m w = (Ok a, w') -> Q a w'.

(** The three parts of the store the account of a row depends on. *)
Definition people (d : directory) : list employee * list user * option Z :=
  (hr_employee d, res_users d, base_group_user d).

(** The store holds the person record [id], with the identity of [vals]. *)
Definition person_in (id : Z) (vals : employee_vals) (d : directory) : Prop :=
  exists e, e ∈ hr_employee d /\ employee_id e = id
    /\ ev_name (employee_fields e) = ev_name vals
    /\ ev_employee_id_no (employee_fields e) = ev_employee_id_no vals
    /\ ev_device_user_id (employee_fields e) = ev_device_user_id vals
    /\ ev_work_email (employee_fields e) = ev_work_email vals
    /\ ev_company_id (employee_fields e) = ev_company_id vals.

(** The store once the person record [id] of a row is written, [d0] being
    the store before the row: one employee more, who carries the identity
    of [vals]; the accounts and the base group as before. *)
Definition person_written (d0 : directory) (id : Z) (vals : employee_vals)
  (d : directory) : Prop :=
  length (hr_employee d) = S (length (hr_employee d0))
  /\ res_users d = res_users d0
  /\ base_group_user d = base_group_user d0
  /\ person_in id vals d.

(** The store once a row is imported with the result [r], [d0] being the
    store before the row: one employee and one account more, linked to
    each other; the account has the Work Email as login, the hash of the
    password of [r] as password, and the base group among its groups. *)
Definition row_imported (E : externals) (d0 : directory)
  (row_data : gmap string pyval)
  (r : imported) (d : directory) : Prop :=
  length (hr_employee d) = S (length (hr_employee d0))
  /\ length (res_users d) = S (length (res_users d0))
  /\ exists e u,
       e ∈ hr_employee d /\ u ∈ res_users d
       /\ employee_user_id e = Some (user_id u)
       /\ ev_name (employee_fields e) = im_employee_name r
       /\ ev_work_email (employee_fields e) = im_login_email r
       /\ ev_employee_id_no (employee_fields e)
          = _parse_str E (get row_data "Employee ID")
       /\ ev_device_user_id (employee_fields e)
          = _parse_str E (get row_data "Device ID")
       /\ uv_name (user_fields u) = im_employee_name r
       /\ uv_login (user_fields u) = im_login_email r
       /\ uv_email (user_fields u) = im_login_email r
       /\ user_password u = Some (crypt_hash E (im_password r))
       /\ exists g, base_group_user d0 = Some g /\ g ∈ uv_group_ids (user_fields u).

(* ===================================================================== *)
(** ** A concrete store and concrete files, used to run the model *)
(* ===================================================================== *)

Module Sample.

(** The store refuses a second account with a login that is taken (the
    unique constraint on [res.users.login]) and nothing else. *)
Definition refuses (d : directory) (op : store_op) : option string :=
  match op with
  | CreateUser v =>
      if existsb (fun u => bool_decide (uv_login (user_fields u) = uv_login v))
                 (res_users d)
      then Some "duplicate key value violates unique constraint res_users_login_key"
      else None
  | _ => None
  end.

Definition ext : externals :=
  {| translate := fun _ => "UserError";
     openpyxl_installed := true;
     store_refuses := refuses;
     new_work_contact := fun _ _ => None;
     float_repr := fun _ => "float";
     from_excel_date := fun _ => Raise (ValueError "not a date serial");
     int_of_str := fun _ => Raise (ValueError "invalid literal for int()");
     ilike := fun a b => bool_decide (PyStr.lower a = PyStr.lower b);
     crypt_hash := fun p => "hash:" +:+ p;
     system_random_password := fun n => "password" +:+ PyStr.str_Z (Z.of_nat n);
     employee_type_selection := Some [("employee", "Employee"); ("freelance", "Freelancer")];
     env_uid := 2;
     datetime_now := "2024-01-31 10:00:00";
     date_today := "2024-01-31" |}.

(** One company, the base group, and nothing else. *)
Definition store : directory :=
  {| res_company := [{| company_id := 1; company_name := "Acme";
                        company_partner_id := Some 1 |}];
     hr_department := []; hr_job := []; hr_employee := []; res_users := [];
     hr_religion := []; hr_blood_group := []; res_country := [];
     hr_contract_type := []; res_partner_bank := [];
     res_groups := [{| named_id := 1; named_name := "Internal User" |}];
     base_group_user := Some 1 |}.

Definition headers : list pyval :=
  List.map PStr
    ["Business Unit"; "Employee Name"; "Employee ID"; "Device ID";
     "Work Email"; "Joining Date"; "Permanent Address"; "Present Address";
     "Date of Birth"; "Gender"; "Religion"; "NID No"; "Place of Birth";
     "Nationality (Country)"; "Employee Type"; "Employment Type"].

(** A row that passes every check of the validator against [store]. *)
Definition row (name emp_id device email : string) : list pyval :=
  List.map PStr
    ["Acme"; name; emp_id; device; email; "2024-01-31"; "1 Main Street";
     "1 Main Street"; "1990-05-17"; "Female"; "None stated"; "NID-1";
     "Dhaka"; "Bangladesh"; "Employee"; "Permanent"].

Definition wizard_with (file : option xlsx) (stop : bool) (lines : list line)
  (st : wizard_state) : wizard :=
  {| wizard_id := 7; wizard_file := file;
     create_missing_departments := false; create_missing_jobs := false;
     stop_on_error := stop; line_ids := lines; wizard_state_of := st;
     import_log_id := None; output_file := None; error_file := None;
     import_summary := None |}.

Definition world_with (w : wizard) : world :=
  {| cr := {| dir := store; wiz := w; import_logs := [] |};
     id_seq := 100; draws := 0 |}.

(** An uploaded file: the header row and the data rows given. *)
Definition file_of (rows : list (list pyval)) : option xlsx :=
  Some (Sheet (headers :: rows)).

(** Two rows with the same Employee ID. *)
Definition same_id_file : option xlsx :=
  file_of [row "Ann" "E1" "D1" "ann@x.org"; row "Bob" "E1" "D2" "bob@x.org"].

(** Two rows with the same Work Email. *)
Definition same_email_file : option xlsx :=
  file_of [row "Ann" "E1" "D1" "ann@x.org"; row "Bob" "E2" "D2" "ann@x.org"].

(** One row, without an Employee Name. *)
Definition nameless_file : option xlsx :=
  file_of [row "" "E1" "D1" "ann@x.org"].


(** The world with [file] uploaded, and the world once the Validate button
    has been pressed. *)
Definition uploaded (file : option xlsx) (stop : bool) : world :=
  world_with (wizard_with file stop [] Draft).

Definition validated (file : option xlsx) (stop : bool) : world :=
  snd (action_validate ext (uploaded file stop)).

(** The same world with another file in the wizard's [file] field. *)
Definition with_file (file : option xlsx) (w : world) : world :=
  {| cr := {| dir := dir (cr w);
              wiz := {| wizard_id := wizard_id (wiz (cr w));
                        wizard_file := file;
                        create_missing_departments :=
                          create_missing_departments (wiz (cr w));
                        create_missing_jobs := create_missing_jobs (wiz (cr w));
                        stop_on_error := stop_on_error (wiz (cr w));
                        line_ids := line_ids (wiz (cr w));
                        wizard_state_of := wizard_state_of (wiz (cr w));
                        import_log_id := import_log_id (wiz (cr w));
                        output_file := output_file (wiz (cr w));
                        error_file := error_file (wiz (cr w));
                        import_summary := import_summary (wiz (cr w)) |};
              import_logs := import_logs (cr w) |};
     id_seq := id_seq w; draws := draws w |}.

(** A file of one row is validated; the file then confirmed has a second
    row, without an Employee Name, that the preview never saw. *)
Definition one_row_file : option xlsx :=
  file_of [row "Ann" "E1" "D1" "ann@x.org"].

Definition grown_file : option xlsx :=
  file_of [row "Ann" "E1" "D1" "ann@x.org"; row "" "E2" "D2" "bob@x.org"].

Definition grown (stop : bool) : world :=
  with_file grown_file (validated one_row_file stop).

(** The rows [_parse_excel] reads from [file]. *)
Definition parsed (file : option xlsx) : list (gmap string pyval) :=
  match parse_file ext file with
  | Ok rows => rows
  | Raise _ => []
  end.

Definition added_row : gmap string pyval :=
  Eval vm_compute in nth 1 (parsed grown_file) ∅.

(** The preview of [same_email_file] under each policy, its two rows, and
    the world and the lists of each loop once the first row has gone in. *)
Definition same_email_preview : world :=
  Eval vm_compute in validated same_email_file false.

Definition same_email_preview_stop : world :=
  Eval vm_compute in validated same_email_file true.

Definition first_row : gmap string pyval :=
  Eval vm_compute in nth 0 (parsed same_email_file) ∅.

Definition second_row : gmap string pyval :=
  Eval vm_compute in nth 1 (parsed same_email_file) ∅.

Definition preview_lines : gmap Z nat :=
  Eval vm_compute in build_line_by_row (line_ids (wiz (cr same_email_preview))).

Definition after_first_row : world :=
  Eval vm_compute in
    snd (confirm_row_partial ext preview_lines ([], []) first_row same_email_preview).

Definition after_first_row_stop : world :=
  Eval vm_compute in
    snd (confirm_row_stop ext preview_lines ([], []) first_row same_email_preview_stop).

Definition first_row_imported : list imported * list failed_row :=
  ([{| im_employee_name := "Ann"; im_login_email := "ann@x.org";
       im_password := "password0"; im_company := "Acme";
       im_department := ""; im_designation := "" |}], []).

End Sample.

(* ===================================================================== *)
(** ** Further runs of the model on the concrete store *)
(* ===================================================================== *)

Module Cases.

(** The preview of a file with one good row, and the world once the
    Validate button has been pressed on it. *)
Definition one_row_preview : world :=
  Eval vm_compute in Sample.validated Sample.one_row_file false.

(** The partial import of the two rows with the same Work Email, once
    confirmed: the first row is in, the second has failed. *)
Definition same_email_confirmed : world :=
  Eval vm_compute in
    snd (action_confirm_import Sample.ext Sample.same_email_preview).

(** The first row of that file, imported on its own. *)
Definition first_row_in : world :=
  Eval vm_compute in
    snd (_import_row Sample.ext Sample.first_row Sample.same_email_preview).

Definition first_row_outcome : imported :=
  {| im_employee_name := "Ann"; im_login_email := "ann@x.org";
     im_password := "password0"; im_company := "Acme";
     im_department := ""; im_designation := "" |}.

(** What validation returns for that row. *)
Definition first_row_vals : line_vals :=
  Eval vm_compute in
    validated_row Sample.ext (Sample.uploaded Sample.same_email_file false)
      Sample.first_row.

(** The religion of the rows, looked up in the empty table. *)
Definition religion_created : world :=
  Eval vm_compute in
    snd (find_or_create_named Sample.ext hr_religion CreateReligion
           with_hr_religion "None stated"
           (Sample.uploaded Sample.one_row_file false)).

(** The preview, under [stop_on_error], of the file whose only row has no
    Employee Name. *)
Definition nameless_preview_stop : world :=
  Eval vm_compute in Sample.validated Sample.nameless_file true.

(** A generator that answers its [j]-th call with [j] modulo the bound. *)
Definition counting (j b : nat) : nat := (j mod b)%nat.

(** Three rows below the header, the second one entirely empty. *)
Definition gap_rows : list (list pyval) :=
  [Sample.row "Ann" "E1" "D1" "ann@x.org";
   List.repeat PNone 16;
   Sample.row "Bob" "E2" "D2" "bob@x.org"].

End Cases.

(* ===================================================================== *)
(** ** Properties of the string helpers *)
(* ===================================================================== *)

Module PyStrFacts.
Import PyStr.

Lemma lstrip_no_space s : no_space s = true -> lstrip s = s.
Proof.
  destruct s as [|c r]; simpl; [reflexivity|].
  intros H. apply andb_prop in H as [Hc _].
  apply negb_true_iff in Hc. now rewrite Hc.
Qed.

Lemma rstrip_no_space s : no_space s = true -> rstrip s = s.
Proof.
  induction s as [|c r IH]; simpl; [reflexivity|].
  intros H. apply andb_prop in H as [Hc Hr].
  apply negb_true_iff in Hc. rewrite (IH Hr).
  destruct r; [now rewrite Hc | reflexivity].
Qed.

Lemma strip_no_space s : no_space s = true -> strip s = s.
Proof.
  intros H. unfold strip. rewrite (lstrip_no_space _ H).
  now apply rstrip_no_space.
Qed.

Lemma all_chars_weaken (p q : ascii -> bool) s :
  (forall c, p c = true -> q c = true) ->
  all_chars p s = true -> all_chars q s = true.
Proof.
  intros Hpq. induction s as [|c r IH]; simpl; [reflexivity|].
  intros H. apply andb_prop in H as [Hc Hr].
  rewrite (Hpq _ Hc), (IH Hr). reflexivity.
Qed.

Lemma N_of_digit k : (k < 10)%N -> N_of_ascii (digit k) = (48 + k)%N.
Proof.
  intros H. unfold digit. apply N_ascii_embedding. lia.
Qed.

Lemma digit_is_digit k : (k < 10)%N -> is_digit (digit k) = true.
Proof.
  intros H. unfold is_digit. rewrite (N_of_digit _ H).
  apply andb_true_intro. split; apply N.leb_le; lia.
Qed.

Lemma is_digit_not_space c : is_digit c = true -> negb (isspace c) = true.
Proof.
  unfold is_digit, isspace. intros H.
  apply andb_prop in H as [H1 H2].
  apply N.leb_le in H1. apply N.leb_le in H2.
  apply negb_true_iff.
  repeat (apply orb_false_intro); try (apply andb_false_intro1; apply N.leb_gt; lia);
    try (apply andb_false_intro2; apply N.leb_gt; lia);
    try (apply N.eqb_neq; lia).
Qed.

Lemma str_N_go_digits fuel : forall n acc,
  all_chars is_digit acc = true ->
  all_chars is_digit (str_N_go fuel n acc) = true.
Proof.
  induction fuel as [|f IH]; intros n acc Hacc; simpl; [exact Hacc|].
  assert (Hd : all_chars is_digit (String (digit (n mod 10)) acc) = true).
  { simpl. rewrite digit_is_digit, Hacc; [reflexivity|].
    apply N.mod_lt. lia. }
  destruct (n <? 10)%N; [exact Hd | now apply IH].
Qed.

Lemma str_N_digits n : all_chars is_digit (str_N n) = true.
Proof. unfold str_N. now apply str_N_go_digits. Qed.

Lemma str_N_no_space n : no_space (str_N n) = true.
Proof.
  unfold no_space. eapply all_chars_weaken; [|apply str_N_digits].
  apply is_digit_not_space.
Qed.

Lemma str_Z_no_space z : no_space (str_Z z) = true.
Proof.
  unfold str_Z. destruct (z <? 0); [|apply str_N_no_space].
  change (negb (isspace "-") && no_space (str_N (Z.to_N (- z))) = true).
  rewrite str_N_no_space. reflexivity.
Qed.

Lemma strip_str_Z z : strip (str_Z z) = str_Z z.
Proof. apply strip_no_space, str_Z_no_space. Qed.

(** The digits of a number with [k + 1] decimal digits: the first
    character is the leading digit and [k] more follow. *)
Lemma str_N_go_leading k : forall n fuel acc,
  (n < 10 ^ N.of_nat (S k))%N ->
  (k = 0%nat \/ 10 ^ N.of_nat k <= n)%N ->
  (k < fuel)%nat ->
  exists tail,
    str_N_go fuel n acc = String (digit (n / 10 ^ N.of_nat k)) tail
    /\ String.length tail = (k + String.length acc)%nat.
Proof.
  induction k as [|k IH]; intros n fuel acc Hlt Hge Hfuel.
  - destruct fuel as [|f]; [lia|]. simpl.
    change (10 ^ N.of_nat 1)%N with 10%N in Hlt.
    apply N.ltb_lt in Hlt as Hb. rewrite Hb.
    exists acc. split; [|reflexivity].
    change (10 ^ N.of_nat 0)%N with 1%N. rewrite N.div_1_r.
    now rewrite (N.mod_small _ _ Hlt).
  - destruct fuel as [|f]; [lia|]. simpl str_N_go.
    destruct Hge as [Hge|Hge]; [discriminate|].
    assert (Hp : (10 ^ N.of_nat (S k) = 10 * 10 ^ N.of_nat k)%N).
    { rewrite Nat2N.inj_succ. apply N.pow_succ_r'. }
    assert (Hp2 : (10 ^ N.of_nat (S (S k)) = 10 * 10 ^ N.of_nat (S k))%N).
    { rewrite (Nat2N.inj_succ (S k)). apply N.pow_succ_r'. }
    assert (Hpos : (0 < 10 ^ N.of_nat k)%N).
    { apply N.neq_0_lt_0, N.pow_nonzero. lia. }
    assert (H10 : (10 <= n)%N) by lia.
    apply N.ltb_ge in H10 as Hb. rewrite Hb.
    destruct (IH (n / 10)%N f (String (digit (n mod 10)) acc)) as [tail [Ht Hl]].
    + apply N.Div0.div_lt_upper_bound. lia.
    + right. apply N.div_le_lower_bound; lia.
    + lia.
    + exists tail. split.
      * rewrite Ht. f_equal. f_equal.
        rewrite N.Div0.div_div. now rewrite Hp.
      * rewrite Hl. simpl. lia.
Qed.

Lemma log2_fuel k n : (10 ^ N.of_nat k <= n)%N -> (k < S (N.to_nat (N.log2 n)))%nat.
Proof.
  intros H.
  assert (H2 : (2 ^ N.of_nat k <= n)%N).
  { etransitivity; [|exact H]. apply N.pow_le_mono_l. lia. }
  apply N.log2_le_mono in H2. rewrite N.log2_pow2 in H2 by lia. lia.
Qed.

Lemma str_N_leading k n :
  (n < 10 ^ N.of_nat (S k))%N -> (10 ^ N.of_nat k <= n)%N ->
  exists tail,
    str_N n = String (digit (n / 10 ^ N.of_nat k)) tail
    /\ String.length tail = k.
Proof.
  intros Hlt Hge. unfold str_N.
  destruct (str_N_go_leading k n (S (N.to_nat (N.log2 n))) EmptyString)
    as [tail [Ht Hl]]; auto using log2_fuel.
  exists tail. split; [exact Ht|]. simpl in Hl. lia.
Qed.

(** Every positive number has a number of digits. *)
Lemma digits_exist n : (1 <= n)%N ->
  exists k, (10 ^ N.of_nat k <= n < 10 ^ N.of_nat (S k))%N.
Proof.
  intros H.
  assert (Hex : exists m, (n < 10 ^ N.of_nat m)%N).
  { exists (S (N.to_nat (N.log2 n))).
    apply N.lt_le_trans with (2 ^ N.of_nat (S (N.to_nat (N.log2 n))))%N.
    - rewrite Nat2N.inj_succ, N2Nat.id. apply N.log2_spec. lia.
    - apply N.pow_le_mono_l. lia. }
  destruct Hex as [m Hm]. revert Hm.
  induction m as [|m IH]; intros Hm.
  - change (10 ^ N.of_nat 0)%N with 1%N in Hm. lia.
  - destruct (N.lt_ge_cases n (10 ^ N.of_nat m)) as [Hlt|Hge].
    + now apply IH.
    + exists m. split; assumption.
Qed.

End PyStrFacts.

(* ===================================================================== *)
(** ** Text normalisation *)
(* ===================================================================== *)

Section ParseStr.

Context (E : externals).
Import PyStr PyStrFacts.

Lemma digit_one_iff k : (k < 10)%N -> digit k = "1"%char <-> k = 1%N.
Proof.
  intros Hk. split; [|now intros ->].
  intros H. apply (f_equal N_of_ascii) in H.
  rewrite (N_of_digit _ Hk) in H. simpl in H. lia.
Qed.

(** The rendering of an integer has ten characters and begins with "1"
    exactly for the numbers from 1000000000 to 1999999999. *)
Lemma ten_chars_leading_one z :
  (String.length (str_Z z) =? 10)%nat && startswith (str_Z z) "1"
  = (1000000000 <=? z) && (z <? 2000000000).
Proof.
  unfold str_Z. destruct (Z.ltb_spec z 0) as [Hneg|Hnn].
  - simpl startswith. rewrite andb_false_r. symmetry.
    apply andb_false_intro1. apply Z.leb_gt. lia.
  - destruct (Z.eq_dec z 0) as [->|Hz]; [reflexivity|].
    destruct (digits_exist (Z.to_N z)) as [k [Hge Hlt]]; [lia|].
    destruct (str_N_leading k _ Hlt Hge) as [tail [Hs Hl]].
    rewrite Hs. simpl String.length. rewrite Hl. simpl startswith.
    assert (Hpos : (0 < 10 ^ N.of_nat k)%N).
    { apply N.neq_0_lt_0, N.pow_nonzero. lia. }
    destruct (Nat.eq_dec k 9%nat) as [->|Hk].
    + change (10 ^ N.of_nat 9)%N with 1000000000%N in *.
      change (10 ^ N.of_nat 10)%N with 10000000000%N in *.
      simpl Nat.eqb. simpl andb.
      assert (Hq : (Z.to_N z / 1000000000 < 10)%N).
      { apply N.Div0.div_lt_upper_bound. lia. }
      assert (H1 : (1000000000 <=? z) = true) by (apply Z.leb_le; lia).
      rewrite H1. simpl andb.
      destruct (Z.ltb_spec z 2000000000) as [Hlt2|Hge2].
      * apply bool_decide_eq_true. apply digit_one_iff; [exact Hq|].
        apply N.le_antisymm.
        -- apply N.lt_succ_r. apply N.Div0.div_lt_upper_bound. lia.
        -- apply N.div_le_lower_bound; lia.
      * apply bool_decide_eq_false. rewrite (digit_one_iff _ Hq).
        intros Heq.
        assert (2 <= Z.to_N z / 1000000000)%N
          by (apply N.div_le_lower_bound; lia).
        lia.
    + replace (S k =? 10)%nat with false
        by (symmetry; apply Nat.eqb_neq; lia).
      simpl andb. symmetry.
      destruct (Nat.lt_ge_cases k 9%nat) as [Hsmall|Hbig].
      * apply andb_false_intro1. apply Z.leb_gt.
        assert (10 ^ N.of_nat (S k) <= 10 ^ N.of_nat 9)%N
          by (apply N.pow_le_mono_r; lia).
        change (10 ^ N.of_nat 9)%N with 1000000000%N in *. lia.
      * apply andb_false_intro2. apply Z.ltb_ge.
        assert (10 ^ N.of_nat 10 <= 10 ^ N.of_nat k)%N
          by (apply N.pow_le_mono_r; lia).
        change (10 ^ N.of_nat 10)%N with 10000000000%N in *. lia.
Qed.

Lemma parse_str_int z :
  _parse_str E (PInt z)
  = if (1000000000 <=? z) && (z <? 2000000000)
    then String "0" (str_Z z) else str_Z z.
Proof.
  unfold _parse_str. simpl is_none_or_empty. cbv iota.
  simpl py_str. rewrite strip_str_Z, ten_chars_leading_one. reflexivity.
Qed.

Lemma parse_str_integral_float f z :
  PyFloat.is_integer f = true -> PyFloat.to_int f = Some z ->
  _parse_str E (PFloat f) = _parse_str E (PInt z).
Proof.
  intros Hi Hz. unfold _parse_str. simpl is_none_or_empty. cbv iota.
  now rewrite Hi, Hz.
Qed.


End ParseStr.

(* ===================================================================== *)
(** ** Date coercion *)
(* ===================================================================== *)

Section ParseDate.

Context (E : externals).

Lemma strptime_raises_ValueError s fmt e :
  Strptime.strptime s fmt = Raise e -> exists m, e = ValueError m.
Proof.
  unfold Strptime.strptime.
  destruct (Strptime.match_fmt fmt s) as [[gs rest]|].
  - destruct (bool_decide (rest = EmptyString)).
    + destruct (Calendar.valid _ _ _); [discriminate|].
      intros [= <-]. eauto.
    + intros [= <-]. eauto.
  - intros [= <-]. eauto.
Qed.

Lemma parse_date_formats_first raw fmts :
  _parse_date_formats raw fmts = Ok (Strptime.first_some (accepts raw) fmts).
Proof.
  induction fmts as [|fmt fmts IH]; simpl; [reflexivity|].
  unfold accepts at 1.
  destruct (Strptime.strptime raw fmt) as [t|e] eqn:Hs; [reflexivity|].
  destruct (strptime_raises_ValueError _ _ _ Hs) as [m ->]. exact IH.
Qed.

Lemma first_some_None {A B} (f : A -> option B) l :
  Strptime.first_some f l = None <-> forall a, In a l -> f a = None.
Proof.
  induction l as [|a l IH]; simpl.
  - split; [intros _ a []|reflexivity].
  - destruct (f a) eqn:Ha.
    + split; [discriminate|]. intros H. rewrite <- Ha. apply H. now left.
    + rewrite IH. split.
      * intros H b [<-|Hb]; auto.
      * intros H b Hb. apply H. now right.
Qed.

Lemma first_some_Some {A B} (f : A -> option B) l b :
  Strptime.first_some f l = Some b ->
  exists pre a post,
    l = pre ++ a :: post /\ f a = Some b /\ forall x, In x pre -> f x = None.
Proof.
  induction l as [|a l IH]; simpl; [discriminate|].
  destruct (f a) eqn:Ha.
  - intros [= <-]. exists [], a, l. repeat split; auto. intros x [].
  - intros H. destruct (IH H) as (pre & a' & post & -> & Hf & Hpre).
    exists (a :: pre), a', post. repeat split; auto.
    intros x [<-|Hx]; auto.
Qed.

Lemma parse_date_text s :
  _parse_date E (PStr s)
  = Ok (Strptime.first_some (accepts (PyStr.strip s)) (DATE_FORMATS)).
Proof.
  destruct s as [|c r]; [reflexivity|].
  unfold _parse_date.
  assert (Hne : is_none_or_empty (PStr (String c r)) = false)
    by (apply bool_decide_eq_false_2; discriminate).
  rewrite Hne. cbv beta iota. simpl isinstance_float. simpl isinstance_int.
  cbv iota. simpl py_str. apply parse_date_formats_first.
Qed.

Lemma parse_date_never_raises raw : exists r, _parse_date E raw = Ok r.
Proof.
  unfold _parse_date.
  destruct (is_none_or_empty raw); [eauto|].
  destruct raw; eauto;
    repeat match goal with
           | |- context [match ?x with Some _ => _ | None => _ end] =>
               destruct x
           end;
    eauto; rewrite parse_date_formats_first; eauto.
Qed.

End ParseDate.

(* ===================================================================== *)
(** ** Reasoning about computations of the monad *)
(* ===================================================================== *)

Create HintDb reads discriminated.
Create HintDb frame discriminated.

Section MonadFacts.

Context (E : externals).

Lemma reads_ret {A} (a : A) : reads (ret a).
Proof. intros w. now exists a. Qed.

Lemma reads_bind {A B} (m : M A) (k : A -> M B) :
  reads m -> (forall a, reads (k a)) -> reads (bind m k).
Proof.
  intros Hm Hk w. destruct (Hm w) as [a Ha].
  destruct (Hk a w) as [b Hb]. exists b.
  unfold bind. now rewrite Ha.
Qed.

Lemma reads_get_dir : reads get_dir.
Proof. intros w. now eexists. Qed.

Lemma reads_get_wiz : reads get_wiz.
Proof. intros w. now eexists. Qed.

Lemma reads_lift_res {A} (r : res A) : (exists a, r = Ok a) -> reads (lift_res r).
Proof. intros [a ->] w. now exists a. Qed.

Lemma reads_forM {A B} (l : list A) (f : A -> M B) :
  (forall a, reads (f a)) -> reads (forM l f).
Proof.
  intros Hf. induction l as [|a l IH]; simpl.
  - apply reads_ret.
  - apply reads_bind; [apply Hf|]. intros b.
    apply reads_bind; [apply IH|]. intros bs. apply reads_ret.
Qed.

Lemma reads_run {A} (m : M A) w : reads m -> snd (m w) = w.
Proof. intros H. destruct (H w) as [a ->]. reflexivity. Qed.

Lemma preserves_ret {A X} (f : world -> X) (a : A) : preserves f (ret a).
Proof. intros w. reflexivity. Qed.

Lemma preserves_raise {A X} (f : world -> X) e : preserves f (@raise A e).
Proof. intros w. reflexivity. Qed.

Lemma preserves_lift_res {A X} (f : world -> X) (r : res A) :
  preserves f (lift_res r).
Proof. intros w. reflexivity. Qed.

Lemma preserves_bind {A B X} (f : world -> X) (m : M A) (k : A -> M B) :
  preserves f m -> (forall a, preserves f (k a)) -> preserves f (bind m k).
Proof.
  intros Hm Hk w. unfold bind. specialize (Hm w).
  destruct (m w) as [[a|e] w']; simpl in *.
  - now rewrite Hk.
  - exact Hm.
Qed.

Lemma preserves_try_except {A X} (f : world -> X) (m : M A) (h : exn -> M A) :
  preserves f m -> (forall e, preserves f (h e)) -> preserves f (try_except m h).
Proof.
  intros Hm Hh w. unfold try_except. specialize (Hm w).
  destruct (m w) as [[a|e] w']; simpl in *.
  - exact Hm.
  - now rewrite Hh.
Qed.

Lemma preserves_reads {A X} (f : world -> X) (m : M A) : reads m -> preserves f m.
Proof. intros H w. now rewrite (reads_run m w H). Qed.

Lemma preserves_forM {A B X} (f : world -> X) (l : list A) (g : A -> M B) :
  (forall a, preserves f (g a)) -> preserves f (forM l g).
Proof.
  intros Hg. induction l as [|a l IH]; simpl.
  - apply preserves_ret.
  - apply preserves_bind; [apply Hg|]. intros b.
    apply preserves_bind; [apply IH|]. intros bs. apply preserves_ret.
Qed.

Lemma preserves_forM_ {A X} (f : world -> X) (l : list A) (g : A -> M unit) :
  (forall a, preserves f (g a)) -> preserves f (forM_ l g).
Proof.
  intros Hg. induction l as [|a l IH]; simpl.
  - apply preserves_ret.
  - apply preserves_bind; [apply Hg|]. intros _. apply IH.
Qed.

(** A savepoint keeps whatever its body keeps, and more: when the body
    raises, the cursor is the one of the entry. *)
Lemma preserves_savepoint {A X} (g : db -> X) (m : M A) :
  preserves (fun w => g (cr w)) m -> preserves (fun w => g (cr w)) (savepoint m).
Proof.
  intros Hm w. unfold savepoint. specialize (Hm w).
  destruct (m w) as [[a|e] w']; simpl in *; [exact Hm|reflexivity].
Qed.

Lemma savepoint_raise {A} (m : M A) w e w' :
  m w = (Raise e, w') -> savepoint m w = (Raise e, rollback w w').
Proof. intros H. unfold savepoint. now rewrite H. Qed.

Lemma savepoint_ok {A} (m : M A) w a w' :
  m w = (Ok a, w') -> savepoint m w = (Ok a, w').
Proof. intros H. unfold savepoint. now rewrite H. Qed.

Lemma preserves_modify_wiz_dir f : preserves dir_of (modify_wiz f).
Proof. intros w. reflexivity. Qed.

Lemma preserves_modify_wiz_logs f : preserves logs_of (modify_wiz f).
Proof. intros w. reflexivity. Qed.

Lemma preserves_modify_dir_wiz f : preserves wiz_of (modify_dir f).
Proof. intros w. reflexivity. Qed.

Lemma preserves_modify_dir_logs f : preserves logs_of (modify_dir f).
Proof. intros w. reflexivity. Qed.

Lemma preserves_next_id {X} (g : db -> X) : preserves (fun w => g (cr w)) next_id.
Proof. intros w. reflexivity. Qed.

Lemma preserves_random_password {X} (g : db -> X) :
  preserves (fun w => g (cr w)) (_random_password E).
Proof. intros w. reflexivity. Qed.

Lemma preserves_store_check {X} (f : world -> X) op : preserves f (store_check E op).
Proof.
  unfold store_check. apply preserves_bind.
  - apply preserves_reads, reads_get_dir.
  - intros d. destruct (store_refuses E d op);
      [apply preserves_raise | apply preserves_ret].
Qed.

End MonadFacts.

#[export] Hint Resolve reads_ret reads_get_dir reads_get_wiz : reads.
#[export] Hint Resolve preserves_ret preserves_raise preserves_lift_res
  preserves_modify_wiz_dir preserves_modify_wiz_logs
  preserves_modify_dir_wiz preserves_modify_dir_logs
  preserves_store_check : frame.

(** Walk through a computation, one bind or one case at a time. *)
Ltac reads_step :=
  match goal with
  | |- reads (bind _ _) => apply reads_bind; [|intros ?]
  | |- reads (forM _ _) => apply reads_forM; intros ?
  | |- reads (if ?b then _ else _) => destruct b
  | |- reads (match ?x with _ => _ end) => destruct x
  | |- reads _ => solve [auto with reads]
  end.

Ltac frame_step :=
  match goal with
  | |- preserves _ (bind _ _) => apply preserves_bind; [|intros ?]
  | |- preserves _ (try_except _ _) => apply preserves_try_except; [|intros ?]
  | |- preserves _ (forM _ _) => apply preserves_forM; intros ?
  | |- preserves _ (forM_ _ _) => apply preserves_forM_; intros ?
  | |- preserves _ (if ?b then _ else _) => destruct b
  | |- preserves _ (match ?x with _ => _ end) => destruct x
  | |- preserves _ _ => solve [auto with frame]
  end.

(* ===================================================================== *)
(** ** Validation only reads *)
(* ===================================================================== *)

Section ValidationFacts.

Context (E : externals).

Lemma reads_search_company n : reads (search_company n).
Proof. unfold search_company. repeat reads_step. Qed.

Lemma reads_search_department n c : reads (search_department n c).
Proof. unfold search_department. repeat reads_step. Qed.

Lemma reads_search_job n : reads (search_job n).
Proof. unfold search_job. repeat reads_step. Qed.

Lemma reads_search_employee f v : reads (search_employee f v).
Proof. unfold search_employee. repeat reads_step. Qed.

Lemma reads_search_user_login l : reads (search_user_login l).
Proof. unfold search_user_login. repeat reads_step. Qed.

Hint Resolve reads_search_company reads_search_department reads_search_job
  reads_search_employee reads_search_user_login : reads.

Lemma reads_resolve_employee_ref r : reads (_resolve_employee_ref r).
Proof. unfold _resolve_employee_ref. repeat reads_step. Qed.

Lemma reads_parse_date raw : reads (lift_res (_parse_date E raw)).
Proof. apply reads_lift_res, parse_date_never_raises. Qed.

Hint Resolve reads_resolve_employee_ref reads_parse_date : reads.

Lemma reads_joining_date_errors raw : reads (joining_date_errors E raw).
Proof. unfold joining_date_errors. repeat reads_step. Qed.

Lemma reads_birth_date_errors raw : reads (birth_date_errors E raw).
Proof. unfold birth_date_errors. repeat reads_step. Qed.

Hint Resolve reads_joining_date_errors reads_birth_date_errors : reads.

Lemma reads_validation_errors row : reads (validation_errors E row).
Proof. unfold validation_errors. cbv zeta. repeat reads_step. Qed.

Lemma reads_validate_row row : reads (_validate_row E row).
Proof.
  unfold _validate_row. apply reads_bind; [apply reads_validation_errors|].
  intros errs. repeat reads_step.
Qed.

Lemma preserves_parse_excel {X} (f : world -> X) : preserves f (_parse_excel E).
Proof.
  unfold _parse_excel. apply preserves_bind.
  - apply preserves_reads, reads_get_wiz.
  - intros w. apply preserves_lift_res.
Qed.

Lemma action_validate_preserves_dir : preserves dir_of (action_validate E).
Proof.
  unfold action_validate.
  apply preserves_bind; [apply preserves_reads, reads_get_wiz|]. intros w0.
  destruct (negb _); [apply preserves_raise|].
  apply preserves_bind; [apply preserves_parse_excel|]. intros rows.
  apply preserves_bind; [apply preserves_modify_wiz_dir|]. intros _.
  apply preserves_bind.
  { apply preserves_forM. intros row. apply preserves_reads, reads_validate_row. }
  intros vals. repeat frame_step.
Qed.

Lemma action_validate_preserves_logs : preserves logs_of (action_validate E).
Proof.
  unfold action_validate.
  apply preserves_bind; [apply preserves_reads, reads_get_wiz|]. intros w0.
  destruct (negb _); [apply preserves_raise|].
  apply preserves_bind; [apply preserves_parse_excel|]. intros rows.
  apply preserves_bind; [apply preserves_modify_wiz_logs|]. intros _.
  apply preserves_bind.
  { apply preserves_forM. intros row. apply preserves_reads, reads_validate_row. }
  intros vals. repeat frame_step.
Qed.

End ValidationFacts.

(* ===================================================================== *)
(** ** What importing a row leaves alone *)
(* ===================================================================== *)

Section ImportFacts.

Context (E : externals).

Hint Resolve reads_search_company reads_search_department reads_search_job
  reads_search_employee reads_search_user_login reads_resolve_employee_ref
  reads_parse_date : reads.

Lemma preserves_next_id_logs : preserves logs_of next_id.
Proof. intros w. reflexivity. Qed.

Lemma preserves_next_id_wiz : preserves wiz_of next_id.
Proof. intros w. reflexivity. Qed.

Lemma preserves_random_password_logs : preserves logs_of (_random_password E).
Proof. intros w. reflexivity. Qed.

Lemma preserves_random_password_wiz : preserves wiz_of (_random_password E).
Proof. intros w. reflexivity. Qed.

Hint Resolve preserves_next_id_logs preserves_next_id_wiz
  preserves_random_password_logs preserves_random_password_wiz : frame.

Hint Extern 1 (preserves _ (search_company _)) =>
  apply preserves_reads, reads_search_company : frame.
Hint Extern 1 (preserves _ (search_department _ _)) =>
  apply preserves_reads, reads_search_department : frame.
Hint Extern 1 (preserves _ (search_job _)) =>
  apply preserves_reads, reads_search_job : frame.
Hint Extern 1 (preserves _ (_resolve_employee_ref _)) =>
  apply preserves_reads, reads_resolve_employee_ref : frame.
Hint Extern 1 (preserves _ get_dir) =>
  apply preserves_reads, reads_get_dir : frame.
Hint Extern 1 (preserves _ get_wiz) =>
  apply preserves_reads, reads_get_wiz : frame.

Ltac beside := split; repeat frame_step.

Lemma beside_create_named op put name
  (Hput : forall f, preserves logs_of (modify_dir (put f))
                    /\ preserves wiz_of (modify_dir (put f))) :
  beside_directory (create_named E op put name).
Proof. unfold create_named. beside; apply Hput. Qed.

Lemma beside_create_department n c : beside_directory (create_department E n c).
Proof. unfold create_department. beside. Qed.

Lemma beside_create_employee v : beside_directory (create_employee E v).
Proof. unfold create_employee. beside. Qed.

Lemma beside_write_employee i wr : beside_directory (write_employee E i wr).
Proof. unfold write_employee. beside. Qed.

Lemma beside_create_bank_account a c p :
  beside_directory (create_bank_account E a c p).
Proof. unfold create_bank_account. beside. Qed.

Lemma beside_create_user v : beside_directory (create_user E v).
Proof. unfold create_user. beside. Qed.

Lemma beside_set_encrypted_password i h :
  beside_directory (_set_encrypted_password E i h).
Proof. unfold _set_encrypted_password. beside. Qed.

Lemma beside_modify_dir f :
  preserves logs_of (modify_dir f) /\ preserves wiz_of (modify_dir f).
Proof. split; intros w; reflexivity. Qed.

Lemma beside_find_or_create_named table op put name
  (Hput : forall f, preserves logs_of (modify_dir (put f))
                    /\ preserves wiz_of (modify_dir (put f))) :
  beside_directory (find_or_create_named E table op put name).
Proof.
  unfold find_or_create_named.
  destruct (beside_create_named (op name) put name Hput) as [Hl Hw].
  split; repeat frame_step; assumption.
Qed.

Lemma beside_attach_bank_accounts emp comp str :
  beside_directory (attach_bank_accounts E emp comp str).
Proof.
  unfold attach_bank_accounts.
  split; repeat frame_step;
    first [ apply beside_create_bank_account | apply beside_write_employee ].
Qed.

Lemma beside_import_row row : beside_directory (_import_row E row).
Proof.
  unfold _import_row. cbv zeta.
  split; repeat frame_step;
    first
      [ apply beside_create_department
      | apply beside_create_named; intros; apply beside_modify_dir
      | apply beside_find_or_create_named; intros; apply beside_modify_dir
      | apply beside_create_employee
      | apply beside_write_employee
      | apply beside_attach_bank_accounts
      | apply beside_create_user
      | apply beside_set_encrypted_password ].
Qed.

End ImportFacts.

(* ===================================================================== *)
(** ** The two loops of the confirmation *)
(* ===================================================================== *)

Section ConfirmFacts.

Context (E : externals).

Lemma update_line_run ix f w : update_line ix f w = (Ok tt, touch_line ix f w).
Proof. unfold touch_line, update_line. destruct ix; reflexivity. Qed.

Lemma touch_line_None f w : touch_line None f w = w.
Proof. reflexivity. Qed.

Lemma touch_line_dir ix f w : dir_of (touch_line ix f w) = dir_of w.
Proof. unfold touch_line, update_line. destruct ix; reflexivity. Qed.

Lemma touch_line_logs ix f w : logs_of (touch_line ix f w) = logs_of w.
Proof. unfold touch_line, update_line. destruct ix; reflexivity. Qed.

Lemma touch_line_lines ix f w :
  line_ids (wiz_of (touch_line ix f w))
  = match ix with
    | Some i => alter f i (line_ids (wiz_of w))
    | None => line_ids (wiz_of w)
    end.
Proof. unfold touch_line, update_line. destruct ix; reflexivity. Qed.

Lemma rollback_dir w w' : dir_of (rollback w w') = dir_of w.
Proof. reflexivity. Qed.

Lemma rollback_logs w w' : logs_of (rollback w w') = logs_of w.
Proof. reflexivity. Qed.

Lemma rollback_wiz w w' : wiz_of (rollback w w') = wiz_of w.
Proof. reflexivity. Qed.

(** One pass of the partial loop, case by case. *)
Lemma confirm_row_partial_cases lbr acc row w :
  confirm_row_partial E lbr acc row w
  = let line := lookup_line lbr row in
    match marked_invalid lbr row (wiz_of w) with
    | Some err =>
        (Ok (acc.1, acc.2 ++ [failed row err]), touch_line line (set_status Failed) w)
    | None =>
        match _import_row E row w with
        | (Ok (Imported r), w') =>
            (Ok (acc.1 ++ [r], acc.2), touch_line line (set_status Success) w')
        | (Ok (ImportFailed e), w') =>
            (Ok (acc.1, acc.2 ++ [failed row (import_error_text e)]),
             touch_line line (set_error_text (import_error_text e))
               (touch_line line (set_status Failed) (rollback w w')))
        | (Raise e, w') =>
            (Ok (acc.1, acc.2 ++ [failed row (exn_str (translate E) e)]),
             touch_line line (set_error_text (exn_str (translate E) e))
               (touch_line line (set_status Failed) (rollback w w')))
        end
    end.
Proof.
  cbv zeta. unfold confirm_row_partial, marked_invalid, read_line.
  unfold bind, ret, get_wiz, try_except, savepoint, raise. cbv beta iota zeta.
  fold (wiz_of w).
  destruct (invalid_line _) as [err|].
  - rewrite update_line_run. reflexivity.
  - destruct (_import_row E row w) as [[[e|r]|e] w'].
    + rewrite !update_line_run. reflexivity.
    + rewrite update_line_run. reflexivity.
    + rewrite !update_line_run. reflexivity.
Qed.

(** One pass of the loop under [stop_on_error], case by case. *)
Lemma confirm_row_stop_cases lbr acc row w :
  confirm_row_stop E lbr acc row w
  = let line := lookup_line lbr row in
    match marked_invalid lbr row (wiz_of w) with
    | Some err =>
        (Raise (UserError (RowHasValidationErrors (get row "_row_no") err)),
         touch_line line (set_status Failed) w)
    | None =>
        match _import_row E row w with
        | (Ok (Imported r), w') =>
            (Ok (acc.1 ++ [r], acc.2), touch_line line (set_status Success) w')
        | (Ok (ImportFailed e), w') =>
            (Raise (UserError (RowFailedDuringImport (get row "_row_no")
                                 (import_error_text e))),
             touch_line line (set_error_text (import_error_text e))
               (touch_line line (set_status Failed) w'))
        | (Raise e, w') => (Raise e, w')
        end
    end.
Proof.
  cbv zeta. unfold confirm_row_stop, marked_invalid, read_line.
  unfold bind, ret, get_wiz, raise. cbv beta iota zeta.
  fold (wiz_of w).
  destruct (invalid_line _) as [err|].
  - rewrite update_line_run. reflexivity.
  - destruct (_import_row E row w) as [[[e|r]|e] w'].
    + rewrite !update_line_run. reflexivity.
    + rewrite update_line_run. reflexivity.
    + reflexivity.
Qed.

Lemma confirm_loop_app body acc pre rows w :
  confirm_loop body acc (pre ++ rows) w
  = match confirm_loop body acc pre w with
    | (Ok acc', w') => confirm_loop body acc' rows w'
    | (Raise e, w') => (Raise e, w')
    end.
Proof.
  revert acc w. induction pre as [|row pre IH]; intros acc w; [reflexivity|].
  simpl. unfold bind. destruct (body acc row w) as [[acc'|e] w']; [apply IH|reflexivity].
Qed.

Lemma confirm_loop_cons body acc row rows w :
  confirm_loop body acc (row :: rows) w
  = match body acc row w with
    | (Ok acc', w') => confirm_loop body acc' rows w'
    | (Raise e, w') => (Raise e, w')
    end.
Proof. reflexivity. Qed.

Lemma import_row_logs row w : logs_of (snd (_import_row E row w)) = logs_of w.
Proof. apply (proj1 (beside_import_row E row)). Qed.

(** A pass of the partial loop never raises, keeps the import logs, and
    adds one entry to one of the two lists. *)
Lemma confirm_row_partial_ok lbr acc row w :
  exists acc' w',
    confirm_row_partial E lbr acc row w = (Ok acc', w')
    /\ logs_of w' = logs_of w
    /\ (length acc'.1 + length acc'.2 = S (length acc.1 + length acc.2))%nat.
Proof.
  rewrite confirm_row_partial_cases. cbv zeta.
  destruct (marked_invalid lbr row (wiz_of w)) as [err|].
  - eexists _, _. split; [reflexivity|]. split; [apply touch_line_logs|].
    simpl. rewrite length_app. simpl. lia.
  - pose proof (import_row_logs row w) as Hl.
    destruct (_import_row E row w) as [[[e|r]|e] w']; simpl in Hl;
      eexists _, _; (split; [reflexivity|]); split;
      rewrite ?touch_line_logs, ?rollback_logs; auto;
      simpl; rewrite length_app; simpl; lia.
Qed.

Lemma confirm_loop_partial_ok lbr rows : forall acc w,
  exists acc' w',
    confirm_loop (confirm_row_partial E lbr) acc rows w = (Ok acc', w')
    /\ logs_of w' = logs_of w
    /\ (length acc'.1 + length acc'.2
        = length rows + (length acc.1 + length acc.2))%nat.
Proof.
  induction rows as [|row rows IH]; intros acc w.
  - exists acc, w. auto.
  - rewrite confirm_loop_cons.
    destruct (confirm_row_partial_ok lbr acc row w) as (acc1 & w1 & -> & Hl1 & Hn1).
    destruct (IH acc1 w1) as (acc2 & w2 & -> & Hl2 & Hn2).
    exists acc2, w2. split; [reflexivity|]. split; [congruence|].
    simpl. lia.
Qed.

(** A pass of the loop under [stop_on_error] keeps the import logs; when it
    returns, it has added one entry to [results] and none to
    [failed_rows]. *)
Lemma confirm_row_stop_inv lbr acc row w :
  logs_of (snd (confirm_row_stop E lbr acc row w)) = logs_of w
  /\ forall acc' w',
       confirm_row_stop E lbr acc row w = (Ok acc', w') ->
       acc'.2 = acc.2 /\ length acc'.1 = S (length acc.1).
Proof.
  rewrite confirm_row_stop_cases. cbv zeta.
  destruct (marked_invalid lbr row (wiz_of w)) as [err|].
  - split; [apply touch_line_logs|]. intros ? ? [=].
  - pose proof (import_row_logs row w) as Hl.
    destruct (_import_row E row w) as [[[e|r]|e] w']; simpl in Hl; simpl.
    + split; [now rewrite !touch_line_logs|]. intros ? ? [=].
    + split; [now rewrite touch_line_logs|].
      intros ? ? [= <- <-]. simpl. rewrite length_app. simpl. split; [reflexivity|lia].
    + split; [exact Hl|]. intros ? ? [=].
Qed.

Lemma confirm_loop_stop_inv lbr rows : forall acc w,
  logs_of (snd (confirm_loop (confirm_row_stop E lbr) acc rows w)) = logs_of w
  /\ forall acc' w',
       confirm_loop (confirm_row_stop E lbr) acc rows w = (Ok acc', w') ->
       acc'.2 = acc.2 /\ length acc'.1 = (length rows + length acc.1)%nat.
Proof.
  induction rows as [|row rows IH]; intros acc w.
  - split; [reflexivity|]. intros ? ? [= <- <-]. auto.
  - rewrite confirm_loop_cons.
    destruct (confirm_row_stop_inv lbr acc row w) as [Hl Hok].
    destruct (confirm_row_stop E lbr acc row w) as [[acc1|e] w1]; simpl in *.
    + destruct (Hok acc1 w1 eq_refl) as [H2 H1].
      destruct (IH acc1 w1) as [Hl' Hok'].
      split; [congruence|].
      intros acc' w' Hrun. destruct (Hok' _ _ Hrun) as [H2' H1'].
      split; [congruence|lia].
    + split; [exact Hl|]. intros ? ? [=].
Qed.

Lemma parse_file_ok_openpyxl file rows :
  parse_file E file = Ok rows -> openpyxl_installed E = true.
Proof.
  unfold parse_file. destruct (openpyxl_installed E); [reflexivity|discriminate].
Qed.

(** What [action_confirm_import] does once the file is read: the loop of
    the chosen policy, then the two workbooks, the log and the wizard. *)
Lemma action_confirm_import_run w rows :
  wizard_state_of (wiz_of w) = Preview ->
  parse_file E (wizard_file (wiz_of w)) = Ok rows ->
  action_confirm_import E w
  = let lbr := build_line_by_row (line_ids (wiz_of w)) in
    match confirm_loop
            (if stop_on_error (wiz_of w)
             then confirm_row_stop E lbr else confirm_row_partial E lbr)
            ([], []) rows w with
    | (Raise e, w') => (Raise e, w')
    | (Ok acc, w') =>
        match _build_output_excel E acc.1 w', _build_error_excel E acc.2 w' with
        | (Ok out, _), (Ok err, _) =>
            (Ok (ActWindow (wizard_id (wiz_of w))),
             snd (modify_wiz
                    (finish_wizard (id_seq w') out err
                       (summary_text rows acc.1 acc.2))
                    (snd (add_import_log
                            (summary_log E (id_seq w') rows acc.1 acc.2 out err)
                            (snd (next_id w'))))))
        | _, _ => (Raise (UserError OpenpyxlRequired), w')
        end
    end.
Proof.
  intros Hst Hparse. pose proof (parse_file_ok_openpyxl _ _ Hparse) as Hopx.
  unfold action_confirm_import, _parse_excel, bind, get_wiz, lift_res.
  cbv beta iota zeta. fold (wiz_of w). rewrite Hst.
  rewrite bool_decide_eq_true_2 by reflexivity. cbn [negb]. cbv beta iota.
  fold (wiz_of w). rewrite Hparse. cbv beta iota zeta.
  destruct (stop_on_error (wiz_of w)).
  all: destruct (confirm_loop _ _ rows w) as [[acc|e] w']; [|reflexivity].
  all: unfold _build_output_excel, _build_error_excel; rewrite Hopx; cbn [negb]; cbv iota.
  all: destruct acc as [results failed_rows]; simpl fst; simpl snd.
  all: unfold ret.
  all: destruct results, failed_rows; reflexivity.
Qed.
End ConfirmFacts.

(* ===================================================================== *)
(** ** Row numbers and the match of rows to preview lines *)
(* ===================================================================== *)

Section RowFacts.

Context (E : externals).

Lemma row_dict_lookup_other (hs : list string) : forall vs (d : gmap string pyval) k,
  k ∉ hs ->
  fold_left (fun d hv => <[ hv.1 := hv.2 ]> d) (zip hs vs) d !! k = d !! k.
Proof.
  induction hs as [|h hs IH]; intros vs d k Hk; [reflexivity|].
  destruct vs as [|v vs]; [reflexivity|]. simpl.
  rewrite IH by (intros Hin; apply Hk; now right).
  apply lookup_insert_ne. intros ->. apply Hk. now left.
Qed.

Lemma make_row_dict_row_no hs n vs :
  "_row_no" ∉ hs -> make_row_dict hs n vs !! "_row_no" = Some (PInt n).
Proof.
  intros H. unfold make_row_dict. rewrite row_dict_lookup_other by exact H.
  apply lookup_singleton_eq.
Qed.

(** Every dictionary of the result comes from a row that is not empty, at
    the position its number says. *)
Lemma parse_rows_sound hs rows : forall n d,
  d ∈ parse_rows E hs n rows ->
  exists k row_vals,
    rows !! k = Some row_vals /\ row_is_empty E row_vals = false
    /\ d = make_row_dict hs (n + Z.of_nat k) row_vals.
Proof.
  induction rows as [|r rows IH]; intros n d Hd; simpl in Hd.
  - now apply elem_of_nil in Hd.
  - destruct (row_is_empty E r) eqn:Hr.
    + destruct (IH _ _ Hd) as (k & rv & Hk & He & ->).
      exists (S k), rv. repeat split; auto. f_equal. lia.
    + apply elem_of_cons in Hd as [->|Hd].
      * exists 0%nat, r. repeat split; auto. f_equal. lia.
      * destruct (IH _ _ Hd) as (k & rv & Hk & He & ->).
        exists (S k), rv. repeat split; auto. f_equal. lia.
Qed.

(** Every row that is not empty is in the result, under its position. *)
Lemma parse_rows_complete hs rows : forall n k row_vals,
  rows !! k = Some row_vals -> row_is_empty E row_vals = false ->
  make_row_dict hs (n + Z.of_nat k) row_vals ∈ parse_rows E hs n rows.
Proof.
  induction rows as [|r rows IH]; intros n k rv Hk He; [discriminate|].
  simpl. destruct k as [|k]; simpl in Hk.
  - injection Hk as ->. rewrite He. replace (n + Z.of_nat 0) with n by lia.
    apply list_elem_of_here.
  - specialize (IH (n + 1) k rv Hk He).
    replace (n + 1 + Z.of_nat k) with (n + Z.of_nat (S k)) in IH by lia.
    destruct (row_is_empty E r); [exact IH|]. now apply list_elem_of_further.
Qed.

Lemma parse_rows_numbers_NoDup hs rows : forall n,
  "_row_no" ∉ hs ->
  NoDup ((fun d : gmap string pyval => d !! "_row_no") <$> parse_rows E hs n rows).
Proof.
  induction rows as [|r rows IH]; intros n Hh; simpl; [constructor|].
  destruct (row_is_empty E r); [now apply IH|].
  rewrite fmap_cons. constructor; [|now apply IH].
  rewrite make_row_dict_row_no by exact Hh.
  intros Hin. apply list_elem_of_fmap in Hin as (d & Hd & Hin). symmetry in Hd.
  destruct (parse_rows_sound _ _ _ _ Hin) as (k & rv & _ & _ & ->).
  rewrite make_row_dict_row_no in Hd by exact Hh.
  injection Hd as Hd. lia.
Qed.

Lemma fold_line_by_row_None (ils : list (nat * line)) : forall (m : gmap Z nat) n,
  (forall il, il ∈ ils -> line_row_no il.2 <> n) -> m !! n = None ->
  fold_left (fun m il => <[ line_row_no il.2 := il.1 ]> m) ils m !! n = None.
Proof.
  induction ils as [|il ils IH]; intros m n Hne Hm; [exact Hm|].
  simpl. apply IH.
  - intros il' Hin. apply Hne. now apply list_elem_of_further.
  - rewrite lookup_insert_ne; [exact Hm|]. apply Hne. apply list_elem_of_here.
Qed.

(** A row number that no preview line carries is matched to no line. *)
Lemma lookup_line_unmatched lines row n :
  get row "_row_no" = PInt n ->
  (forall ln, ln ∈ lines -> line_row_no ln <> n) ->
  lookup_line (build_line_by_row lines) row = None.
Proof.
  intros Hn Hne. unfold lookup_line. rewrite Hn. simpl.
  unfold build_line_by_row. apply fold_line_by_row_None; [|apply lookup_empty].
  intros [i ln] Hin. apply Hne. simpl. eapply elem_of_zip_r. exact Hin.
Qed.

End RowFacts.

(* ===================================================================== *)
(** ** How the validator reports a date *)
(* ===================================================================== *)

Section DateChecks.

Context (E : externals).

Hint Resolve reads_search_company reads_search_department reads_search_job
  reads_search_employee reads_search_user_login reads_resolve_employee_ref
  reads_parse_date reads_joining_date_errors reads_birth_date_errors : reads.

Lemma bind_reads_elim {A B} (m : M A) (k : A -> M B) w
  (Q : res B * world -> Prop) :
  reads m -> (forall a, Q (k a w)) -> Q (bind m k w).
Proof.
  intros Hm Hk. destruct (Hm w) as [a Ha]. unfold bind. rewrite Ha. apply Hk.
Qed.

Lemma joining_date_errors_run raw w :
  joining_date_errors E raw w
  = (Ok (if blank E raw then [Required "Joining Date"]
         else match _parse_date E raw with
              | Ok None => [JoiningDateUnparsed (py_str E raw)]
              | _ => []
              end), w).
Proof.
  unfold joining_date_errors. destruct (blank E raw); [reflexivity|].
  unfold bind, lift_res. destruct (_parse_date E raw) as [[d|]|e] eqn:Hp.
  - reflexivity.
  - reflexivity.
  - destruct (parse_date_never_raises E raw) as [r Hr]. congruence.
Qed.

(** The errors of a row say "is required" for a blank joining date and
    "could not be parsed" for one that is given and has no date. *)
Lemma validation_errors_joining_date row w :
  exists errs,
    validation_errors E row w = (Ok errs, w)
    /\ (blank E (get row "Joining Date") = true ->
        Required "Joining Date" ∈ errs)
    /\ (blank E (get row "Joining Date") = false ->
        _parse_date E (get row "Joining Date") = Ok None ->
        JoiningDateUnparsed (py_str E (get row "Joining Date")) ∈ errs).
Proof.
  set (Q := fun r : res (list verror) * world =>
              exists errs, r = (Ok errs, w)
                /\ (blank E (get row "Joining Date") = true ->
                    Required "Joining Date" ∈ errs)
                /\ (blank E (get row "Joining Date") = false ->
                    _parse_date E (get row "Joining Date") = Ok None ->
                    JoiningDateUnparsed (py_str E (get row "Joining Date")) ∈ errs)).
  change (Q (validation_errors E row w)).
  unfold validation_errors. cbv zeta.
  do 8 (apply bind_reads_elim; [solve [repeat reads_step]|intros ?]).
  unfold bind at 1. rewrite joining_date_errors_run.
  apply bind_reads_elim; [solve [repeat reads_step]|intros dob].
  unfold Q, ret. eexists. split; [reflexivity|].
  split.
  - intros Hb. rewrite Hb.
    do 7 (apply elem_of_app; right). apply elem_of_app. left.
    apply list_elem_of_here.
  - intros Hb Hp. rewrite Hb, Hp.
    do 7 (apply elem_of_app; right). apply elem_of_app. left.
    apply list_elem_of_here.
Qed.

End DateChecks.

(* ===================================================================== *)
(** ** What a successful import of a row returns *)
(* ===================================================================== *)

Section ImportResult.

Context (E : externals).

Lemma bind_Ok_inv {A B} (m : M A) (k : A -> M B) w b w' :
  bind m k w = (Ok b, w') ->
  exists a wa, m w = (Ok a, wa) /\ k a wa = (Ok b, w').
Proof.
  unfold bind. destruct (m w) as [[a|e] wa]; [|discriminate].
  intros H. now exists a, wa.
Qed.

Lemma try_except_Ok_inv {A} (m : M A) (h : exn -> M A) w b w' :
  try_except m h w = (Ok b, w') ->
  m w = (Ok b, w') \/ exists e wa, m w = (Raise e, wa) /\ h e wa = (Ok b, w').
Proof.
  unfold try_except. destruct (m w) as [[a|e] wa]; intros H.
  - now left.
  - right. now exists e, wa.
Qed.




End ImportResult.

(* ===================================================================== *)
(** ** The person record is written before the account *)
(* ===================================================================== *)

Section PersonBeforeAccount.

Context (E : externals).

Lemma count_modify_dir g :
  (forall d, length (hr_employee (g d)) = length (hr_employee d)) ->
  preserves employee_count (modify_dir g).
Proof. intros H w. unfold employee_count, dir_of. simpl. apply H. Qed.

Lemma count_next_id : preserves employee_count next_id.
Proof. intros w. reflexivity. Qed.

Lemma count_random_password : preserves employee_count (_random_password E).
Proof. intros w. reflexivity. Qed.

Hint Resolve count_next_id count_random_password : frame.
Hint Extern 1 (preserves _ (search_company _)) =>
  apply preserves_reads, reads_search_company : frame.
Hint Extern 1 (preserves _ (search_department _ _)) =>
  apply preserves_reads, reads_search_department : frame.
Hint Extern 1 (preserves _ (search_job _)) =>
  apply preserves_reads, reads_search_job : frame.
Hint Extern 1 (preserves _ (_resolve_employee_ref _)) =>
  apply preserves_reads, reads_resolve_employee_ref : frame.
Hint Extern 1 (preserves _ get_dir) =>
  apply preserves_reads, reads_get_dir : frame.
Hint Extern 1 (preserves _ get_wiz) =>
  apply preserves_reads, reads_get_wiz : frame.
Hint Extern 2 (preserves employee_count (modify_dir _)) =>
  apply count_modify_dir; intros ?; simpl; rewrite ?length_map; reflexivity : frame.

Lemma count_create_named op put name :
  (forall f d, length (hr_employee (put f d)) = length (hr_employee d)) ->
  preserves employee_count (create_named E op put name).
Proof.
  intros H. unfold create_named. repeat frame_step.
  apply count_modify_dir. apply H.
Qed.

Lemma count_find_or_create_named table op put name :
  (forall f d, length (hr_employee (put f d)) = length (hr_employee d)) ->
  preserves employee_count (find_or_create_named E table op put name).
Proof.
  intros H. unfold find_or_create_named. repeat frame_step.
  now apply count_create_named.
Qed.

Lemma count_create_department n c :
  preserves employee_count (create_department E n c).
Proof. unfold create_department. repeat frame_step. Qed.

Lemma count_write_employee i wr : preserves employee_count (write_employee E i wr).
Proof. unfold write_employee. repeat frame_step. Qed.

Lemma count_create_bank_account a c p :
  preserves employee_count (create_bank_account E a c p).
Proof. unfold create_bank_account. repeat frame_step. Qed.

Lemma count_create_user v : preserves employee_count (create_user E v).
Proof. unfold create_user. repeat frame_step. Qed.

Lemma count_set_encrypted_password i h :
  preserves employee_count (_set_encrypted_password E i h).
Proof. unfold _set_encrypted_password. repeat frame_step. Qed.

Lemma count_attach_bank_accounts emp comp str :
  preserves employee_count (attach_bank_accounts E emp comp str).
Proof.
  unfold attach_bank_accounts.
  repeat frame_step;
    first [ apply count_create_bank_account | apply count_write_employee ].
Qed.

(** Creating an employee adds one record when it returns and none when the
    store refuses. *)
Lemma count_create_employee vals w :
  employee_count (snd (create_employee E vals w))
  = match fst (create_employee E vals w) with
    | Ok _ => S (employee_count w)
    | Raise _ => employee_count w
    end.
Proof.
  unfold create_employee, store_check.
  unfold bind, get_dir, next_id, modify_dir, ret, raise. cbv beta iota.
  destruct (store_refuses E (dir (cr w)) (CreateEmployee vals)); simpl.
  - reflexivity.
  - unfold employee_count, dir_of. simpl. rewrite length_app. simpl. lia.
Qed.

Lemma bind_Ok_inv_pres {A B X} (f : world -> X) (m : M A) (k : A -> M B) w b w' :
  preserves f m -> bind m k w = (Ok b, w') ->
  exists a wa, f wa = f w /\ k a wa = (Ok b, w').
Proof.
  intros Hm H. apply bind_Ok_inv in H as (a & wa & Hrun & H).
  exists a, wa. split; [|exact H].
  specialize (Hm w). now rewrite Hrun in Hm.
Qed.

Lemma run_preserves {A X} (f : world -> X) (m : M A) w r w' :
  preserves f m -> m w = (r, w') -> f w' = f w.
Proof. intros Hm H. specialize (Hm w). now rewrite H in Hm. Qed.

(** When [_import_row] reports that the account could not be created, the
    cursor holds one [hr.employee] record more than before the call: the
    person record of the row. *)
Lemma person_written_before_account_fails row w exc w1 :
  _import_row E row w = (Ok (ImportFailed (FailedToCreateUser exc)), w1) ->
  employee_count w1 = S (employee_count w).
Proof.
  intros H. unfold _import_row in H. cbv zeta in H.
  repeat
    match type of H with
    | bind (try_except _ _) _ _ = (Ok _, _) => fail 1
    | bind _ _ _ = (Ok _, _) =>
        let a := fresh "a" in let wa := fresh "wa" in let Hf := fresh "Hf" in
        apply (bind_Ok_inv_pres employee_count) in H as (a & wa & Hf & H);
        [ | solve [ repeat frame_step;
                    first [ apply count_create_department
                          | apply count_create_named; reflexivity
                          | apply count_find_or_create_named; reflexivity ] ] ]
    | (match ?x with _ => _ end) _ = _ => destruct x
    | ret _ _ = (Ok _, _) => discriminate H
    end.
  apply bind_Ok_inv in H as (created & wb & Hc & H).
  apply try_except_Ok_inv in Hc as [Hc | (e & wc & _ & Hc)].
  2: { unfold ret in Hc. injection Hc as <- <-. discriminate H. }
  apply bind_Ok_inv in Hc as (emp & wc & Hcreate & Hc).
  match type of Hcreate with
  | create_employee _ ?v _ = _ =>
      pose proof (count_create_employee v wa11) as Hcount
  end.
  rewrite Hcreate in Hcount. simpl in Hcount.
  apply (bind_Ok_inv_pres employee_count) in Hc as (u & wd & Hfd & Hc);
    [ | solve [ repeat frame_step; apply count_write_employee ] ].
  unfold ret in Hc. injection Hc as <- <-.
  apply (bind_Ok_inv_pres employee_count) in H as (u' & we & Hfe & H);
    [ | apply count_attach_bank_accounts ].
  apply (bind_Ok_inv_pres employee_count) in H as (pw & wf & Hff & H);
    [ | solve [ auto with frame ] ].
  eapply (run_preserves employee_count) in H.
  2: { repeat frame_step;
         first [ apply count_create_user | apply count_set_encrypted_password
               | apply count_write_employee ]. }
  congruence.
Qed.

End PersonBeforeAccount.

(* ===================================================================== *)
(** ** The end of a confirmed run *)
(* ===================================================================== *)

Section RunFacts.

Context (E : externals).

Lemma build_output_excel_run results w :
  openpyxl_installed E = true ->
  exists out,
    _build_output_excel E results w = (Ok out, w)
    /\ (out = None <-> results = []).
Proof.
  intros H. unfold _build_output_excel. rewrite H.
  destruct results; eexists; (split; [reflexivity|]); split; intros; discriminate || reflexivity.
Qed.

Lemma build_error_excel_run failed_rows w :
  openpyxl_installed E = true ->
  exists err,
    _build_error_excel E failed_rows w = (Ok err, w)
    /\ (err = None <-> failed_rows = []).
Proof.
  intros H. unfold _build_error_excel. rewrite H.
  destruct failed_rows; eexists; (split; [reflexivity|]); split; intros; discriminate || reflexivity.
Qed.

(** Once the loop has returned, the run ends with one more import log and
    the wizard in the state [Done]. *)
Lemma confirm_run_finish w rows acc w1 :
  wizard_state_of (wiz_of w) = Preview ->
  parse_file E (wizard_file (wiz_of w)) = Ok rows ->
  confirm_loop
    (if stop_on_error (wiz_of w)
     then confirm_row_stop E (build_line_by_row (line_ids (wiz_of w)))
     else confirm_row_partial E (build_line_by_row (line_ids (wiz_of w))))
    ([], []) rows w = (Ok acc, w1) ->
  exists log w',
    action_confirm_import E w = (Ok (ActWindow (wizard_id (wiz_of w))), w')
    /\ logs_of w' = logs_of w1 ++ [log]
    /\ log_imported_count log = Z.of_nat (length acc.1)
    /\ log_failed_count log = Z.of_nat (length acc.2)
    /\ log_summary log = summary_text rows acc.1 acc.2
    /\ (log_output_file log = None <-> acc.1 = [])
    /\ (log_error_file log = None <-> acc.2 = [])
    /\ wizard_state_of (wiz_of w') = Done
    /\ import_log_id (wiz_of w') = Some (log_id log)
    /\ import_summary (wiz_of w') = Some (log_summary log).
Proof.
  intros Hst Hparse Hloop.
  pose proof (parse_file_ok_openpyxl E _ _ Hparse) as Hopx.
  rewrite (action_confirm_import_run E w rows Hst Hparse). cbv zeta.
  rewrite Hloop.
  destruct (build_output_excel_run acc.1 w1 Hopx) as (out & -> & Hout).
  destruct (build_error_excel_run acc.2 w1 Hopx) as (err & -> & Herr).
  eexists _, _. split; [reflexivity|].
  repeat split; try reflexivity; try apply Hout; try apply Herr.
Qed.

End RunFacts.

Lemma unmatched_by_forallb (lines : list line) (n : Z) :
  forallb (fun ln => negb (line_row_no ln =? n)) lines = true ->
  forall ln, ln ∈ lines -> line_row_no ln <> n.
Proof.
  intros H ln Hin. rewrite forallb_forall in H.
  apply list_elem_of_In in Hin. specialize (H ln Hin).
  apply negb_true_iff, Z.eqb_neq in H. exact H.
Qed.

(* ===================================================================== *)
(** ** The batch check of the validator *)
(* ===================================================================== *)

Section BatchCheck.

Context (E : externals).

Hint Resolve reads_search_company reads_search_department reads_search_job
  reads_search_employee reads_search_user_login reads_resolve_employee_ref
  reads_parse_date reads_joining_date_errors reads_birth_date_errors : reads.

Lemma bind_gives_elim {A B} (m : M A) (k : A -> M B) w (P : A -> Prop)
  (Q : res B * world -> Prop) :
  gives m w P -> (forall a, P a -> Q (k a w)) -> Q (bind m k w).
Proof.
  intros (a & Ha & HP) Hk. unfold bind. rewrite Ha. now apply Hk.
Qed.

Lemma gives_reads {A} (m : M A) w : reads m -> gives m w (fun _ => True).
Proof. intros H. destruct (H w) as [a Ha]. now exists a. Qed.

Lemma gives_ret {A} (a : A) w (P : A -> Prop) : P a -> gives (ret a) w P.
Proof. intros H. now exists a. Qed.

Lemma gives_bind {A B} (m : M A) (k : A -> M B) w (Q : B -> Prop) :
  reads m -> (forall a, gives (k a) w Q) -> gives (bind m k) w Q.
Proof.
  intros Hm Hk. destruct (Hm w) as [a Ha]. destruct (Hk a) as (b & Hb & HQ).
  exists b. split; [|exact HQ]. unfold bind. now rewrite Ha.
Qed.

Lemma gives_forM {A B} (l : list A) (f : A -> M B) w (P : B -> Prop) :
  (forall a, gives (f a) w P) -> gives (forM l f) w (Forall P).
Proof.
  intros Hf. induction l as [|a l IH]; simpl.
  - apply gives_ret. constructor.
  - destruct (Hf a) as (b & Hb & HP). destruct IH as (bs & Hbs & HPs).
    exists (b :: bs). split; [|now constructor].
    unfold bind. rewrite Hb, Hbs. reflexivity.
Qed.

Lemma no_dup_when (c : bool) (e : verror) :
  is_batch_duplicate e = false -> no_batch_duplicate (when c e).
Proof. intros H. destruct c; simpl; repeat constructor. exact H. Qed.

Lemma no_dup_app l1 l2 :
  no_batch_duplicate l1 -> no_batch_duplicate l2 -> no_batch_duplicate (l1 ++ l2).
Proof. unfold no_batch_duplicate. rewrite Forall_app. auto. Qed.

Lemma no_dup_concat ls :
  Forall no_batch_duplicate ls -> no_batch_duplicate (concat ls).
Proof.
  induction 1 as [|l ls Hl _ IH]; simpl; [constructor|]. now apply no_dup_app.
Qed.

Lemma no_dup_nil : no_batch_duplicate [].
Proof. constructor. Qed.

Hint Resolve no_dup_when no_dup_app no_dup_nil : core.

(** With no line in [line_ids], the errors of a row hold no duplicate
    message. *)
Lemma validation_errors_no_batch_duplicate row w :
  line_ids (wiz_of w) = [] ->
  gives (validation_errors E row) w no_batch_duplicate.
Proof.
  intros Hlines.
  set (Q := fun r : res (list verror) * world =>
              exists a, r = (Ok a, w) /\ no_batch_duplicate a).
  change (Q (validation_errors E row w)).
  unfold validation_errors. cbv zeta.
  do 4 (apply bind_reads_elim; [solve [repeat reads_step]|intros ?]).
  (* [get_wiz] *)
  unfold bind at 1. unfold get_wiz at 1. fold (wiz_of w). rewrite Hlines.
  (* department, job *)
  apply (bind_gives_elim _ _ w no_batch_duplicate).
  { destruct (company_id <$> a) as [cid|]; [|now apply gives_ret].
    destruct (_ && _); [|now apply gives_ret].
    apply gives_bind; [auto with reads|]. intros dept. apply gives_ret. auto. }
  intros dept_errors Hdept.
  apply (bind_gives_elim _ _ w no_batch_duplicate).
  { destruct (nonempty _); [|now apply gives_ret].
    apply gives_bind; [auto with reads|]. intros job. apply gives_ret. auto. }
  intros job_errors Hjob.
  apply (bind_gives_elim _ _ w (Forall no_batch_duplicate)).
  { apply gives_forM. intros label.
    destruct (nonempty _); [|now apply gives_ret].
    apply gives_bind; [auto with reads|]. intros found. apply gives_ret. auto. }
  intros ref_errors Href.
  apply (bind_gives_elim _ _ w no_batch_duplicate).
  { eexists. split; [apply joining_date_errors_run|].
    destruct (blank E _); [repeat constructor|].
    destruct (_parse_date E _) as [[d|]|e]; repeat constructor. }
  intros joining_errors Hjoin.
  apply (bind_gives_elim _ _ w no_batch_duplicate).
  { unfold birth_date_errors. destruct (_ && _); [|now apply gives_ret].
    apply gives_bind; [auto with reads|]. intros d. apply gives_ret. auto. }
  intros dob_errors Hdob.
  unfold Q, ret. eexists. split; [reflexivity|].
  repeat apply no_dup_app; auto using no_dup_concat.
  - destruct a0; repeat constructor.
  - destruct a1; repeat constructor.
  - destruct a2; repeat constructor.
Qed.

Lemma unlinked_lines w : line_ids (wiz_of (unlinked w)) = [].
Proof. reflexivity. Qed.

(** What [action_validate] does once the file is read: every row is
    validated in the world that has no line, and the lines are written
    afterwards. *)
Lemma action_validate_run w rows :
  is_Some (wizard_file (wiz_of w)) ->
  parse_file E (wizard_file (wiz_of w)) = Ok rows ->
  exists vals,
    forM rows (_validate_row E) (unlinked w) = (Ok vals, unlinked w)
    /\ action_validate E w
       = match lines_of_vals E vals with
         | Ok new_lines =>
             (Ok (ActWindow (wizard_id (wiz_of w))), previewed new_lines (unlinked w))
         | Raise e => (Raise e, unlinked w)
         end.
Proof.
  intros Hfile Hparse.
  destruct (reads_forM rows (_validate_row E) (reads_validate_row E) (unlinked w))
    as [vals Hvals].
  exists vals. split; [exact Hvals|].
  unfold action_validate, _parse_excel, bind, get_wiz, lift_res.
  cbv beta iota zeta. fold (wiz_of w).
  rewrite bool_decide_eq_true_2 by exact Hfile. cbn [negb]. cbv beta iota.
  fold (wiz_of w). rewrite Hparse. cbv beta iota.
  change (modify_wiz (with_lines (fun _ => [])) w) with (Ok tt, unlinked w).
  cbv beta iota. rewrite Hvals.
  destruct (lines_of_vals E vals); reflexivity.
Qed.

End BatchCheck.

Section ValidationValueFacts.

Context (E : externals).

Lemma resolve_employee_ref_run ref w :
  _resolve_employee_ref ref w = (Ok (resolve_in (dir_of w) ref), w).
Proof.
  unfold _resolve_employee_ref, resolve_in.
  destruct (negb (nonempty ref)); [reflexivity|].
  unfold search_employee, bind, get_dir, ret. cbv beta iota.
  fold (dir_of w).
  destruct (search_eq _ ref (hr_employee (dir_of w))); reflexivity.
Qed.

Lemma run_if {A} (c : bool) (m1 m2 : M A) w a1 a2 :
  m1 w = (Ok a1, w) -> m2 w = (Ok a2, w) ->
  (if c then m1 else m2) w = (Ok (if c then a1 else a2), w).
Proof. intros H1 H2. destruct c; assumption. Qed.

Lemma run_option {A B} (o : option B) (m1 : B -> M A) (m2 : M A) w
  (f1 : B -> A) a2 :
  (forall b, m1 b w = (Ok (f1 b), w)) -> m2 w = (Ok a2, w) ->
  match o with Some b => m1 b | None => m2 end w
  = (Ok (match o with Some b => f1 b | None => a2 end), w).
Proof. intros H1 H2. destruct o; [apply H1 | exact H2]. Qed.

Lemma bind_run {A B} (m : M A) (k : A -> M B) w a :
  m w = (Ok a, w) -> bind m k w = k a w.
Proof. intros H. unfold bind. now rewrite H. Qed.

Lemma forM_map_run {A B} (l : list A) (f : A -> M B) (g : A -> B) w :
  (forall a, f a w = (Ok (g a), w)) -> forM l f w = (Ok (List.map g l), w).
Proof.
  intros H. induction l as [|a l IH]; simpl; [reflexivity|].
  unfold bind. rewrite H, IH. reflexivity.
Qed.

Lemma birth_date_errors_run raw w :
  birth_date_errors E raw w
  = (Ok (if truthy raw
            && negb (bool_decide (PyStr.strip (py_str E raw) = EmptyString))
         then match _parse_date E raw with
              | Ok None => [BirthDateUnparsed (py_str E raw)]
              | _ => []
              end
         else []), w).
Proof.
  unfold birth_date_errors. destruct (_ && _); [|reflexivity].
  unfold bind, lift_res. destruct (_parse_date E raw) as [[d|]|e] eqn:Hp.
  - reflexivity.
  - reflexivity.
  - destruct (parse_date_never_raises E raw) as [r Hr]. congruence.
Qed.

(** [validation_errors] returns the value [validation_errors_in] and
    leaves the world as it is. *)
Lemma validation_errors_run row w :
  validation_errors E row w
  = (Ok (validation_errors_in E (dir_of w) (line_ids (wiz_of w))
           (create_missing_departments (wiz_of w))
           (create_missing_jobs (wiz_of w)) row), w).
Proof.
  unfold validation_errors. cbv zeta.
  erewrite bind_run by (apply run_if; reflexivity).
  erewrite bind_run by (apply run_if; reflexivity).
  erewrite bind_run by (apply run_if; reflexivity).
  erewrite bind_run by (apply run_if; reflexivity).
  erewrite bind_run by reflexivity.
  erewrite bind_run
    by (apply run_option; [intros cid; apply run_if; reflexivity | reflexivity]).
  erewrite bind_run by (apply run_if; reflexivity).
  erewrite bind_run.
  2: { apply forM_map_run. intros label.
       apply run_if; [|reflexivity].
       unfold bind. rewrite resolve_employee_ref_run. reflexivity. }
  erewrite bind_run by apply joining_date_errors_run.
  erewrite bind_run by apply birth_date_errors_run.
  reflexivity.
Qed.


End ValidationValueFacts.

Section ValidateRowFacts.

Context (E : externals).

Lemma validate_row_run row w :
  _validate_row E row w = (Ok (validated_row E w row), w).
Proof.
  unfold _validate_row. erewrite bind_run by apply validation_errors_run.
  reflexivity.
Qed.

Lemma forM_validate_row_run rows w :
  forM rows (_validate_row E) w = (Ok (List.map (validated_row E w) rows), w).
Proof. apply forM_map_run. intros row. apply validate_row_run. Qed.

Lemma append_nonempty_r s t : t <> EmptyString -> s +:+ t <> EmptyString.
Proof. intros Ht. destruct s; [exact Ht | discriminate]. Qed.

Lemma append_nonempty_l s t : s <> EmptyString -> s +:+ t <> EmptyString.
Proof. intros Hs. destruct s; [contradiction | discriminate]. Qed.

Lemma verror_text_nonempty e : verror_text e <> EmptyString.
Proof.
  destruct e; simpl; try discriminate.
  - apply append_nonempty_r. discriminate.
  - apply append_nonempty_r. discriminate.
Qed.

Lemma join_nonempty sep p ps : p <> EmptyString -> PyStr.join sep (p :: ps) <> EmptyString.
Proof.
  intros Hp. simpl. destruct ps; [exact Hp|]. now apply append_nonempty_l.
Qed.

Lemma error_text_empty_iff (errs : list verror) :
  PyStr.join PyStr.nl (List.map verror_text errs) = EmptyString <-> errs = [].
Proof.
  split; [|now intros ->].
  destruct errs as [|e errs]; [reflexivity|].
  intros H. exfalso. simpl List.map in H.
  exact (join_nonempty _ _ _ (verror_text_nonempty e) H).
Qed.

Lemma length_eqb_0 {A} (l : list A) : (length l =? 0)%nat = true <-> l = [].
Proof. destruct l; simpl; split; intros; congruence. Qed.

Lemma Integer_convert_int n : Integer_convert E (PInt n) = Ok n.
Proof.
  unfold Integer_convert. simpl. destruct (Z.eqb_spec n 0) as [->|]; reflexivity.
Qed.

End ValidateRowFacts.

Section RequiredFacts.

Context (E : externals).

Lemma parse_str_empty v : is_none_or_empty v = true -> _parse_str E v = EmptyString.
Proof. intros H. unfold _parse_str. now rewrite H. Qed.

Lemma truthy_empty v : is_none_or_empty v = true -> truthy v = false.
Proof.
  destruct v; simpl; try discriminate; [reflexivity|].
  intros H. now rewrite H.
Qed.

Lemma blank_empty v : is_none_or_empty v = true -> blank E v = true.
Proof. intros H. unfold blank. now rewrite (truthy_empty v H). Qed.

Lemma elem_of_when_true (c : bool) (e : verror) : c = true -> e ∈ when c e.
Proof. intros ->. apply list_elem_of_here. Qed.

Lemma REQUIRED_HEADERS_eq :
  REQUIRED_HEADERS
  = ["Business Unit"; "Employee Name"; "Employee ID"; "Device ID";
     "Joining Date"; "Work Email"; "Permanent Address"; "Present Address";
     "Date of Birth"; "Gender"; "Religion"; "NID No"; "Place of Birth";
     "Nationality (Country)"; "Employee Type"; "Employment Type"].
Proof. vm_compute. reflexivity. Qed.

(** A message "... is required." names a required header. *)
Definition names_required_header (e : verror) : Prop :=
  forall what, e = Required what ->
    exists h, h ∈ REQUIRED_HEADERS /\ what = required_label h.

Lemma names_required_header_when c e :
  names_required_header e -> Forall names_required_header (when c e).
Proof. intros H. destruct c; simpl; repeat constructor. exact H. Qed.

Lemma names_required_header_of h :
  h ∈ REQUIRED_HEADERS -> names_required_header (Required (required_label h)).
Proof. intros H what [= <-]. now exists h. Qed.

End RequiredFacts.

Ltac find_required H :=
  first
    [ apply elem_of_when_true;
      solve [ rewrite (parse_str_empty _ _ H); reflexivity
            | rewrite (truthy_empty _ H); reflexivity ]
    | apply list_elem_of_here
    | apply elem_of_app; left; find_required H
    | apply elem_of_app; right; find_required H ].

Ltac in_list :=
  solve [ repeat first [ apply list_elem_of_here | apply list_elem_of_further ] ].

Section RequiredErrors.

Context (E : externals).

Lemma empty_required_cell_is_reported d lines cd cj row h :
  h ∈ REQUIRED_HEADERS -> is_none_or_empty (get row h) = true ->
  Required (required_label h) ∈ validation_errors_in E d lines cd cj row.
Proof.
  intros Hh Hempty. rewrite REQUIRED_HEADERS_eq in Hh.
  unfold validation_errors_in. cbv zeta.
  repeat (apply elem_of_cons in Hh as [->|Hh]);
    [ .. | now apply elem_of_nil in Hh ];
    rewrite ?(blank_empty E _ Hempty);
    change (required_label _) with "Business Unit (company_id)" || unfold required_label;
    rewrite ?bool_decide_eq_false_2 by discriminate;
    find_required Hempty.
Qed.

Lemma required_errors_name_required_headers d lines cd cj row :
  Forall names_required_header (validation_errors_in E d lines cd cj row).
Proof.
  assert (Hreq : forall h, h ∈ REQUIRED_HEADERS ->
                   forall l, l = required_label h ->
                     names_required_header (Required l)).
  { intros h Hh l ->. now apply names_required_header_of. }
  assert (Hother : forall e, (forall what, e <> Required what) ->
                     names_required_header e).
  { intros e He what Heq. destruct (He what Heq). }
  unfold validation_errors_in. cbv zeta.
  repeat (apply Forall_app; split).
  all: try (apply names_required_header_when).
  all: try match goal with
         | |- names_required_header (Required ?l) =>
             first [ apply (Hreq l); [rewrite REQUIRED_HEADERS_eq; in_list | reflexivity]
                   | apply (Hreq "Business Unit");
                     [rewrite REQUIRED_HEADERS_eq; in_list | reflexivity] ]
         end.
  all: try (apply Hother; discriminate).
  - match goal with
    | |- Forall _ (match ?x with _ => _ end) => destruct x
    end; repeat constructor.
    apply Hother; discriminate.
  - match goal with
    | |- Forall _ (match ?x with _ => _ end) => destruct x
    end; repeat constructor.
    apply Hother; discriminate.
  - match goal with
    | |- Forall _ (match ?x with _ => _ end) => destruct x
    end; repeat constructor.
    apply Hother; discriminate.
  - unfold batch_duplicates. apply Forall_flat_map, Forall_forall. intros ln _.
    repeat (apply Forall_app; split);
      apply names_required_header_when, Hother; discriminate.
  - destruct (company_id <$> _) as [cid|]; [|constructor].
    destruct (_ && _); [|constructor].
    apply names_required_header_when, Hother; discriminate.
  - destruct (nonempty _); [|constructor].
    apply names_required_header_when, Hother; discriminate.
  - destruct (nonempty _); [|constructor].
    apply names_required_header_when, Hother; discriminate.
  - destruct (nonempty _); [|constructor].
    apply names_required_header_when, Hother; discriminate.
  - destruct (nonempty _); [|constructor].
    apply names_required_header_when, Hother; discriminate.
  - constructor.
  - destruct (blank E _).
    + repeat constructor.
      apply (Hreq "Joining Date"); [rewrite REQUIRED_HEADERS_eq; in_list | reflexivity].
    + destruct (_parse_date E _) as [[dt|]|e]; repeat constructor.
      apply Hother; discriminate.
  - destruct (_ && _); [|constructor].
    destruct (_parse_date E _) as [[dt|]|e]; repeat constructor.
    apply Hother; discriminate.
Qed.

End RequiredErrors.

Section ValidRowFacts.

Context (E : externals).

Lemma when_nil_inv (c : bool) (e : verror) : when c e = [] -> c = false.
Proof. destruct c; [discriminate|reflexivity]. Qed.

Lemma search_eq_None {A} (field : A -> string) value (table : list A) :
  search_eq field value table = None ->
  forall r, r ∈ table -> field r <> value.
Proof.
  unfold search_eq. intros H r Hr Heq.
  apply list_elem_of_In in Hr.
  pose proof (find_none _ _ H r Hr) as Hf. simpl in Hf.
  now rewrite bool_decide_eq_true_2 in Hf.
Qed.

Lemma search_eq_Some {A} (field : A -> string) value (table : list A) r :
  search_eq field value table = Some r -> r ∈ table /\ field r = value.
Proof.
  unfold search_eq. intros H. apply find_some in H as [Hin Hf].
  split; [now apply list_elem_of_In|]. now apply bool_decide_eq_true in Hf.
Qed.

Lemma nonempty_true s : nonempty s = true <-> s <> EmptyString.
Proof.
  unfold nonempty. rewrite negb_true_iff, bool_decide_eq_false. reflexivity.
Qed.

Lemma batch_duplicates_nil lines emp_id_no device_id work_email :
  nonempty emp_id_no = true -> nonempty device_id = true ->
  nonempty work_email = true ->
  batch_duplicates lines emp_id_no device_id work_email = [] ->
  forall ln, ln ∈ lines ->
    line_employee_id_no ln <> emp_id_no
    /\ line_device_user_id ln <> device_id
    /\ line_work_email ln <> work_email.
Proof.
  intros H1 H2 H3. unfold batch_duplicates. rewrite H1, H2, H3. simpl andb.
  induction lines as [|l lines IH]; intros H ln Hin.
  - now apply elem_of_nil in Hin.
  - simpl in H. apply app_eq_nil in H as [Hl H].
    apply elem_of_cons in Hin as [->|Hin]; [|now apply IH].
    apply app_eq_nil in Hl as [Ha Hl]. apply app_eq_nil in Hl as [Hb Hc].
    apply when_nil_inv, bool_decide_eq_false in Ha.
    apply when_nil_inv, bool_decide_eq_false in Hb.
    apply when_nil_inv, bool_decide_eq_false in Hc.
    auto.
Qed.

(** A row without errors names a company of the store. *)
Lemma valid_row_company d lines cd cj row :
  validation_errors_in E d lines cd cj row = [] ->
  exists c,
    search_eq company_name (_parse_str E (get row "Business Unit")) (res_company d)
    = Some c.
Proof.
  intros H. unfold validation_errors_in in H. cbv zeta in H.
  apply app_eq_nil in H as [Hreq H].
  apply app_eq_nil in Hreq as [Hr1 _].
  apply when_nil_inv, negb_false_iff in Hr1. rewrite Hr1 in H.
  apply app_eq_nil in H as [Hcompany _].
  apply when_nil_inv in Hcompany. simpl in Hcompany.
  apply negb_false_iff, bool_decide_eq_true in Hcompany as [c Hc].
  now exists c.
Qed.

End ValidRowFacts.

Lemma template_headers : tc_header <$> template_columns = fst <$> COLUMN_MAP.
Proof.
  unfold template_columns. rewrite <- list_fmap_compose. apply list_fmap_id.
Qed.

Lemma date_headers_eq : date_headers = ["Joining Date"; "Date of Birth"].
Proof. vm_compute. reflexivity. Qed.

Section ValidateRunFacts.

Context (E : externals).

(** [action_validate], case by case. *)
Lemma action_validate_cases w :
  action_validate E w
  = if negb (bool_decide (is_Some (wizard_file (wiz_of w))))
    then (Raise (UserError UploadFileFirst), w)
    else
      match parse_file E (wizard_file (wiz_of w)) with
      | Raise e => (Raise e, w)
      | Ok rows =>
          match lines_of_vals E (List.map (validated_row E (unlinked w)) rows) with
          | Ok new_lines =>
              (Ok (ActWindow (wizard_id (wiz_of w))),
               previewed new_lines (unlinked w))
          | Raise e => (Raise e, unlinked w)
          end
      end.
Proof.
  unfold action_validate, _parse_excel, bind, get_wiz, lift_res, raise.
  cbv beta iota zeta. fold (wiz_of w).
  destruct (negb _); [reflexivity|]. cbv beta iota. fold (wiz_of w).
  destruct (parse_file E (wizard_file (wiz_of w))) as [rows|e]; [|reflexivity].
  cbv beta iota.
  change (modify_wiz (with_lines (fun _ => [])) w) with (Ok tt, unlinked w).
  cbv beta iota. rewrite forM_validate_row_run.
  destruct (lines_of_vals E _); reflexivity.
Qed.

Lemma lines_of_vals_numbered w rows :
  (forall row, row ∈ rows -> exists n, row !! "_row_no" = Some (PInt n)) ->
  exists lines,
    lines_of_vals E (List.map (validated_row E w) rows) = Ok lines
    /\ Forall2
         (fun row ln =>
            row !! "_row_no" = Some (PInt (line_row_no ln))
            /\ line_import_status ln = Pending
            /\ line_of_vals E (validated_row E w row) = Ok ln)
         rows lines.
Proof.
  induction rows as [|row rows IH]; intros Hno.
  - exists []. split; [reflexivity|constructor].
  - destruct IH as (lines & Hl & Hall).
    { intros r Hr. apply Hno. now apply list_elem_of_further. }
    destruct (Hno row (list_elem_of_here _ _)) as [n Hn].
    assert (Hline : exists ln,
               line_of_vals E (validated_row E w row) = Ok ln
               /\ line_row_no ln = n /\ line_import_status ln = Pending).
    { unfold line_of_vals, validated_row, line_vals_of. simpl lv_row_no.
      rewrite Hn. simpl default. rewrite Integer_convert_int.
      eexists. split; [reflexivity|]. split; reflexivity. }
    destruct Hline as (ln & Hln & Hrow & Hst).
    exists (ln :: lines). split.
    + simpl. rewrite Hln, Hl. reflexivity.
    + constructor; [|exact Hall]. rewrite Hrow. auto.
Qed.

End ValidateRunFacts.

Section CellFacts.

(** A header that stands over no cell of the row leaves the dictionary as
    it was. *)
Lemma fold_insert_lookup_unset (hs : list string) :
  forall (vs : list pyval) (d : gmap string pyval) k,
    (forall j, hs !! j = Some k -> (length vs <= j)%nat) ->
    fold_left (fun d hv => <[ hv.1 := hv.2 ]> d) (zip hs vs) d !! k = d !! k.
Proof.
  induction hs as [|h hs IH]; intros vs d k Hk; [reflexivity|].
  destruct vs as [|v vs]; [reflexivity|]. simpl.
  rewrite IH.
  - apply lookup_insert_ne. intros ->.
    specialize (Hk 0%nat eq_refl). simpl in Hk. lia.
  - intros j Hj. specialize (Hk (S j) Hj). simpl in Hk. lia.
Qed.

(** The last cell that stands under a header is the one the dictionary
    keeps. *)
Lemma fold_insert_lookup_set (hs : list string) :
  forall (vs : list pyval) (d : gmap string pyval) i h v,
    hs !! i = Some h -> vs !! i = Some v ->
    (forall j, (i < j)%nat -> hs !! j = Some h -> (length vs <= j)%nat) ->
    fold_left (fun d hv => <[ hv.1 := hv.2 ]> d) (zip hs vs) d !! h = Some v.
Proof.
  induction hs as [|h0 hs IH]; intros vs d i h v Hh Hv Hlast; [discriminate|].
  destruct vs as [|v0 vs]; [discriminate|]. simpl.
  destruct i as [|i]; simpl in Hh, Hv.
  - injection Hh as ->. injection Hv as ->.
    rewrite fold_insert_lookup_unset.
    + apply lookup_insert_eq.
    + intros j Hj. specialize (Hlast (S j) ltac:(lia) Hj). simpl in Hlast. lia.
  - apply (IH vs _ i h v Hh Hv).
    intros j Hij Hj. specialize (Hlast (S j) ltac:(lia) Hj). simpl in Hlast. lia.
Qed.

End CellFacts.

Section RowOrder.

Context (E : externals).

Lemma filter_map_S (p : nat -> bool) (l : list nat) :
  List.filter p (List.map S l) = List.map S (List.filter (fun k => p (S k)) l).
Proof.
  induction l as [|k l IH]; simpl; [reflexivity|].
  destruct (p (S k)); simpl; now rewrite IH.
Qed.

Lemma parse_rows_numbers hs rows : forall n,
  "_row_no" ∉ hs ->
  (fun d : gmap string pyval => d !! "_row_no") <$> parse_rows E hs n rows
  = (fun k : nat => Some (PInt (n + Z.of_nat k))) <$> kept_rows E rows.
Proof.
  unfold kept_rows.
  induction rows as [|r rows IH]; intros n Hh; [reflexivity|].
  simpl parse_rows. simpl length. rewrite <- cons_seq, <- seq_shift.
  simpl List.filter. rewrite filter_map_S. simpl nth.
  destruct (row_is_empty E r); simpl negb; cbv iota.
  - rewrite (IH (n + 1) Hh). rewrite <- list_fmap_compose.
    apply list_fmap_ext. intros _ k _. simpl. do 2 f_equal. lia.
  - rewrite !fmap_cons. f_equal.
    + rewrite make_row_dict_row_no by exact Hh. do 2 f_equal. lia.
    + rewrite (IH (n + 1) Hh). rewrite <- list_fmap_compose.
      apply list_fmap_ext. intros _ k _. simpl. do 2 f_equal. lia.
Qed.

Lemma filter_seq_sorted (p : nat -> bool) n : forall a,
  StronglySorted lt (List.filter p (List.seq a n)).
Proof.
  induction n as [|n IH]; intros a; simpl; [constructor|].
  destruct (p a); [|apply IH].
  constructor; [apply IH|].
  apply Forall_forall. intros k Hk. apply list_elem_of_In in Hk.
  apply filter_In in Hk as [Hk _]. apply in_seq in Hk. lia.
Qed.

Lemma elem_of_kept_rows rows k :
  k ∈ kept_rows E rows
  <-> exists rv, rows !! k = Some rv /\ row_is_empty E rv = false.
Proof.
  unfold kept_rows. rewrite list_elem_of_In, filter_In, in_seq, negb_true_iff.
  rewrite nth_lookup. split.
  - intros [[_ Hk] He]. simpl in Hk.
    destruct (lookup_lt_is_Some_2 rows k Hk) as [rv Hrv].
    rewrite Hrv in He. now exists rv.
  - intros (rv & Hrv & He). rewrite Hrv. split; [|exact He].
    apply lookup_lt_Some in Hrv. lia.
Qed.

End RowOrder.

Section RowsOfTheSheet.

Context (E : externals).

(** The dictionaries of the result are those of the rows kept, in their
    order, each built from the cells of its row and numbered by its
    position. *)
Lemma parse_rows_kept hs rows : forall n,
  parse_rows E hs n rows
  = (fun k : nat => make_row_dict hs (n + Z.of_nat k) (nth k rows []))
      <$> kept_rows E rows.
Proof.
  unfold kept_rows.
  induction rows as [|r rows IH]; intros n; [reflexivity|].
  simpl parse_rows. simpl length. rewrite <- cons_seq, <- seq_shift.
  simpl List.filter. rewrite filter_map_S. simpl nth.
  destruct (row_is_empty E r); simpl negb; cbv iota.
  - rewrite (IH (n + 1)). rewrite <- list_fmap_compose.
    apply list_fmap_ext. intros _ k _. simpl. f_equal. lia.
  - rewrite !fmap_cons. f_equal.
    + f_equal. lia.
    + rewrite (IH (n + 1)). rewrite <- list_fmap_compose.
      apply list_fmap_ext. intros _ k _. simpl. f_equal. lia.
Qed.

Lemma parse_rows_Forall2 hs rows n :
  "_row_no" ∉ hs ->
  Forall2 (fun (k : nat) (d : gmap string pyval) =>
             exists rv, rows !! k = Some rv /\ row_is_empty E rv = false
                        /\ d = make_row_dict hs (n + Z.of_nat k) rv
                        /\ d !! "_row_no" = Some (PInt (n + Z.of_nat k)))
          (kept_rows E rows) (parse_rows E hs n rows).
Proof.
  intros Hh. rewrite parse_rows_kept. apply Forall2_fmap_r.
  apply Forall_Forall2_diag, Forall_forall. intros k Hk.
  apply elem_of_kept_rows in Hk as (rv & Hrv & He).
  exists rv. rewrite nth_lookup, Hrv. simpl.
  repeat split; auto. now apply make_row_dict_row_no.
Qed.

End RowsOfTheSheet.

Section StripFacts.

Import PyStr.

Lemma rstrip_idem s : rstrip (rstrip s) = rstrip s.
Proof.
  induction s as [|c r IH]; [reflexivity|]. simpl.
  destruct (rstrip r) as [|c' r'] eqn:Hr.
  - destruct (isspace c) eqn:Hc; [reflexivity|]. simpl. now rewrite Hc.
  - change (rstrip (String c (String c' r'))) with
      (match rstrip (String c' r') with
       | EmptyString => if isspace c then EmptyString else String c EmptyString
       | r'' => String c r''
       end).
    now rewrite IH.
Qed.

Lemma lstrip_head s :
  lstrip s = EmptyString
  \/ exists c r, lstrip s = String c r /\ isspace c = false.
Proof.
  induction s as [|c r IH]; [now left|]. simpl.
  destruct (isspace c) eqn:Hc; [exact IH|]. right. now exists c, r.
Qed.

Lemma rstrip_keeps_head c r :
  isspace c = false -> exists r', rstrip (String c r) = String c r'.
Proof.
  intros Hc. simpl. destruct (rstrip r) as [|c' r'].
  - rewrite Hc. now eexists.
  - now eexists.
Qed.

Lemma strip_idem s : strip (strip s) = strip s.
Proof.
  unfold strip.
  assert (H : lstrip (rstrip (lstrip s)) = rstrip (lstrip s)).
  { destruct (lstrip_head s) as [->|(c & r & -> & Hc)]; [reflexivity|].
    destruct (rstrip_keeps_head c r Hc) as [r' ->]. simpl. now rewrite Hc. }
  rewrite H. apply rstrip_idem.
Qed.

End StripFacts.

Section ParseStrNormalForm.

Context (E : externals).
Import PyStr.

(** The text the padding test of [_parse_str] looks at. *)
Lemma parse_str_stripped v :
  exists s,
    PyStr.strip s = s
    /\ _parse_str E v
       = if (String.length s =? 10)%nat && startswith s "1"
         then String "0" s else s.
Proof.
  unfold _parse_str. destruct (is_none_or_empty v).
  - exists EmptyString. split; reflexivity.
  - cbv zeta. eexists. split; [|reflexivity]. apply strip_idem.
Qed.

Lemma parse_str_of_text x :
  _parse_str E (PStr x)
  = if (String.length (strip x) =? 10)%nat && startswith (strip x) "1"
    then String "0" (strip x) else strip x.
Proof.
  destruct x as [|c r]; [reflexivity|].
  unfold _parse_str.
  assert (Hne : is_none_or_empty (PStr (String c r)) = false)
    by (apply bool_decide_eq_false_2; discriminate).
  rewrite Hne. reflexivity.
Qed.

Lemma strip_padded s :
  strip s = s -> s <> EmptyString -> strip (String "0" s) = String "0" s.
Proof.
  intros Hs Hne. unfold strip.
  change (lstrip (String "0" s)) with (String "0" s).
  assert (Hr : rstrip s = s).
  { rewrite <- Hs at 1. unfold strip. rewrite rstrip_idem. exact Hs. }
  simpl. rewrite Hr. destruct s; [contradiction|reflexivity].
Qed.

Lemma parse_str_fixed_point v :
  strip (_parse_str E v) = _parse_str E v
  /\ _parse_str E (PStr (_parse_str E v)) = _parse_str E v.
Proof.
  destruct (parse_str_stripped v) as (s & Hs & ->).
  destruct ((String.length s =? 10)%nat && startswith s "1") eqn:Hc.
  - apply andb_prop in Hc as [Hl _]. apply Nat.eqb_eq in Hl.
    assert (Hne : s <> EmptyString) by (intros ->; discriminate).
    pose proof (strip_padded s Hs Hne) as Hp.
    split; [exact Hp|].
    rewrite parse_str_of_text, Hp. simpl String.length. rewrite Hl. reflexivity.
  - split; [exact Hs|]. rewrite parse_str_of_text, Hs, Hc. reflexivity.
Qed.

End ParseStrNormalForm.

Section RandomPasswordFacts.

Import SystemRandom.

Lemma choice_alnum i :
  (i < 62)%nat ->
  exists c, String.get i (ascii_letters +:+ digits) = Some c
            /\ is_ascii_alnum c = true.
Proof.
  intros Hi.
  do 62 (destruct i as [|i]; [eexists; split; reflexivity|]).
  lia.
Qed.

Lemma join_choices_alnum rand n : forall k,
  (forall j b, (0 < b)%nat -> (rand j b < b)%nat) ->
  exists pw,
    join_choices rand (ascii_letters +:+ digits) k n = Some pw
    /\ String.length pw = n
    /\ PyStr.all_chars is_ascii_alnum pw = true.
Proof.
  induction n as [|n IH]; intros k Hrand.
  - exists EmptyString. repeat split.
  - simpl. unfold choice.
    destruct (choice_alnum (rand k (String.length (ascii_letters +:+ digits))))
      as (c & -> & Hc).
    { apply (Hrand k 62%nat). lia. }
    destruct (IH (S k) Hrand) as (pw & -> & Hl & Ha).
    exists (String c pw). split; [reflexivity|]. split.
    + simpl. now rewrite Hl.
    + simpl. now rewrite Hc, Ha.
Qed.

End RandomPasswordFacts.

Section ConfirmInversion.

Context (E : externals).

(** A run that is not started from the preview is refused. *)
Lemma action_confirm_import_refused w :
  wizard_state_of (wiz_of w) <> Preview ->
  action_confirm_import E w = (Raise (UserError ValidateBeforeImporting), w).
Proof.
  intros Hst. unfold action_confirm_import, bind, get_wiz, raise.
  cbv beta iota zeta. fold (wiz_of w).
  now rewrite bool_decide_eq_false_2 by exact Hst.
Qed.

Lemma action_confirm_import_unreadable w e :
  wizard_state_of (wiz_of w) = Preview ->
  parse_file E (wizard_file (wiz_of w)) = Raise e ->
  action_confirm_import E w = (Raise e, w).
Proof.
  intros Hst Hparse.
  unfold action_confirm_import, _parse_excel, bind, get_wiz, lift_res.
  cbv beta iota zeta. fold (wiz_of w). rewrite Hst.
  rewrite bool_decide_eq_true_2 by reflexivity. cbn [negb]. cbv beta iota.
  fold (wiz_of w). now rewrite Hparse.
Qed.

(** A run that returns was started from the preview, read its file, and
    went through its loop without an exception. *)
Lemma action_confirm_import_Ok_inv w a w' :
  action_confirm_import E w = (Ok a, w') ->
  wizard_state_of (wiz_of w) = Preview
  /\ exists rows acc w1 out err,
       parse_file E (wizard_file (wiz_of w)) = Ok rows
       /\ confirm_loop
            (if stop_on_error (wiz_of w)
             then confirm_row_stop E (build_line_by_row (line_ids (wiz_of w)))
             else confirm_row_partial E (build_line_by_row (line_ids (wiz_of w))))
            ([], []) rows w = (Ok acc, w1)
       /\ _build_output_excel E acc.1 w1 = (Ok out, w1)
       /\ _build_error_excel E acc.2 w1 = (Ok err, w1)
       /\ (out = None <-> acc.1 = [])
       /\ (err = None <-> acc.2 = [])
       /\ a = ActWindow (wizard_id (wiz_of w))
       /\ w' = finished E rows acc out err w1.
Proof.
  intros H.
  destruct (decide (wizard_state_of (wiz_of w) = Preview)) as [Hst|Hst].
  2: { rewrite action_confirm_import_refused in H by exact Hst. discriminate. }
  split; [exact Hst|].
  destruct (parse_file E (wizard_file (wiz_of w))) as [rows|e] eqn:Hparse.
  2: { rewrite (action_confirm_import_unreadable w e Hst Hparse) in H. discriminate. }
  pose proof (parse_file_ok_openpyxl E _ _ Hparse) as Hopx.
  rewrite (action_confirm_import_run E w rows Hst Hparse) in H. cbv zeta in H.
  destruct (confirm_loop _ _ rows w) as [[acc|e] w1] eqn:Hloop; [|discriminate].
  destruct (build_output_excel_run E acc.1 w1 Hopx) as (out & Hout & Hnone).
  destruct (build_error_excel_run E acc.2 w1 Hopx) as (err & Herr & Hnone').
  rewrite Hout, Herr in H. injection H as <- <-.
  exists rows, acc, w1, out, err. repeat split; auto; try apply Hnone; try apply Hnone'.
Qed.

End ConfirmInversion.

(* ===================================================================== *)
(** ** Reasoning with pre- and postconditions *)
(* ===================================================================== *)

Section TripleFacts.

Context (E : externals).

Lemma triple_ret {A} (P : world -> Prop) (a : A) (Q : A -> world -> Prop) :
  (forall w, P w -> Q a w) -> triple P (ret a) Q.
Proof.
  intros H w HP a' w' Hrun. unfold ret in Hrun. inversion Hrun; subst.
  now apply H.
Qed.

Lemma triple_raise {A} (P : world -> Prop) e (Q : A -> world -> Prop) :
  triple P (raise e) Q.
Proof. intros w _ a w' [=]. Qed.

Lemma triple_bind {A B} (P : world -> Prop) (m : M A) (k : A -> M B)
  (R : A -> world -> Prop) (Q : B -> world -> Prop) :
  triple P m R -> (forall a, triple (R a) (k a) Q) -> triple P (bind m k) Q.
Proof.
  intros Hm Hk w HP b w' Hrun. unfold bind in Hrun.
  destruct (m w) as [[a|e] wa] eqn:Hmw; [|discriminate].
  exact (Hk a wa (Hm w HP a wa Hmw) b w' Hrun).
Qed.

Lemma triple_try_except {A} (P : world -> Prop) (m : M A) (h : exn -> M A)
  (Q : A -> world -> Prop) :
  triple P m Q ->
  (forall e w a w', h e w = (Ok a, w') -> Q a w') ->
  triple P (try_except m h) Q.
Proof.
  intros Hm Hh w HP a w' Hrun. unfold try_except in Hrun.
  destruct (m w) as [[a0|e] wa] eqn:Hmw.
  - injection Hrun as <- <-. exact (Hm w HP a0 wa Hmw).
  - exact (Hh e wa a w' Hrun).
Qed.

Lemma triple_pre {A} (P P' : world -> Prop) (m : M A) (Q : A -> world -> Prop) :
  (forall w, P w -> P' w) -> triple P' m Q -> triple P m Q.
Proof. intros HP Hm w Hw. apply Hm. now apply HP. Qed.

Lemma triple_post {A} (P : world -> Prop) (m : M A) (Q Q' : A -> world -> Prop) :
  (forall a w, Q' a w -> Q a w) -> triple P m Q' -> triple P m Q.
Proof. intros HQ Hm w Hw a w' Hrun. apply HQ. exact (Hm w Hw a w' Hrun). Qed.

(** What [m] leaves alone still satisfies what it satisfied. *)
Lemma triple_preserves {A X} (f : world -> X) (R : X -> Prop) (m : M A) :
  preserves f m -> triple (fun w => R (f w)) m (fun _ w => R (f w)).
Proof.
  intros Hm w HR a w' Hrun. specialize (Hm w). rewrite Hrun in Hm. simpl in Hm.
  now rewrite Hm.
Qed.

Lemma triple_forM_ {A} (I : world -> Prop) (l : list A) (f : A -> M unit) :
  (forall a, triple I (f a) (fun _ => I)) -> triple I (forM_ l f) (fun _ => I).
Proof.
  intros Hf. induction l as [|a l IH]; simpl.
  - apply triple_ret. auto.
  - eapply triple_bind; [apply Hf|]. intros u. exact IH.
Qed.

(** The value a reading computation returns is the one it computes in the
    world it is run in. *)
Lemma triple_get_dir (P : world -> Prop) :
  triple P get_dir (fun d w => d = dir_of w /\ P w).
Proof.
  intros w HP d w' Hrun. unfold get_dir in Hrun. inversion Hrun; subst. auto.
Qed.

Lemma triple_get_wiz (P : world -> Prop) :
  triple P get_wiz (fun z w => z = wiz_of w /\ P w).
Proof.
  intros w HP d w' Hrun. unfold get_wiz in Hrun. inversion Hrun; subst. auto.
Qed.

End TripleFacts.

(* ===================================================================== *)
(** ** The tables a write leaves alone *)
(* ===================================================================== *)

Section TableFrame.

Context (E : externals) {X : Type} (tbl : directory -> X).

Lemma tbl_modify_dir g :
  (forall d, tbl (g d) = tbl d) ->
  preserves (fun w => tbl (dir_of w)) (modify_dir g).
Proof. intros H w. unfold dir_of. simpl. apply H. Qed.

Lemma tbl_next_id : preserves (fun w => tbl (dir_of w)) next_id.
Proof. intros w. reflexivity. Qed.

Lemma tbl_random_password :
  preserves (fun w => tbl (dir_of w)) (_random_password E).
Proof. intros w. reflexivity. Qed.

Lemma tbl_reads {A} (m : M A) : reads m -> preserves (fun w => tbl (dir_of w)) m.
Proof. apply preserves_reads. Qed.

Lemma tbl_create_named op put name :
  (forall f d, tbl (put f d) = tbl d) ->
  preserves (fun w => tbl (dir_of w)) (create_named E op put name).
Proof.
  intros H. unfold create_named. repeat frame_step.
  - apply tbl_next_id.
  - apply tbl_modify_dir. apply H.
Qed.

Lemma tbl_find_or_create_named table op put name :
  (forall f d, tbl (put f d) = tbl d) ->
  preserves (fun w => tbl (dir_of w)) (find_or_create_named E table op put name).
Proof.
  intros H. unfold find_or_create_named. repeat frame_step.
  - apply tbl_reads, reads_get_dir.
  - now apply tbl_create_named.
Qed.

Lemma tbl_create_department n c :
  (forall f d, tbl (with_hr_department f d) = tbl d) ->
  preserves (fun w => tbl (dir_of w)) (create_department E n c).
Proof.
  intros H. unfold create_department. repeat frame_step.
  - apply tbl_next_id.
  - apply tbl_modify_dir. apply H.
Qed.

Lemma tbl_create_bank_account a c p :
  (forall f d, tbl (with_res_partner_bank f d) = tbl d) ->
  preserves (fun w => tbl (dir_of w)) (create_bank_account E a c p).
Proof.
  intros H. unfold create_bank_account. repeat frame_step.
  - apply tbl_next_id.
  - apply tbl_modify_dir. apply H.
Qed.

Lemma tbl_write_employee i wr :
  (forall f d, tbl (with_hr_employee f d) = tbl d) ->
  preserves (fun w => tbl (dir_of w)) (write_employee E i wr).
Proof.
  intros H. unfold write_employee. repeat frame_step.
  apply tbl_modify_dir. apply H.
Qed.

Lemma tbl_attach_bank_accounts emp comp str :
  (forall f d, tbl (with_res_partner_bank f d) = tbl d) ->
  (forall f d, tbl (with_hr_employee f d) = tbl d) ->
  preserves (fun w => tbl (dir_of w)) (attach_bank_accounts E emp comp str).
Proof.
  intros Hb He. unfold attach_bank_accounts. repeat frame_step.
  - apply tbl_reads, reads_get_dir.
  - now apply tbl_create_bank_account.
  - now apply tbl_write_employee.
Qed.

(** The part of [_import_row] that comes before the person record is
    created: look-ups, and records of the lookup tables. *)
Lemma tbl_resolve_employee_ref r :
  preserves (fun w => tbl (dir_of w)) (_resolve_employee_ref r).
Proof. apply tbl_reads, reads_resolve_employee_ref. Qed.

End TableFrame.

(* ===================================================================== *)
(** ** What a write that returns has done *)
(* ===================================================================== *)

Section WriteFacts.

Context (E : externals).

Lemma store_check_Ok op w u w' :
  store_check E op w = (Ok u, w') -> w' = w.
Proof.
  unfold store_check, bind, get_dir, raise, ret. cbv beta iota.
  destruct (store_refuses E (dir (cr w)) op); [discriminate|].
  now intros [= _ <-].
Qed.

Lemma create_employee_Ok vals w emp w' :
  create_employee E vals w = (Ok emp, w') ->
  dir_of w' = with_hr_employee (fun t => t ++ [emp]) (dir_of w)
  /\ employee_fields emp = vals
  /\ employee_id emp = id_seq w.
Proof.
  unfold create_employee, store_check.
  unfold bind, get_dir, next_id, modify_dir, ret, raise. cbv beta iota.
  destruct (store_refuses E (dir (cr w)) (CreateEmployee vals)); [discriminate|].
  intros [= <- <-]. repeat split.
Qed.

Lemma write_employee_Ok i wr w u w' :
  write_employee E i wr w = (Ok u, w') ->
  dir_of w'
  = with_hr_employee
      (List.map (fun e => if employee_id e =? i
                          then apply_employee_write wr e else e))
      (dir_of w).
Proof.
  unfold write_employee, store_check.
  unfold bind, get_dir, modify_dir, ret, raise. cbv beta iota.
  destruct (store_refuses E (dir (cr w)) (WriteEmployee i wr)); [discriminate|].
  intros [= _ <-]. reflexivity.
Qed.

Lemma create_bank_account_Ok a c p w b w' :
  create_bank_account E a c p w = (Ok b, w') ->
  dir_of w' = with_res_partner_bank (fun t => t ++ [b]) (dir_of w).
Proof.
  unfold create_bank_account, store_check.
  unfold bind, get_dir, next_id, modify_dir, ret, raise. cbv beta iota.
  destruct (store_refuses E (dir (cr w)) (CreateBankAccount a c p)); [discriminate|].
  intros [= <- <-]. reflexivity.
Qed.

Lemma create_user_Ok vals w u w' :
  create_user E vals w = (Ok u, w') ->
  dir_of w' = with_res_users (fun t => t ++ [u]) (dir_of w)
  /\ user_fields u = vals.
Proof.
  unfold create_user, store_check.
  unfold bind, get_dir, next_id, modify_dir, ret, raise. cbv beta iota.
  destruct (store_refuses E (dir (cr w)) (CreateUser vals)); [discriminate|].
  intros [= <- <-]. split; reflexivity.
Qed.

Lemma set_encrypted_password_Ok i h w u w' :
  _set_encrypted_password E i h w = (Ok u, w') ->
  dir_of w'
  = with_res_users
      (List.map (fun u => if user_id u =? i
                          then {| user_id := user_id u;
                                  user_fields := user_fields u;
                                  user_password := Some h |}
                          else u))
      (dir_of w).
Proof.
  unfold _set_encrypted_password, store_check.
  unfold bind, get_dir, modify_dir, ret, raise. cbv beta iota.
  destruct (store_refuses E (dir (cr w)) (SetEncryptedPassword i h)); [discriminate|].
  intros [= _ <-]. reflexivity.
Qed.

(** No write on an employee changes who the employee is. *)
Lemma apply_employee_write_identity wr e :
  employee_id (apply_employee_write wr e) = employee_id e
  /\ ev_name (employee_fields (apply_employee_write wr e)) = ev_name (employee_fields e)
  /\ ev_employee_id_no (employee_fields (apply_employee_write wr e))
     = ev_employee_id_no (employee_fields e)
  /\ ev_device_user_id (employee_fields (apply_employee_write wr e))
     = ev_device_user_id (employee_fields e)
  /\ ev_work_email (employee_fields (apply_employee_write wr e))
     = ev_work_email (employee_fields e)
  /\ ev_company_id (employee_fields (apply_employee_write wr e))
     = ev_company_id (employee_fields e).
Proof. destruct wr; repeat split. Qed.

Lemma person_in_write i wr id vals d :
  person_in id vals d ->
  person_in id vals
    (with_hr_employee
       (List.map (fun e => if employee_id e =? i
                           then apply_employee_write wr e else e)) d).
Proof.
  intros (e & Hin & Hid & Hf).
  exists (if employee_id e =? i then apply_employee_write wr e else e).
  split.
  { simpl. apply list_elem_of_fmap. now exists e. }
  destruct (employee_id e =? i); [|auto].
  destruct (apply_employee_write_identity wr e) as (-> & -> & -> & -> & -> & ->).
  auto.
Qed.

Lemma person_written_write i wr d0 id vals d :
  person_written d0 id vals d ->
  person_written d0 id vals
    (with_hr_employee
       (List.map (fun e => if employee_id e =? i
                           then apply_employee_write wr e else e)) d).
Proof.
  intros (Hlen & Hu & Hg & Hp). split; [|split; [|split]].
  - simpl. now rewrite length_map.
  - exact Hu.
  - exact Hg.
  - now apply person_in_write.
Qed.

Lemma person_written_bank f d0 id vals d :
  person_written d0 id vals d ->
  person_written d0 id vals (with_res_partner_bank f d).
Proof. intros H. exact H. Qed.

End WriteFacts.

(* ===================================================================== *)
(** ** What a row that went in has written *)
(* ===================================================================== *)

Section ImportedRow.

Context (E : externals).

Hint Extern 1 (preserves _ (search_company _)) =>
  apply preserves_reads, reads_search_company : frame.
Hint Extern 1 (preserves _ (search_department _ _)) =>
  apply preserves_reads, reads_search_department : frame.
Hint Extern 1 (preserves _ (search_job _)) =>
  apply preserves_reads, reads_search_job : frame.
Hint Extern 1 (preserves _ (_resolve_employee_ref _)) =>
  apply preserves_reads, reads_resolve_employee_ref : frame.
Hint Extern 1 (preserves _ get_dir) =>
  apply preserves_reads, reads_get_dir : frame.
Hint Extern 1 (preserves _ get_wiz) =>
  apply preserves_reads, reads_get_wiz : frame.

(** The steps of [_import_row] that come before the person record touch
    neither the employees nor the accounts nor the base group. *)
Ltac people_frame :=
  solve [ repeat frame_step;
          first [ apply (tbl_create_department E people); reflexivity
                | apply (tbl_create_named E people); reflexivity
                | apply (tbl_find_or_create_named E people); reflexivity ] ].

Lemma attach_bank_accounts_keeps_person d0 emp comp str id vals :
  triple (fun w => person_written d0 id vals (dir_of w))
    (attach_bank_accounts E emp comp str)
    (fun _ w => person_written d0 id vals (dir_of w)).
Proof.
  unfold attach_bank_accounts. destruct (nonempty str).
  2: { apply triple_ret. auto. }
  apply triple_forM_. intros acc.
  intros w HP u w' Hrun.
  apply bind_Ok_inv in Hrun as (d & w1 & Hd & Hrun).
  unfold get_dir in Hd. injection Hd as <- <-.
  apply bind_Ok_inv in Hrun as (b & w2 & Hb & Hrun).
  apply write_employee_Ok in Hrun. rewrite Hrun.
  apply person_written_write.
  destruct (search_eq bank_acc_number acc (res_partner_bank (dir (cr w)))).
  - unfold ret in Hb. injection Hb as _ <-. exact HP.
  - apply create_bank_account_Ok in Hb. rewrite Hb.
    now apply person_written_bank.
Qed.

Lemma import_row_writes row w0 :
  triple (fun w => people (dir_of w) = people (dir_of w0))
    (_import_row E row)
    (fun result w' =>
       match result with
       | Imported r => row_imported E (dir_of w0) row r (dir_of w')
       | ImportFailed _ => True
       end).
Proof.
  unfold _import_row. cbv zeta.
  repeat
    lazymatch goal with
    | |- triple _ (bind (try_except _ _) _) _ => fail
    | |- triple _ (bind _ _) _ =>
        eapply triple_bind;
        [ apply (triple_preserves (fun w => people (dir_of w))
                   (fun x => x = people (dir_of w0)));
          people_frame
        | intros ? ]
    | |- triple _ (match ?x with _ => _ end) _ => destruct x
    | |- triple _ (ret (ImportFailed _)) _ => apply triple_ret; intros; exact I
    end.
  cbv beta.
  match goal with
  | |- triple _ (bind (try_except (bind (create_employee _ ?v) _) _) _) _ =>
      set (vals := v)
  end.
  apply (triple_bind _ _ _
           (fun created w =>
              match created with
              | inl _ => True
              | inr emp =>
                  person_written (dir_of w0) (employee_id emp) vals (dir_of w)
              end)).
  { (* the person record and the second write of the phones *)
    apply triple_try_except.
    2: { intros e w u w' Hrun. unfold ret in Hrun. now injection Hrun as <- _. }
    intros w HP created w' Hrun.
    apply bind_Ok_inv in Hrun as (emp & w1 & Hcreate & Hrun).
    apply create_employee_Ok in Hcreate as (Hdir & Hfields & _).
    apply bind_Ok_inv in Hrun as (u & w2 & Hphones & Hrun).
    unfold ret in Hrun. injection Hrun as <- <-.
    assert (H1 : person_written (dir_of w0) (employee_id emp) vals (dir_of w1)).
    { unfold people in HP. injection HP as He Hu Hg.
      rewrite Hdir. split; [|split; [|split]].
      - simpl. rewrite length_app, He. simpl. lia.
      - exact Hu.
      - exact Hg.
      - exists emp. split; [simpl; apply elem_of_app; right; apply list_elem_of_here|].
        rewrite Hfields. repeat split. }
    destruct (_ || _).
    - apply write_employee_Ok in Hphones. rewrite Hphones.
      now apply person_written_write.
    - unfold ret in Hphones. now injection Hphones as _ <-. }
  intros [err|emp].
  { apply triple_ret. intros; exact I. }
  eapply triple_bind; [apply attach_bank_accounts_keeps_person|]. intros []. cbv beta.
  eapply triple_bind.
  { apply (triple_preserves dir_of
             (person_written (dir_of w0) (employee_id emp) vals)).
    intros w. reflexivity. }
  intros password. cbv beta.
  apply triple_try_except.
  2: { intros e w u w' Hrun. unfold ret in Hrun. now injection Hrun as <- _. }
  (* the account *)
  intros w (Hlen & Husers & Hgroup & (e & He & Hid & Hname & Hno & Hdev & Hmail & _))
    result w' Hrun.
  apply bind_Ok_inv in Hrun as (d & w1 & Hd & Hrun).
  unfold get_dir in Hd. injection Hd as <- <-. fold (dir_of w) in Hrun.
  apply bind_Ok_inv in Hrun as (g & w2 & Hg & Hrun).
  destruct (base_group_user (dir_of w)) as [g0|] eqn:Hbase; [|discriminate Hg].
  unfold ret in Hg. injection Hg as <- <-.
  apply bind_Ok_inv in Hrun as (u & w3 & Huser & Hrun).
  apply create_user_Ok in Huser as (Hdir3 & Hfields).
  apply bind_Ok_inv in Hrun as (? & w4 & Hpw & Hrun).
  apply set_encrypted_password_Ok in Hpw.
  apply bind_Ok_inv in Hrun as (? & w5 & Hlink & Hrun).
  apply write_employee_Ok in Hlink.
  unfold ret in Hrun. injection Hrun as <- <-.
  rewrite Hlink, Hpw, Hdir3. unfold row_imported. simpl.
  split; [now rewrite length_map|].
  split; [rewrite length_map, length_app, Husers; simpl; lia|].
  exists (apply_employee_write (SetUser (user_id u)) e),
         {| user_id := user_id u; user_fields := user_fields u;
            user_password := Some (crypt_hash E password) |}.
  split.
  { apply list_elem_of_fmap. exists e. split; [|exact He].
    destruct (Z.eqb_spec (employee_id e) (employee_id emp)) as [_|Hne];
      [reflexivity|contradiction]. }
  split.
  { apply list_elem_of_fmap. exists u. split.
    - now rewrite Z.eqb_refl.
    - apply elem_of_app. right. apply list_elem_of_here. }
  simpl. rewrite Hfields, Hname, Hno, Hdev, Hmail. simpl.
  repeat (split; [reflexivity|]).
  exists g0. split; [congruence|]. apply list_elem_of_here.
Qed.

Lemma import_row_Imported row w r w' :
  _import_row E row w = (Ok (Imported r), w') ->
  row_imported E (dir_of w) row r (dir_of w').
Proof.
  intros H. exact (import_row_writes row w w eq_refl (Imported r) w' H).
Qed.

End ImportedRow.

Section RunLogs.

Context (E : externals).

(** Neither loop touches the import logs. *)
Lemma confirm_loop_logs (stop : bool) lbr rows acc w :
  logs_of (snd (confirm_loop
                  (if stop then confirm_row_stop E lbr else confirm_row_partial E lbr)
                  acc rows w))
  = logs_of w.
Proof.
  destruct stop.
  - apply confirm_loop_stop_inv.
  - destruct (confirm_loop_partial_ok E lbr rows acc w) as (acc' & w' & -> & Hl & _).
    exact Hl.
Qed.

(** The wizard with its preview lines left out: what neither loop
    writes. *)
Lemma touch_line_bare ix f w :
  with_lines (fun _ => []) (wiz_of (touch_line ix f w))
  = with_lines (fun _ => []) (wiz_of w).
Proof. unfold touch_line, update_line. destruct ix; reflexivity. Qed.

Lemma import_row_wiz row w : wiz_of (snd (_import_row E row w)) = wiz_of w.
Proof. apply (proj2 (beside_import_row E row)). Qed.

Lemma confirm_row_bare (stop : bool) lbr acc row w :
  with_lines (fun _ => [])
    (wiz_of (snd ((if stop then confirm_row_stop E lbr
                   else confirm_row_partial E lbr) acc row w)))
  = with_lines (fun _ => []) (wiz_of w).
Proof.
  pose proof (import_row_wiz row w) as Hw.
  destruct stop.
  - rewrite confirm_row_stop_cases. cbv zeta.
    destruct (marked_invalid lbr row (wiz_of w)); [apply touch_line_bare|].
    destruct (_import_row E row w) as [[[e|r]|e] w1]; simpl in Hw |- *;
      rewrite ?touch_line_bare; now rewrite Hw.
  - rewrite confirm_row_partial_cases. cbv zeta.
    destruct (marked_invalid lbr row (wiz_of w)); [apply touch_line_bare|].
    destruct (_import_row E row w) as [[[e|r]|e] w1]; simpl in Hw |- *;
      rewrite ?touch_line_bare, ?rollback_wiz; now rewrite ?Hw.
Qed.

Lemma confirm_loop_bare (stop : bool) lbr rows : forall acc w,
  with_lines (fun _ => [])
    (wiz_of (snd (confirm_loop
                    (if stop then confirm_row_stop E lbr
                     else confirm_row_partial E lbr) acc rows w)))
  = with_lines (fun _ => []) (wiz_of w).
Proof.
  induction rows as [|row rows IH]; intros acc w; [reflexivity|].
  rewrite confirm_loop_cons.
  pose proof (confirm_row_bare stop lbr acc row w) as Hrow.
  set (body := if stop then confirm_row_stop E lbr else confirm_row_partial E lbr) in *.
  destruct (body acc row w) as [[acc1|e] w1]; simpl in Hrow.
  - now rewrite IH.
  - exact Hrow.
Qed.

End RunLogs.

Section RunCounts.

Context (E : externals).

(** A pass of either loop that returns has added one employee and one
    account for the entry it has added to [results], and none otherwise. *)
Lemma confirm_row_counts (stop : bool) lbr acc row w acc' w' :
  (if stop then confirm_row_stop E lbr else confirm_row_partial E lbr) acc row w
  = (Ok acc', w') ->
  (employee_count w' + length acc.1 = employee_count w + length acc'.1)%nat
  /\ (user_count w' + length acc.1 = user_count w + length acc'.1)%nat.
Proof.
  unfold employee_count, user_count.
  destruct stop.
  - rewrite confirm_row_stop_cases. cbv zeta.
    destruct (marked_invalid lbr row (wiz_of w)); [discriminate|].
    destruct (_import_row E row w) as [[[e|r]|e] w1] eqn:Himp; try discriminate.
    intros [= <- <-]. apply import_row_Imported in Himp as (He & Hu & _).
    rewrite touch_line_dir, He, Hu. simpl. rewrite length_app. simpl. lia.
  - rewrite confirm_row_partial_cases. cbv zeta.
    destruct (marked_invalid lbr row (wiz_of w)).
    { intros [= <- <-]. rewrite touch_line_dir. simpl. lia. }
    destruct (_import_row E row w) as [[[e|r]|e] w1] eqn:Himp;
      intros [= <- <-]; rewrite ?touch_line_dir, ?rollback_dir; simpl; try lia.
    apply import_row_Imported in Himp as (He & Hu & _).
    rewrite He, Hu, length_app. simpl. lia.
Qed.

Lemma confirm_loop_counts (stop : bool) lbr rows : forall acc w acc' w',
  confirm_loop (if stop then confirm_row_stop E lbr else confirm_row_partial E lbr)
    acc rows w = (Ok acc', w') ->
  (employee_count w' + length acc.1 = employee_count w + length acc'.1)%nat
  /\ (user_count w' + length acc.1 = user_count w + length acc'.1)%nat.
Proof.
  induction rows as [|row rows IH]; intros acc w acc' w' H.
  - simpl in H. unfold ret in H. injection H as <- <-. lia.
  - rewrite confirm_loop_cons in H.
    set (body := if stop then confirm_row_stop E lbr else confirm_row_partial E lbr) in *.
    destruct (body acc row w) as [[acc1|e] w1] eqn:Hrow; [|discriminate].
    apply (confirm_row_counts stop) in Hrow. apply IH in H. lia.
Qed.

End RunCounts.

Section LookupOnce.

Context (E : externals).

Lemma search_ilike_app_new (table : list named) name r :
  search_ilike E named_name name table = None ->
  ilike E (named_name r) name = true ->
  search_ilike E named_name name (table ++ [r]) = Some r.
Proof.
  unfold search_ilike. intros Hnone Hr.
  induction table as [|x table IH]; simpl in *.
  - now rewrite Hr.
  - destruct (ilike E (named_name x) name); [discriminate|]. now apply IH.
Qed.

Lemma create_named_Ok op put name w r w' :
  create_named E op put name w = (Ok r, w') ->
  dir_of w' = put (fun t => t ++ [r]) (dir_of w) /\ named_name r = name.
Proof.
  unfold create_named, store_check.
  unfold bind, get_dir, next_id, modify_dir, ret, raise. cbv beta iota.
  destruct (store_refuses E (dir (cr w)) op); [discriminate|].
  intros [= <- <-]. split; reflexivity.
Qed.

End LookupOnce.

Section UnknownCompany.

Context (E : externals).

(** [_import_row] reports a missing company only when the look-up by name
    finds none. *)
Lemma import_row_company_missing_inv row w name w' :
  _import_row E row w = (Ok (ImportFailed (ImportCompanyNotFound name)), w') ->
  search_eq company_name (_parse_str E (get row "Business Unit"))
    (res_company (dir_of w)) = None.
Proof.
  intros H. unfold _import_row in H. cbv zeta in H.
  apply bind_Ok_inv in H as (z & wa & Hz & H).
  unfold get_wiz in Hz. injection Hz as <- <-.
  apply bind_Ok_inv in H as (company & wb & Hs & H).
  unfold search_company, bind, get_dir, ret in Hs. cbv beta iota in Hs.
  injection Hs as <- <-. fold (dir_of w) in H |- *.
  destruct (search_eq company_name _ (res_company (dir_of w))) as [c|];
    [exfalso|reflexivity].
  repeat
    match type of H with
    | bind (try_except _ _) _ _ = _ => fail 1
    | bind _ _ _ = (Ok _, _) =>
        let a := fresh "a" in let wa := fresh "wa" in
        apply bind_Ok_inv in H as (a & wa & _ & H)
    end.
  apply bind_Ok_inv in H as (created & wc & Hc & H).
  apply try_except_Ok_inv in Hc as [Hc | (e & wd & _ & Hc)].
  - apply bind_Ok_inv in Hc as (emp & wd & _ & Hc).
    apply bind_Ok_inv in Hc as (u & we & _ & Hc).
    unfold ret in Hc. injection Hc as <- <-.
    apply bind_Ok_inv in H as (u' & wf & _ & H).
    apply bind_Ok_inv in H as (pw & wg & _ & H).
    apply try_except_Ok_inv in H as [H | (e & wh & _ & H)].
    + repeat
        match type of H with
        | bind _ _ _ = (Ok _, _) =>
            let a := fresh "a" in let wa := fresh "wa" in
            apply bind_Ok_inv in H as (a & wa & _ & H)
        end.
      discriminate H.
    + discriminate H.
  - unfold ret in Hc. injection Hc as <- <-. discriminate H.
Qed.

End UnknownCompany.

(* ===================================================================== *)
(** ** The preview line of a row, and a preview with errors *)
(* ===================================================================== *)

Section PreviewMatch.

Context (E : externals).

Lemma fold_line_by_row_other (ils : list (nat * line)) : forall (m : gmap Z nat) n,
  (forall il, il ∈ ils -> line_row_no il.2 <> n) ->
  fold_left (fun m il => <[ line_row_no il.2 := il.1 ]> m) ils m !! n = m !! n.
Proof.
  induction ils as [|il ils IH]; intros m n Hne; [reflexivity|].
  simpl. rewrite IH.
  - apply lookup_insert_ne. apply Hne. apply list_elem_of_here.
  - intros il' Hin. apply Hne. now apply list_elem_of_further.
Qed.

Lemma fold_line_by_row_lookup (lines : list line) : forall a (m : gmap Z nat) k ln,
  NoDup (line_row_no <$> lines) -> lines !! k = Some ln ->
  fold_left (fun m il => <[ line_row_no il.2 := il.1 ]> m)
            (zip (List.seq a (length lines)) lines) m
  !! line_row_no ln = Some (a + k)%nat.
Proof.
  induction lines as [|l0 lines IH]; intros a m k ln Hnd Hk; [discriminate|].
  rewrite fmap_cons in Hnd. apply NoDup_cons in Hnd as [Hnotin Hnd].
  simpl. destruct k as [|k]; simpl in Hk.
  - injection Hk as ->. rewrite fold_line_by_row_other.
    + rewrite lookup_insert_eq. f_equal. lia.
    + intros il Hin Heq. apply Hnotin. rewrite <- Heq.
      apply list_elem_of_fmap. exists il.2. split; [reflexivity|].
      destruct il as [i l]. eapply elem_of_zip_r. exact Hin.
  - rewrite (IH (S a) _ k ln Hnd Hk). f_equal. lia.
Qed.

(** With distinct row numbers, a row number leads to the line that
    carries it. *)
Lemma build_line_by_row_lookup lines k ln :
  NoDup (line_row_no <$> lines) -> lines !! k = Some ln ->
  build_line_by_row lines !! line_row_no ln = Some k.
Proof.
  intros Hnd Hk. unfold build_line_by_row.
  now rewrite (fold_line_by_row_lookup lines 0 ∅ k ln Hnd Hk).
Qed.

(** Whether a row is matched to a line marked invalid depends on the
    validity flags of the lines alone. *)
Lemma marked_invalid_flags lbr row z z' :
  line_is_valid <$> line_ids z = line_is_valid <$> line_ids z' ->
  is_Some (marked_invalid lbr row z) -> is_Some (marked_invalid lbr row z').
Proof.
  intros Hflags. unfold marked_invalid.
  destruct (lookup_line lbr row) as [i|]; simpl; [|intros [? [=]]].
  pose proof (f_equal (fun l => l !! i) Hflags) as Hi. simpl in Hi.
  rewrite !list_lookup_fmap in Hi.
  destruct (line_ids z !! i) as [ln|], (line_ids z' !! i) as [ln'|];
    simpl in *; try discriminate; [|intros [? [=]]].
  injection Hi as Hi. rewrite Hi. destruct (line_is_valid ln'); [intros [? [=]]|].
  intros _. now eexists.
Qed.

Lemma alter_status_flags st i (l : list line) :
  line_is_valid <$> alter (set_status st) i l = line_is_valid <$> l.
Proof.
  revert i. induction l as [|x l IH]; intros i; [reflexivity|].
  destruct i as [|i]; simpl; [reflexivity|]. f_equal. apply IH.
Qed.

Lemma touch_status_flags ix st w :
  line_is_valid <$> line_ids (wiz_of (touch_line ix (set_status st) w))
  = line_is_valid <$> line_ids (wiz_of w).
Proof.
  rewrite touch_line_lines. destruct ix; [apply alter_status_flags|reflexivity].
Qed.

(** Under [stop_on_error] the loop raises as soon as the file holds a row
    that is matched to a line marked invalid, wherever the row stands. *)
Lemma stop_loop_raises lbr rows : forall acc w,
  (exists row, row ∈ rows /\ is_Some (marked_invalid lbr row (wiz_of w))) ->
  exists e w', confirm_loop (confirm_row_stop E lbr) acc rows w = (Raise e, w').
Proof.
  induction rows as [|row0 rows IH]; intros acc w (row & Hin & Hflag).
  - now apply elem_of_nil in Hin.
  - rewrite confirm_loop_cons, confirm_row_stop_cases. cbv zeta.
    destruct (marked_invalid lbr row0 (wiz_of w)) as [err|] eqn:H0; [eauto|].
    pose proof (import_row_wiz E row0 w) as Hw.
    destruct (_import_row E row0 w) as [[[e|r]|e] w1]; simpl in Hw; eauto.
    apply IH. exists row. split.
    + apply elem_of_cons in Hin as [->|Hin]; [|exact Hin].
      rewrite H0 in Hflag. destruct Hflag as [? [=]].
    + eapply marked_invalid_flags; [|exact Hflag].
      now rewrite touch_status_flags, Hw.
Qed.

End PreviewMatch.

(* ===================================================================== *)
(** ** A date written in ISO form is read back *)
(* ===================================================================== *)

Section IsoRoundTrip.

Context (E : externals).

Lemma years_read_back :
  forallb year_reads_back (List.map Z.to_N (seqZ 1 9999)) = true.
Proof. vm_compute. reflexivity. Qed.

Lemma months_days_read_back :
  forallb (fun m => forallb (month_day_read_back m) (List.map Z.to_N (seqZ 1 31)))
          (List.map Z.to_N (seqZ 1 12)) = true.
Proof. vm_compute. reflexivity. Qed.

Lemma in_seqZ_to_N lo n x :
  lo <= x < lo + n -> In (Z.to_N x) (List.map Z.to_N (seqZ lo n)).
Proof.
  intros H. apply in_map. apply list_elem_of_In, elem_of_seqZ. exact H.
Qed.

Lemma year_reads_back_ok y : 1 <= y <= 9999 -> year_reads_back (Z.to_N y) = true.
Proof.
  intros Hy. pose proof years_read_back as H. rewrite forallb_forall in H.
  apply H. apply in_seqZ_to_N. lia.
Qed.

Lemma month_day_read_back_ok m d :
  1 <= m <= 12 -> 1 <= d <= 31 ->
  month_day_read_back (Z.to_N m) (Z.to_N d) = true.
Proof.
  intros Hm Hd. pose proof months_days_read_back as H.
  rewrite forallb_forall in H.
  specialize (H (Z.to_N m)). rewrite forallb_forall in H.
  apply H; apply in_seqZ_to_N; lia.
Qed.

Lemma days_in_month_le y m : Calendar.days_in_month y m <= 31.
Proof.
  unfold Calendar.days_in_month.
  destruct (m =? 2); [destruct (Calendar.is_leap y); lia|].
  destruct (_ || _); lia.
Qed.

Lemma match_fmt_year a b c e fmt tail gs rest :
  PyStr.is_digit a = true -> PyStr.is_digit b = true ->
  PyStr.is_digit c = true -> PyStr.is_digit e = true ->
  Strptime.match_fmt fmt tail = Some (gs, rest) ->
  Strptime.match_fmt (Strptime.Dir Strptime.DY :: fmt)
    (String a (String b (String c (String e tail))))
  = Some ((Strptime.DY, String a (String b (String c (String e EmptyString)))) :: gs,
          rest).
Proof.
  intros Ha Hb Hc He Hm. simpl. rewrite Ha, Hb, Hc, He. simpl.
  now rewrite Hm.
Qed.

Lemma isoformat_is_accepted (d : date) :
  Calendar.valid (year d) (month d) (day d) = true ->
  PyStr.strip (Calendar.isoformat d) = Calendar.isoformat d
  /\ accepts (Calendar.isoformat d) Strptime.fmt_Y_m_d = Some d.
Proof.
  destruct d as [y m dd]. simpl year. simpl month. simpl day. intros Hv.
  assert (Hr : 1 <= y <= 9999 /\ 1 <= m <= 12 /\ 1 <= dd <= 31).
  { pose proof (days_in_month_le y m). unfold Calendar.valid in Hv.
    repeat (apply andb_prop in Hv as [Hv ?]).
    repeat match goal with
           | H : (_ <=? _) = true |- _ => apply Z.leb_le in H
           end.
    lia. }
  destruct Hr as (Hy & Hm & Hd).
  pose proof (year_reads_back_ok y Hy) as HY.
  pose proof (month_day_read_back_ok m dd Hm Hd) as HT.
  unfold Calendar.isoformat. simpl year. simpl month. simpl day.
  change (PyStr.zfill 4 (Z.to_N y) +:+ "-" +:+ PyStr.zfill 2 (Z.to_N m)
          +:+ "-" +:+ PyStr.zfill 2 (Z.to_N dd))
    with (PyStr.zfill 4 (Z.to_N y) +:+ month_day_text (Z.to_N m) (Z.to_N dd)).
  unfold year_reads_back in HY. unfold month_day_read_back in HT.
  set (tail := month_day_text (Z.to_N m) (Z.to_N dd)) in *.
  destruct (PyStr.zfill 4 (Z.to_N y)) as [|a [|b [|c [|e [|? ?]]]]];
    try discriminate HY.
  apply andb_prop in HY as [HY Hyear]. apply andb_prop in HY as [HY He].
  apply andb_prop in HY as [HY Hc]. apply andb_prop in HY as [Ha Hb].
  apply Z.eqb_eq in Hyear.
  apply andb_prop in HT as [Hns HT].
  destruct (Strptime.match_fmt _ tail) as [[gs rest]|] eqn:Hmatch;
    [|discriminate HT].
  destruct gs as [|[[] tm] [|[[] td] [|? ?]]]; try discriminate HT.
  destruct rest; [|discriminate HT].
  apply andb_prop in HT as [Htm Htd].
  apply Z.eqb_eq in Htm, Htd.
  clearbody tail.
  assert (Hnsy : PyStr.no_space (String a (String b (String c (String e EmptyString))))
                 = true).
  { unfold PyStr.no_space. simpl.
    now rewrite !PyStrFacts.is_digit_not_space by assumption. }
  change (String a (String b (String c (String e EmptyString))) +:+ tail)
    with (String a (String b (String c (String e tail)))).
  split.
  - apply PyStrFacts.strip_no_space. unfold PyStr.no_space in *. simpl.
    rewrite !PyStrFacts.is_digit_not_space by assumption. exact Hns.
  - unfold accepts, Strptime.strptime, Strptime.fmt_Y_m_d.
    assert (Hm4 : Strptime.match_fmt
                    [Strptime.Dir Strptime.DY; Strptime.Lit "-";
                     Strptime.Dir Strptime.Dm; Strptime.Lit "-";
                     Strptime.Dir Strptime.Dd]
                    (String a (String b (String c (String e tail))))
                  = Some ([(Strptime.DY, String a (String b (String c (String e EmptyString))));
                           (Strptime.Dm, tm); (Strptime.Dd, td)], EmptyString)).
    { now apply match_fmt_year. }
    rewrite Hm4. rewrite bool_decide_eq_true_2 by reflexivity.
    assert (Hgy : Strptime.group Strptime.DY 1900
                    [(Strptime.DY, String a (String b (String c (String e EmptyString))));
                     (Strptime.Dm, tm); (Strptime.Dd, td)] = y).
    { simpl. unfold Strptime.int_group.
      rewrite (PyStrFacts.strip_no_space _ Hnsy), Hyear. lia. }
    assert (Hgm : Strptime.group Strptime.Dm 1
                    [(Strptime.DY, String a (String b (String c (String e EmptyString))));
                     (Strptime.Dm, tm); (Strptime.Dd, td)] = m).
    { simpl. rewrite Htm. lia. }
    assert (Hgd : Strptime.group Strptime.Dd 1
                    [(Strptime.DY, String a (String b (String c (String e EmptyString))));
                     (Strptime.Dm, tm); (Strptime.Dd, td)] = dd).
    { simpl. rewrite Htd. lia. }
    cbv zeta. rewrite Hgy, Hgm, Hgd, Hv. reflexivity.
Qed.

Lemma parse_date_of_isoformat (d : date) :
  Calendar.valid (year d) (month d) (day d) = true ->
  _parse_date E (PStr (Calendar.isoformat d)) = Ok (Some d).
Proof.
  intros Hv. destruct (isoformat_is_accepted d Hv) as [Hs Ha].
  rewrite parse_date_text, Hs. unfold DATE_FORMATS. simpl Strptime.first_some.
  now rewrite Ha.
Qed.

End IsoRoundTrip.

Section TextShape.

Lemma length_app (s t : string) :
  String.length (s +:+ t) = (String.length s + String.length t)%nat.
Proof. induction s as [|c s IH]; simpl; [reflexivity|now rewrite IH]. Qed.

Lemma all_chars_app p (s t : string) :
  PyStr.all_chars p (s +:+ t) = PyStr.all_chars p s && PyStr.all_chars p t.
Proof.
  induction s as [|c s IH]; simpl; [reflexivity|].
  now rewrite IH, andb_assoc.
Qed.

Lemma zfill_go_length w : forall s,
  String.length (PyStr.zfill_go w s) = (w + String.length s)%nat.
Proof.
  induction w as [|w IH]; intros s; simpl; [reflexivity|].
  rewrite IH. simpl. lia.
Qed.

Lemma zfill_go_digits w : forall s,
  PyStr.all_chars PyStr.is_digit s = true ->
  PyStr.all_chars PyStr.is_digit (PyStr.zfill_go w s) = true.
Proof.
  induction w as [|w IH]; intros s Hs; simpl; [exact Hs|].
  apply IH. simpl. exact Hs.
Qed.

Lemma str_N_go_length fuel : forall n acc,
  (String.length acc <= String.length (PyStr.str_N_go fuel n acc))%nat.
Proof.
  induction fuel as [|f IH]; intros n acc; simpl; [lia|].
  destruct (n <? 10)%N; simpl; [lia|].
  etransitivity; [|apply IH]. simpl. lia.
Qed.

Lemma zfill_length w n :
  (w <= String.length (PyStr.zfill w n))%nat
  /\ (1 <= String.length (PyStr.zfill w n))%nat.
Proof.
  unfold PyStr.zfill. rewrite zfill_go_length.
  assert (1 <= String.length (PyStr.str_N n))%nat.
  { unfold PyStr.str_N. simpl.
    destruct (n <? 10)%N; simpl; [lia|].
    etransitivity; [|apply str_N_go_length]. simpl. lia. }
  lia.
Qed.

Lemma zfill_digits w n : PyStr.all_chars PyStr.is_digit (PyStr.zfill w n) = true.
Proof. apply zfill_go_digits, PyStrFacts.str_N_digits. Qed.

Lemma digits_no_space s :
  PyStr.all_chars PyStr.is_digit s = true -> PyStr.no_space s = true.
Proof.
  unfold PyStr.no_space. induction s as [|c s IH]; simpl; [reflexivity|].
  intros H. apply andb_prop in H as [Hc Hs].
  now rewrite (PyStrFacts.is_digit_not_space c Hc), IH.
Qed.

Lemma length_nonempty s : (1 <= String.length s)%nat -> s <> EmptyString.
Proof. destruct s; simpl; [lia|discriminate]. Qed.

(** What stands before a text that [rstrip] keeps whole is kept too. *)
Lemma rstrip_app (s u : string) :
  u <> EmptyString -> PyStr.rstrip u = u ->
  s +:+ u <> EmptyString /\ PyStr.rstrip (s +:+ u) = s +:+ u.
Proof.
  intros Hne Hu. induction s as [|c s [IH1 IH2]]; [now split|].
  split; [discriminate|].
  change (String c s +:+ u) with (String c (s +:+ u)).
  simpl PyStr.rstrip. rewrite IH2.
  destruct (s +:+ u); [now destruct IH1|reflexivity].
Qed.

End TextShape.

Section FormatWidth.

Lemma match_seq_length cs : forall s txt r,
  Strptime.match_seq cs s = Some (txt, r) ->
  String.length s = (length cs + String.length r)%nat.
Proof.
  induction cs as [|c cs IH]; intros s txt r H; simpl in H.
  - now injection H as _ ->.
  - destruct s as [|x s]; [discriminate|].
    destruct (c x); [|discriminate].
    destruct (Strptime.match_seq cs s) as [[t r']|] eqn:Hm; [|discriminate].
    injection H as _ <-. simpl. now rewrite (IH _ _ _ Hm).
Qed.

Lemma regex_width d alt :
  In alt (Strptime.regex_of d) -> (length alt <= dir_width d)%nat.
Proof.
  destruct d; simpl; intros H;
    repeat (destruct H as [<-|H]; [simpl; lia|]); destruct H.
Qed.

(** A format takes no more characters than its width. *)
Lemma match_fmt_length fmt : forall s gs rest,
  Strptime.match_fmt fmt s = Some (gs, rest) ->
  (String.length s <= fmt_width fmt + String.length rest)%nat.
Proof.
  induction fmt as [|i fmt IH]; intros s gs rest H.
  - simpl in H. injection H as _ ->. simpl. lia.
  - destruct i as [d|c].
    + cbn [Strptime.match_fmt] in H.
      apply first_some_Some in H as (pre & alt & post & Hre & Halt & _).
      destruct (Strptime.match_seq alt s) as [[txt r]|] eqn:Hs; [|discriminate].
      destruct (Strptime.match_fmt fmt r) as [[gs' rest']|] eqn:Hf; [|discriminate].
      injection Halt as _ <-.
      apply match_seq_length in Hs. apply IH in Hf.
      assert (length alt <= dir_width d)%nat.
      { apply regex_width. rewrite Hre. apply in_or_app. right. now left. }
      unfold fmt_width in *. simpl. lia.
    + simpl in H. destruct s as [|x s]; [discriminate|].
      destruct (bool_decide (x = c)); [|discriminate].
      apply IH in H. unfold fmt_width in *. simpl. lia.
Qed.

(** No format accepts a text that is longer than its width. *)
Lemma accepts_too_long s fmt :
  (fmt_width fmt < String.length s)%nat -> accepts s fmt = None.
Proof.
  intros Hlen. unfold accepts, Strptime.strptime.
  destruct (Strptime.match_fmt fmt s) as [[gs rest]|] eqn:Hm; [|reflexivity].
  apply match_fmt_length in Hm.
  rewrite bool_decide_eq_false_2; [reflexivity|].
  intros ->. simpl in Hm. lia.
Qed.

(** A format that begins with a day or a month and a separator accepts no
    text that begins with three digits. *)
Lemma match_fmt_three_digits d sep fmt a b c r :
  d <> Strptime.DY ->
  PyStr.is_digit sep = false ->
  PyStr.is_digit a = true -> PyStr.is_digit b = true ->
  PyStr.is_digit c = true ->
  Strptime.match_fmt (Strptime.Dir d :: Strptime.Lit sep :: fmt)
    (String a (String b (String c r))) = None.
Proof.
  intros Hd Hsep Ha Hb Hc.
  assert (Hbs : bool_decide (b = sep) = false)
    by (apply bool_decide_eq_false_2; congruence).
  assert (Hcs : bool_decide (c = sep) = false)
    by (apply bool_decide_eq_false_2; congruence).
  destruct d; [congruence| |];
    repeat (simpl; rewrite ?Hbs, ?Hcs;
            match goal with
            | |- context [if ?x then _ else _] => destruct x
            end);
    simpl; rewrite ?Hbs, ?Hcs; reflexivity.
Qed.

End FormatWidth.

Section DateTimeText.

Context (E : externals).

(** A text of digits, as long as a year, begins with four digits. *)
Lemma four_digits_head s :
  (4 <= String.length s)%nat -> PyStr.all_chars PyStr.is_digit s = true ->
  exists a b c e r,
    s = String a (String b (String c (String e r)))
    /\ PyStr.is_digit a = true /\ PyStr.is_digit b = true
    /\ PyStr.is_digit c = true /\ PyStr.is_digit e = true.
Proof.
  destruct s as [|a [|b [|c [|e r]]]]; simpl; try lia.
  intros _ H.
  apply andb_prop in H as [Ha H]. apply andb_prop in H as [Hb H].
  apply andb_prop in H as [Hc H]. apply andb_prop in H as [He _].
  exists a, b, c, e, r. auto.
Qed.

(** The text of a datetime is left as it is by [strip], is longer than a
    date, and begins with the digits of the year. *)
Lemma str_datetime_shape (t : datetime) :
  PyStr.strip (Calendar.str_datetime t) = Calendar.str_datetime t
  /\ (19 <= String.length (Calendar.str_datetime t))%nat
  /\ exists a b c r,
       Calendar.str_datetime t = String a (String b (String c r))
       /\ PyStr.is_digit a = true /\ PyStr.is_digit b = true
       /\ PyStr.is_digit c = true.
Proof.
  unfold Calendar.str_datetime, Calendar.isoformat.
  set (Y := PyStr.zfill 4 (Z.to_N (year (dt_date t)))).
  set (Mo := PyStr.zfill 2 (Z.to_N (month (dt_date t)))).
  set (D := PyStr.zfill 2 (Z.to_N (day (dt_date t)))).
  set (H := PyStr.zfill 2 (Z.to_N (hour t))).
  set (Mi := PyStr.zfill 2 (Z.to_N (minute t))).
  set (S := PyStr.zfill 2 (Z.to_N (second t))).
  set (frac := if microsecond t =? 0 then ""
               else "." +:+ PyStr.zfill 6 (Z.to_N (microsecond t))).
  assert (HY := proj1 (zfill_length 4 (Z.to_N (year (dt_date t))))).
  assert (HMo := proj1 (zfill_length 2 (Z.to_N (month (dt_date t))))).
  assert (HD := proj1 (zfill_length 2 (Z.to_N (day (dt_date t))))).
  assert (HH := proj1 (zfill_length 2 (Z.to_N (hour t)))).
  assert (HMi := proj1 (zfill_length 2 (Z.to_N (minute t)))).
  assert (HS := proj1 (zfill_length 2 (Z.to_N (second t)))).
  fold Y in HY. fold Mo in HMo. fold D in HD. fold H in HH. fold Mi in HMi.
  fold S in HS.
  assert (Hlast : S +:+ frac <> EmptyString
                  /\ PyStr.rstrip (S +:+ frac) = S +:+ frac).
  { split.
    - apply length_nonempty. rewrite length_app. lia.
    - apply PyStrFacts.rstrip_no_space. unfold PyStr.no_space.
      rewrite all_chars_app. apply andb_true_intro. split.
      + apply digits_no_space, zfill_digits.
      + unfold frac. destruct (microsecond t =? 0); [reflexivity|].
        apply (digits_no_space (PyStr.zfill 6 _)), zfill_digits. }
  assert (Hr : PyStr.rstrip
                 ((Y +:+ "-" +:+ Mo +:+ "-" +:+ D) +:+ " " +:+ H +:+ ":"
                  +:+ Mi +:+ ":" +:+ S +:+ frac)
               = (Y +:+ "-" +:+ Mo +:+ "-" +:+ D) +:+ " " +:+ H +:+ ":"
                 +:+ Mi +:+ ":" +:+ S +:+ frac).
  { destruct Hlast as [Hne Hrs].
    repeat first
      [ assumption
      | match goal with
        | |- PyStr.rstrip (?s +:+ ?u) = _ => apply (rstrip_app s u)
        | |- ?s +:+ ?u <> EmptyString => apply (rstrip_app s u)
        end ]. }
  destruct (four_digits_head Y HY (zfill_digits _ _))
    as (a & b & c & e & r & HYeq & Ha & Hb & Hc & He).
  split; [|split].
  - unfold PyStr.strip.
    rewrite <- Hr at 2. f_equal.
    change ((Y +:+ "-" +:+ Mo +:+ "-" +:+ D) +:+ " " +:+ H +:+ ":"
            +:+ Mi +:+ ":" +:+ S +:+ frac)
      with ((Y +:+ "-" +:+ Mo +:+ "-" +:+ D) +:+ (" " +:+ H +:+ ":"
            +:+ Mi +:+ ":" +:+ S +:+ frac)).
    generalize (" " +:+ H +:+ ":" +:+ Mi +:+ ":" +:+ S +:+ frac). intros u.
    rewrite HYeq. simpl.
    pose proof (PyStrFacts.is_digit_not_space a Ha) as Hns.
    apply negb_true_iff in Hns. now rewrite Hns.
  - rewrite !length_app. simpl. lia.
  - rewrite HYeq. simpl. eauto 10.
Qed.

(** The text that [str] gives for a datetime is no date for
    [_parse_date]: the first format leaves the time over and the three
    others want a separator after two digits at most. *)
Lemma parse_date_of_datetime_text (t : datetime) :
  _parse_date E (PStr (Calendar.str_datetime t)) = Ok None.
Proof.
  destruct (str_datetime_shape t)
    as (Hs & Hlen & a & b & c & r & Heq & Ha & Hb & Hc).
  rewrite parse_date_text, Hs. f_equal.
  apply first_some_None. intros fmt Hin.
  unfold DATE_FORMATS in Hin. simpl in Hin.
  destruct Hin as [<-|[<-|[<-|[<-|[]]]]].
  - apply accepts_too_long. unfold fmt_width. simpl. lia.
  - unfold accepts, Strptime.strptime, Strptime.fmt_d_m_Y_slash.
    rewrite Heq, match_fmt_three_digits by (auto; discriminate). reflexivity.
  - unfold accepts, Strptime.strptime, Strptime.fmt_d_m_Y_dash.
    rewrite Heq, match_fmt_three_digits by (auto; discriminate). reflexivity.
  - unfold accepts, Strptime.strptime, Strptime.fmt_m_d_Y_slash.
    rewrite Heq, match_fmt_three_digits by (auto; discriminate). reflexivity.
Qed.

End DateTimeText.

Section TwoDigitFields.

Lemma two_digits_read_back_all :
  forallb two_digits_read_back (List.map Z.to_N (seqZ 0 100)) = true.
Proof. vm_compute. reflexivity. Qed.

Lemma two_digits_read_back_ok n : 0 <= n <= 99 ->
  exists a b,
    PyStr.zfill 2 (Z.to_N n) = String a (String b EmptyString)
    /\ PyStr.is_digit a = true /\ PyStr.is_digit b = true
    /\ Strptime.int_group (PyStr.zfill 2 (Z.to_N n)) = n.
Proof.
  intros Hn. pose proof two_digits_read_back_all as H.
  rewrite forallb_forall in H.
  specialize (H (Z.to_N n) (in_seqZ_to_N 0 100 n ltac:(lia))).
  unfold two_digits_read_back in H.
  destruct (PyStr.zfill 2 (Z.to_N n)) as [|a [|b [|? ?]]]; try discriminate H.
  apply andb_prop in H as [H Hv]. apply andb_prop in H as [Ha Hb].
  apply Z.eqb_eq in Hv. exists a, b. repeat split; auto. lia.
Qed.

(** A day or a month on two digits in front of a separator: the
    directive takes the two digits when they spell a number of its range
    and the separator is the one of the format, and nothing else. *)
Lemma two_digit_field d sep c fmt tail (n : nat) :
  (n < 100)%nat -> d <> Strptime.DY ->
  sep = "/"%char \/ sep = "-"%char -> c = "/"%char \/ c = "-"%char ->
  Strptime.match_fmt (Strptime.Dir d :: Strptime.Lit sep :: fmt)
    (PyStr.zfill 2 (N.of_nat n) +:+ String c tail)
  = if field_ok d (Z.of_nat n) && bool_decide (c = sep)
    then match Strptime.match_fmt fmt tail with
         | Some (gs, rest) => Some ((d, PyStr.zfill 2 (N.of_nat n)) :: gs, rest)
         | None => None
         end
    else None.
Proof.
  intros Hn Hd Hsep Hc.
  destruct d; [congruence| |];
    destruct Hsep as [-> | ->]; destruct Hc as [-> | ->];
    do 100 (destruct n as [|n];
            [simpl; destruct (Strptime.match_fmt fmt tail) as [[? ?]|];
             reflexivity|]);
    lia.
Qed.

End TwoDigitFields.

Section DayMonthYearText.

Context (E : externals).

Lemma year_field y : 1 <= y <= 9999 ->
  Strptime.match_fmt [Strptime.Dir Strptime.DY] (PyStr.zfill 4 (Z.to_N y))
  = Some ([(Strptime.DY, PyStr.zfill 4 (Z.to_N y))], EmptyString)
  /\ Strptime.int_group (PyStr.zfill 4 (Z.to_N y)) = y.
Proof.
  intros Hy. pose proof (year_reads_back_ok y Hy) as H.
  unfold year_reads_back in H. unfold Strptime.int_group.
  rewrite (PyStrFacts.strip_no_space _ (digits_no_space _ (zfill_digits 4 _))).
  destruct (PyStr.zfill 4 (Z.to_N y)) as [|a [|b [|c [|e [|? ?]]]]];
    try discriminate H.
  apply andb_prop in H as [H Hv]. apply andb_prop in H as [H He].
  apply andb_prop in H as [H Hc]. apply andb_prop in H as [Ha Hb].
  apply Z.eqb_eq in Hv. split; [|lia].
  now apply (match_fmt_year a b c e [] EmptyString [] EmptyString).
Qed.

Lemma valid_fields y m d :
  Calendar.valid y m d = true ->
  field_ok Strptime.Dm m = true /\ field_ok Strptime.Dd d = true.
Proof.
  intros Hv. pose proof (days_in_month_le y m). unfold Calendar.valid in Hv.
  repeat (apply andb_prop in Hv as [Hv ?]).
  repeat match goal with
         | H : (_ <=? _) = true |- _ => apply Z.leb_le in H
         end.
  unfold field_ok. split; apply andb_true_intro; split; apply Z.leb_le; lia.
Qed.

Lemma dmy_text_stripped c a b y :
  c = "/"%char \/ c = "-"%char ->
  PyStr.strip (dmy_text c a b y) = dmy_text c a b y.
Proof.
  intros Hc. apply PyStrFacts.strip_no_space. unfold PyStr.no_space, dmy_text.
  rewrite all_chars_app. cbn [PyStr.all_chars]. rewrite all_chars_app.
  cbn [PyStr.all_chars].
  fold (PyStr.no_space (PyStr.zfill 2 a)). fold (PyStr.no_space (PyStr.zfill 2 b)).
  fold (PyStr.no_space (PyStr.zfill 4 y)).
  rewrite !(digits_no_space _ (zfill_digits _ _)).
  destruct Hc as [-> | ->]; reflexivity.
Qed.

(** What a format of a day, a month and a year makes of such a text: the
    date its fields spell, when the separator is the one of the format
    and the date exists. *)
Lemma accepts_dmy d1 d2 sep c a b y :
  (d1 = Strptime.Dd /\ d2 = Strptime.Dm) \/ (d1 = Strptime.Dm /\ d2 = Strptime.Dd) ->
  sep = "/"%char \/ sep = "-"%char -> c = "/"%char \/ c = "-"%char ->
  0 <= a <= 99 -> 0 <= b <= 99 -> 1 <= y <= 9999 ->
  accepts (dmy_text c (Z.to_N a) (Z.to_N b) (Z.to_N y))
    [Strptime.Dir d1; Strptime.Lit sep; Strptime.Dir d2; Strptime.Lit sep;
     Strptime.Dir Strptime.DY]
  = let m := if bool_decide (d1 = Strptime.Dm) then a else b in
    let d := if bool_decide (d1 = Strptime.Dd) then a else b in
    if bool_decide (c = sep) && Calendar.valid y m d then Some (Date y m d)
    else None.
Proof.
  intros Hd Hsep Hc Ha Hb Hy.
  destruct (two_digits_read_back_ok a Ha) as (a1 & a2 & _ & _ & _ & Hva).
  destruct (two_digits_read_back_ok b Hb) as (b1 & b2 & _ & _ & _ & Hvb).
  destruct (year_field y Hy) as [Hmy Hvy].
  unfold accepts, Strptime.strptime, dmy_text.
  rewrite <- (Z_nat_N a), <- (Z_nat_N b) in *.
  assert (Hd1 : d1 <> Strptime.DY) by (destruct Hd as [[-> _]|[-> _]]; discriminate).
  assert (Hd2 : d2 <> Strptime.DY) by (destruct Hd as [[_ ->]|[_ ->]]; discriminate).
  rewrite (two_digit_field d1 sep c _ _ (Z.to_nat a)) by (auto; lia).
  rewrite (Z2Nat.id a) by lia.
  destruct (bool_decide (c = sep)) eqn:Hcs;
    [|rewrite andb_false_r; reflexivity].
  rewrite andb_true_r. cbn [andb].
  destruct (field_ok d1 a) eqn:Hf1.
  - rewrite (two_digit_field d2 sep c _ _ (Z.to_nat b)) by (auto; lia).
    rewrite (Z2Nat.id b) by lia. rewrite Hcs, andb_true_r.
    destruct (field_ok d2 b) eqn:Hf2.
    + rewrite Hmy. rewrite bool_decide_eq_true_2 by reflexivity.
      destruct Hd as [[-> ->]|[-> ->]]; simpl Strptime.group;
        rewrite Hva, Hvb, Hvy; cbv zeta; simpl bool_decide; cbv iota;
        destruct (Calendar.valid _ _ _); reflexivity.
    + destruct Hd as [[-> ->]|[-> ->]]; simpl bool_decide; cbv zeta iota.
      * destruct (Calendar.valid y b a) eqn:Hv; [|reflexivity].
        apply valid_fields in Hv. destruct Hv. congruence.
      * destruct (Calendar.valid y a b) eqn:Hv; [|reflexivity].
        apply valid_fields in Hv. destruct Hv. congruence.
  - destruct Hd as [[-> ->]|[-> ->]]; simpl bool_decide; cbv zeta iota.
    + destruct (Calendar.valid y b a) eqn:Hv; [|reflexivity].
      apply valid_fields in Hv. destruct Hv. congruence.
    + destruct (Calendar.valid y a b) eqn:Hv; [|reflexivity].
      apply valid_fields in Hv. destruct Hv. congruence.
Qed.

(** The format that begins with the year accepts no such text. *)
Lemma accepts_dmy_year_first c a b y :
  c = "/"%char \/ c = "-"%char -> 0 <= a <= 99 ->
  accepts (dmy_text c (Z.to_N a) b y) Strptime.fmt_Y_m_d = None.
Proof.
  intros Hc Ha.
  destruct (two_digits_read_back_ok a Ha) as (a1 & a2 & Heq & _).
  unfold accepts, Strptime.strptime, dmy_text, Strptime.fmt_Y_m_d.
  rewrite Heq. simpl.
  destruct (PyStr.is_digit a1), (PyStr.is_digit a2);
    destruct Hc as [-> | ->]; reflexivity.
Qed.

Lemma parse_date_of_dmy_text c a b y :
  c = "/"%char \/ c = "-"%char ->
  0 <= a <= 99 -> 0 <= b <= 99 -> 1 <= y <= 9999 ->
  _parse_date E (PStr (dmy_text c (Z.to_N a) (Z.to_N b) (Z.to_N y)))
  = Ok (if Calendar.valid y b a then Some (Date y b a)
        else if bool_decide (c = "/"%char) && Calendar.valid y a b
             then Some (Date y a b)
             else None).
Proof.
  intros Hc Ha Hb Hy.
  rewrite parse_date_text, (dmy_text_stripped _ _ _ _ Hc). f_equal.
  unfold DATE_FORMATS. cbn [Strptime.first_some].
  rewrite (accepts_dmy_year_first c a _ _ Hc Ha).
  unfold Strptime.fmt_d_m_Y_slash, Strptime.fmt_d_m_Y_dash,
    Strptime.fmt_m_d_Y_slash.
  rewrite !accepts_dmy by (auto; lia).
  simpl bool_decide. cbv zeta iota.
  destruct Hc as [-> | ->]; simpl bool_decide; cbn [andb];
    destruct (Calendar.valid y b a), (Calendar.valid y a b); reflexivity.
Qed.

End DayMonthYearText.

Lemma headers_have_no_row_no : "_row_no" ∉ normalise_headers Sample.ext Sample.headers.
Proof.
  vm_compute. intros Hin.
  repeat (apply elem_of_cons in Hin as [Hin|Hin]; [discriminate|]).
  now apply elem_of_nil in Hin.
Qed.

(* ===================================================================== *)
(** ** The properties of the specification *)
(* ===================================================================== *)

(** C1 (the code departs from the claim).  Two rows of one file carry the
    same Employee ID.  [action_validate] empties [line_ids] before its loop
    and writes the new lines only after it, so the batch check of
    [_validate_row] walks over no line at all: row 3 is marked valid, with
    no error text, although row 2 carries its Employee ID. *)
Theorem same_employee_id_passes_validation :
  (fun l => (line_row_no l, line_employee_id_no l, line_is_valid l, line_error_text l))
    <$> line_ids (wiz_of (Sample.validated Sample.same_id_file false))
  = [(2, "E1", true, ""); (3, "E1", true, "")].
Proof. vm_compute. reflexivity. Qed.

(** C2.  A row whose commit is attempted, and for which [_import_row]
    reports that the account could not be created: at that moment the
    person record is in the cursor.  In the partial import the savepoint
    of the row takes it out again: the row is recorded as failed with that
    message, the directory store is exactly what the earlier rows left,
    and the loop goes on with the later rows from there.  Under
    [stop_on_error] the run raises for that row, and the request that
    carries the run rolls the whole cursor back. *)
Theorem account_failure_undoes_person (E : externals)
  (lbr : gmap Z nat) (acc : list imported * list failed_row)
  (row : gmap string pyval) (w w1 : world) (exc : string) :
  marked_invalid lbr row (wiz_of w) = None ->
  _import_row E row w = (Ok (ImportFailed (FailedToCreateUser exc)), w1) ->
  employee_count w1 = S (employee_count w)
  /\ (exists w2,
        confirm_row_partial E lbr acc row w
        = (Ok (acc.1,
               acc.2 ++ [failed row ("Failed to create user for employee: " +:+ exc)]),
           w2)
        /\ dir_of w2 = dir_of w
        /\ logs_of w2 = logs_of w
        /\ line_ids (wiz_of w2)
           = match lookup_line lbr row with
             | Some i =>
                 alter (set_error_text ("Failed to create user for employee: " +:+ exc)) i
                   (alter (set_status Failed) i (line_ids (wiz_of w)))
             | None => line_ids (wiz_of w)
             end
        /\ forall pre post acc0 w0,
             confirm_loop (confirm_row_partial E lbr) acc0 pre w0 = (Ok acc, w) ->
             confirm_loop (confirm_row_partial E lbr) acc0 (pre ++ row :: post) w0
             = confirm_loop (confirm_row_partial E lbr)
                 (acc.1,
                  acc.2 ++ [failed row ("Failed to create user for employee: " +:+ exc)])
                 post w2)
  /\ (exists w2,
        confirm_row_stop E lbr acc row w
        = (Raise (UserError
                    (RowFailedDuringImport (get row "_row_no")
                       ("Failed to create user for employee: " +:+ exc))),
           w2)
        /\ forall pre post w0,
             stop_on_error (wiz_of w0) = true ->
             wizard_state_of (wiz_of w0) = Preview ->
             parse_file E (wizard_file (wiz_of w0)) = Ok (pre ++ row :: post) ->
             lbr = build_line_by_row (line_ids (wiz_of w0)) ->
             confirm_loop (confirm_row_stop E lbr) ([], []) pre w0 = (Ok acc, w) ->
             exists w3,
               request (action_confirm_import E) w0
               = (Raise (UserError
                           (RowFailedDuringImport (get row "_row_no")
                              ("Failed to create user for employee: " +:+ exc))),
                  w3)
               /\ cr w3 = cr w0).
Proof.
  intros Hvalid Himp.
  split; [exact (person_written_before_account_fails E row w exc w1 Himp)|].
  split.
  - pose proof (confirm_row_partial_cases E lbr acc row w) as Hrow.
    cbv zeta in Hrow. rewrite Hvalid, Himp in Hrow.
    eexists. split; [exact Hrow|].
    split; [now rewrite !touch_line_dir, rollback_dir|].
    split; [now rewrite !touch_line_logs, rollback_logs|].
    split.
    { rewrite !touch_line_lines, rollback_wiz.
      destruct (lookup_line lbr row); reflexivity. }
    intros pre post acc0 w0 Hpre.
    now rewrite confirm_loop_app, Hpre, confirm_loop_cons, Hrow.
  - pose proof (confirm_row_stop_cases E lbr acc row w) as Hrow.
    cbv zeta in Hrow. rewrite Hvalid, Himp in Hrow.
    eexists. split; [exact Hrow|].
    intros pre post w0 Hstop Hst Hparse -> Hpre.
    eexists. split.
    + unfold request. apply savepoint_raise.
      rewrite (action_confirm_import_run E w0 _ Hst Hparse). cbv zeta.
      rewrite Hstop, confirm_loop_app, Hpre, confirm_loop_cons, Hrow. reflexivity.
    + reflexivity.
Qed.

(** C2, an instance: two rows carry the same Work Email and the store
    refuses the second login.  In the partial import the person record of
    row 3 is in the cursor when the account fails and out of it once the
    row is done; under [stop_on_error] the request raises for row 3 and
    leaves the cursor as it found it. *)
Lemma account_failure_undoes_person_witness :
  employee_count (snd (_import_row Sample.ext Sample.second_row Sample.after_first_row))
  = S (employee_count Sample.after_first_row)
  /\ dir_of (snd (confirm_row_partial Sample.ext Sample.preview_lines
                    Sample.first_row_imported Sample.second_row
                    Sample.after_first_row))
     = dir_of Sample.after_first_row
  /\ fst (request (action_confirm_import Sample.ext) Sample.same_email_preview_stop)
     = Raise (UserError
                (RowFailedDuringImport (PInt 3)
                   ("Failed to create user for employee: "
                    +:+ "duplicate key value violates unique constraint res_users_login_key")))
  /\ cr (snd (request (action_confirm_import Sample.ext) Sample.same_email_preview_stop))
     = cr Sample.same_email_preview_stop.
Proof.
  destruct (account_failure_undoes_person Sample.ext
              Sample.preview_lines Sample.first_row_imported
              Sample.second_row Sample.after_first_row
              (snd (_import_row Sample.ext Sample.second_row Sample.after_first_row))
              "duplicate key value violates unique constraint res_users_login_key")
    as (Hcount & (w2 & Hrun & Hdir & _) & _);
    [reflexivity | reflexivity |].
  destruct (account_failure_undoes_person Sample.ext
              Sample.preview_lines Sample.first_row_imported
              Sample.second_row Sample.after_first_row_stop
              (snd (_import_row Sample.ext Sample.second_row Sample.after_first_row_stop))
              "duplicate key value violates unique constraint res_users_login_key")
    as (_ & _ & (w2' & _ & Hreq));
    [reflexivity | reflexivity |].
  destruct (Hreq [Sample.first_row] [] Sample.same_email_preview_stop)
    as (w3 & Hr & Hcr); try reflexivity.
  split; [exact Hcount|]. split; [rewrite Hrun; exact Hdir|].
  rewrite Hr. split; [reflexivity | exact Hcr].
Defined.

(** C3.  Validation writes nothing to the directory store: whatever
    [action_validate] does (return or raise), every table of the store and
    the import logs are as before, and each [_validate_row] leaves the
    whole world as it found it. *)
Theorem validation_writes_nothing (E : externals) (w : world) :
  dir_of (snd (action_validate E w)) = dir_of w
  /\ logs_of (snd (action_validate E w)) = logs_of w
  /\ forall row, exists vals, _validate_row E row w = (Ok vals, w).
Proof.
  split; [apply action_validate_preserves_dir|].
  split; [apply action_validate_preserves_logs|].
  intros row. apply reads_validate_row.
Qed.

(** C4, as the code has it.  A run confirmed from the preview state whose
    file can be read: in the partial import it always ends with a summary,
    whatever the mix of rows: every row is counted once, as imported or as
    failed, and exactly one import log is added.  Under [stop_on_error] it
    ends that way only when every row went in; otherwise it raises, no log
    is added, and the request rolls the cursor back.  A file that cannot
    be read is reported at once, with nothing changed. *)
Theorem confirmed_run_summary (E : externals) (w : world) :
  wizard_state_of (wiz_of w) = Preview ->
  (forall e,
     parse_file E (wizard_file (wiz_of w)) = Raise e ->
     action_confirm_import E w = (Raise e, w))
  /\ (forall rows,
        parse_file E (wizard_file (wiz_of w)) = Ok rows ->
        stop_on_error (wiz_of w) = false ->
        exists results failed_rows log w',
          action_confirm_import E w = (Ok (ActWindow (wizard_id (wiz_of w))), w')
          /\ (length results + length failed_rows = length rows)%nat
          /\ logs_of w' = logs_of w ++ [log]
          /\ log_imported_count log = Z.of_nat (length results)
          /\ log_failed_count log = Z.of_nat (length failed_rows)
          /\ log_summary log = summary_text rows results failed_rows
          /\ (log_output_file log = None <-> results = [])
          /\ (log_error_file log = None <-> failed_rows = [])
          /\ wizard_state_of (wiz_of w') = Done
          /\ import_log_id (wiz_of w') = Some (log_id log)
          /\ import_summary (wiz_of w') = Some (log_summary log))
  /\ (forall rows,
        parse_file E (wizard_file (wiz_of w)) = Ok rows ->
        stop_on_error (wiz_of w) = true ->
        (exists results log w',
           action_confirm_import E w = (Ok (ActWindow (wizard_id (wiz_of w))), w')
           /\ length results = length rows
           /\ logs_of w' = logs_of w ++ [log]
           /\ log_imported_count log = Z.of_nat (length rows)
           /\ log_failed_count log = 0
           /\ log_summary log = summary_text rows results []
           /\ wizard_state_of (wiz_of w') = Done
           /\ import_summary (wiz_of w') = Some (log_summary log))
        \/ (exists e w',
              action_confirm_import E w = (Raise e, w')
              /\ logs_of w' = logs_of w
              /\ request (action_confirm_import E) w = (Raise e, rollback w w'))).
Proof.
  intros Hst. split; [|split].
  - intros e Hparse.
    unfold action_confirm_import, _parse_excel, bind, get_wiz, lift_res.
    cbv beta iota zeta. fold (wiz_of w). rewrite Hst.
    rewrite bool_decide_eq_true_2 by reflexivity. cbn [negb]. cbv beta iota.
    fold (wiz_of w). now rewrite Hparse.
  - intros rows Hparse Hstop.
    destruct (confirm_loop_partial_ok E (build_line_by_row (line_ids (wiz_of w)))
                rows ([], []) w) as (acc & w1 & Hloop & Hlogs & Hlen).
    destruct (confirm_run_finish E w rows acc w1 Hst Hparse) as (log & w' & Hrun & H).
    { now rewrite Hstop. }
    exists acc.1, acc.2, log, w'. split; [exact Hrun|].
    split; [simpl in Hlen; lia|].
    rewrite <- Hlogs. exact H.
  - intros rows Hparse Hstop.
    destruct (confirm_loop_stop_inv E (build_line_by_row (line_ids (wiz_of w)))
                rows ([], []) w) as [Hlogs Hok].
    destruct (confirm_loop (confirm_row_stop E (build_line_by_row (line_ids (wiz_of w))))
                ([], []) rows w) as [[acc|e] w1] eqn:Hloop.
    + left. destruct (Hok acc w1 eq_refl) as [Hfailed Hlen]. simpl in *.
      destruct (confirm_run_finish E w rows acc w1 Hst Hparse)
        as (log & w' & Hrun & Hl & Hic & Hfc & Hsum & _ & _ & Hdone & _ & Hs).
      { now rewrite Hstop. }
      exists acc.1, log, w'. rewrite Hfailed in *.
      repeat split; auto; try congruence.
      * lia.
      * rewrite Hic. f_equal. lia.
    + right. exists e, w1.
      assert (Hrun : action_confirm_import E w = (Raise e, w1)).
      { rewrite (action_confirm_import_run E w rows Hst Hparse). cbv zeta.
        now rewrite Hstop, Hloop. }
      split; [exact Hrun|]. split; [exact Hlogs|].
      unfold request. now apply savepoint_raise.
Qed.

(** C4, an instance: a partial import of two rows of which one goes in and
    one fails ends with one log that counts them. *)
Lemma confirmed_run_summary_witness :
  exists (results : list imported) (failed_rows : list failed_row) log w',
    action_confirm_import Sample.ext (Sample.validated Sample.same_email_file false)
    = (Ok (ActWindow 7), w')
    /\ (length results + length failed_rows = 2)%nat
    /\ logs_of w' = [log]
    /\ log_imported_count log = Z.of_nat (length results)
    /\ log_failed_count log = Z.of_nat (length failed_rows).
Proof.
  destruct (proj1 (proj2 (confirmed_run_summary Sample.ext
                            (Sample.validated Sample.same_email_file false) eq_refl))
              (Sample.parsed Sample.same_email_file) eq_refl eq_refl)
    as (results & failed_rows & log & w' & Hrun & Hlen & Hlogs & Hic & Hfc & _).
  exists results, failed_rows, log, w'. repeat split; assumption.
Defined.

(** C4, against the claim as written: under [stop_on_error] a file that
    reads well but holds an invalid row ends the run with a [UserError];
    no summary is written and no import log is added. *)
Lemma stop_on_error_run_leaves_no_summary :
  (exists rows, parse_file Sample.ext Sample.nameless_file = Ok rows)
  /\ fst (action_confirm_import Sample.ext (Sample.validated Sample.nameless_file true))
     = Raise (UserError (RowHasValidationErrors (PInt 2) "Employee Name is required."))
  /\ logs_of (snd (action_confirm_import Sample.ext
                     (Sample.validated Sample.nameless_file true))) = []
  /\ import_summary (wiz_of (snd (action_confirm_import Sample.ext
                                    (Sample.validated Sample.nameless_file true))))
     = None.
Proof.
  split; [exists (Sample.parsed Sample.nameless_file); reflexivity|].
  repeat split; vm_compute; reflexivity.
Qed.

(** C5, as the code has it.  [_parse_date] never raises.  It returns the
    same [None] for an empty input and for a text that no format accepts;
    the validator tells the two apart on the raw cell, before and after
    the call: a blank joining date is reported as required, one that is
    given and yields [None] as not parseable. *)
Theorem parse_date_total_single_marker (E : externals) :
  (forall raw, exists r, _parse_date E raw = Ok r)
  /\ (forall raw, is_none_or_empty raw = true -> _parse_date E raw = Ok None)
  /\ (forall s,
        (forall fmt, In fmt DATE_FORMATS -> accepts (PyStr.strip s) fmt = None) ->
        _parse_date E (PStr s) = Ok None)
  /\ (forall row w,
        exists errs,
          validation_errors E row w = (Ok errs, w)
          /\ (blank E (get row "Joining Date") = true ->
              Required "Joining Date" ∈ errs)
          /\ (blank E (get row "Joining Date") = false ->
              _parse_date E (get row "Joining Date") = Ok None ->
              JoiningDateUnparsed (py_str E (get row "Joining Date")) ∈ errs)).
Proof.
  split; [apply parse_date_never_raises|].
  split.
  { intros raw H. unfold _parse_date. now rewrite H. }
  split.
  { intros s H. rewrite parse_date_text. f_equal. now apply first_some_None. }
  apply validation_errors_joining_date.
Qed.

(** C5, against the claim as written: the result for the empty input and
    the result for an unparseable text are one and the same value. *)
Lemma empty_and_unparseable_dates_agree :
  _parse_date Sample.ext PNone = Ok None
  /\ _parse_date Sample.ext (PStr "") = Ok None
  /\ _parse_date Sample.ext (PStr "2024-31-01") = Ok None
  /\ _parse_date Sample.ext PNone = _parse_date Sample.ext (PStr "2024-31-01").
Proof. vm_compute. repeat split; reflexivity. Qed.

(** C6, as the code has it.  A data row is numbered by its row in the
    sheet, the header being row 1: the dictionary built from the cells of
    the row at position [k] (from 0) below the header carries the number
    [k + 2].  Every dictionary of the result is the one of such a row: it
    holds that row's cells under their headers, and its number is the
    sheet row of that row.  Rows that are entirely empty give no
    dictionary but are counted, and no number is given twice.  (A header
    cell that reads [_row_no] would overwrite the number.) *)
Theorem row_numbers_count_the_header (E : externals)
  (raw_headers : list pyval) (rows : list (list pyval))
  (data : list (gmap string pyval)) :
  "_row_no" ∉ normalise_headers E raw_headers ->
  parse_file E (Some (Sheet (raw_headers :: rows))) = Ok data ->
  (forall k row_vals,
     rows !! k = Some row_vals -> row_is_empty E row_vals = false ->
     exists d, d ∈ data
       /\ d = make_row_dict (normalise_headers E raw_headers)
                (Z.of_nat k + 2) row_vals
       /\ d !! "_row_no" = Some (PInt (Z.of_nat k + 2)))
  /\ (forall d, d ∈ data ->
      exists k row_vals,
        rows !! k = Some row_vals /\ row_is_empty E row_vals = false
        /\ d = make_row_dict (normalise_headers E raw_headers)
                 (Z.of_nat k + 2) row_vals
        /\ d !! "_row_no" = Some (PInt (Z.of_nat k + 2))
        /\ (forall i h v,
              normalise_headers E raw_headers !! i = Some h ->
              row_vals !! i = Some v ->
              (forall j, (i < j)%nat ->
                 normalise_headers E raw_headers !! j = Some h ->
                 (length row_vals <= j)%nat) ->
              d !! h = Some v))
  /\ (forall d1 d2,
        d1 ∈ data -> d2 ∈ data -> d1 !! "_row_no" = d2 !! "_row_no" -> d1 = d2)
  /\ NoDup ((fun d : gmap string pyval => d !! "_row_no") <$> data).
Proof.
  intros Hh Hp. unfold parse_file in Hp.
  destruct (negb (openpyxl_installed E)); [discriminate|].
  injection Hp as <-.
  set (hs := normalise_headers E raw_headers) in *.
  assert (Hsound : forall d, d ∈ parse_rows E hs 2 rows ->
            exists k row_vals,
              rows !! k = Some row_vals /\ row_is_empty E row_vals = false
              /\ d = make_row_dict hs (Z.of_nat k + 2) row_vals
              /\ d !! "_row_no" = Some (PInt (Z.of_nat k + 2))).
  { intros d Hd.
    destruct (parse_rows_sound _ _ _ _ _ Hd) as (k & rv & Hk & He & ->).
    exists k, rv. replace (Z.of_nat k + 2) with (2 + Z.of_nat k) by lia.
    repeat split; auto. now apply make_row_dict_row_no. }
  split; [|split; [|split]].
  - intros k rv Hk He.
    exists (make_row_dict hs (Z.of_nat k + 2) rv).
    split; [|split; [reflexivity|now apply make_row_dict_row_no]].
    replace (Z.of_nat k + 2) with (2 + Z.of_nat k) by lia.
    now apply parse_rows_complete.
  - intros d Hd. destruct (Hsound d Hd) as (k & rv & Hk & He & -> & Hno).
    exists k, rv. repeat split; auto.
    intros i h v Hi Hv Hlast. unfold make_row_dict.
    now apply (fold_insert_lookup_set hs rv _ i).
  - intros d1 d2 H1 H2 Heq.
    destruct (Hsound d1 H1) as (k1 & rv1 & Hk1 & _ & -> & Hn1).
    destruct (Hsound d2 H2) as (k2 & rv2 & Hk2 & _ & -> & Hn2).
    rewrite Hn1, Hn2 in Heq.
    assert (k1 = k2) as -> by (injection Heq; lia).
    congruence.
  - now apply parse_rows_numbers_NoDup.
Qed.

(** C6, an instance: a sheet of three rows below the header, the second
    one empty; the two dictionaries are those of the first and the third
    row and carry the numbers 2 and 4. *)
Lemma row_numbers_count_the_header_witness :
  (forall d, d ∈ Sample.parsed (Sample.file_of Cases.gap_rows) ->
     exists k row_vals,
       Cases.gap_rows !! k = Some row_vals
       /\ row_is_empty Sample.ext row_vals = false
       /\ d = make_row_dict (normalise_headers Sample.ext Sample.headers)
                (Z.of_nat k + 2) row_vals
       /\ d !! "_row_no" = Some (PInt (Z.of_nat k + 2)))
  /\ NoDup ((fun d : gmap string pyval => d !! "_row_no")
              <$> Sample.parsed (Sample.file_of Cases.gap_rows))
  /\ (fun d : gmap string pyval => d !! "_row_no")
       <$> Sample.parsed (Sample.file_of Cases.gap_rows)
     = [Some (PInt 2); Some (PInt 4)].
Proof.
  destruct (row_numbers_count_the_header Sample.ext Sample.headers
              Cases.gap_rows
              (Sample.parsed (Sample.file_of Cases.gap_rows))
              headers_have_no_row_no eq_refl) as (_ & H2 & _ & H4).
  split; [|split; [exact H4 | reflexivity]].
  intros d Hd. destruct (H2 d Hd) as (k & rv & Hk & He & Hd' & Hno & _).
  exists k, rv. auto.
Defined.


(** C6, against the claim as written: the first data row, at position 1
    once the header is left out, is reported as row 2. *)
Lemma first_data_row_is_numbered_two :
  (fun d : gmap string pyval => d !! "_row_no")
    <$> Sample.parsed (Sample.file_of [Sample.row "Ann" "E1" "D1" "ann@x.org"])
  = [Some (PInt 2)].
Proof. vm_compute. reflexivity. Qed.

(** C7.  A text is tried against the four formats [%Y-%m-%d], [%d/%m/%Y],
    [%d-%m-%Y], [%m/%d/%Y] in this order and the first one that
    [strptime] accepts gives the date; when none accepts it the result is
    [None].  The four spellings of 31 January 2024 give the same date and
    ["2024-31-01"] gives none. *)
Theorem parse_date_tries_four_formats_in_order (E : externals) :
  (forall s,
     _parse_date E (PStr s)
     = Ok (Strptime.first_some (accepts (PyStr.strip s))
             [Strptime.fmt_Y_m_d; Strptime.fmt_d_m_Y_slash;
              Strptime.fmt_d_m_Y_dash; Strptime.fmt_m_d_Y_slash]))
  /\ (forall s d,
        _parse_date E (PStr s) = Ok (Some d) ->
        exists earlier fmt later,
          [Strptime.fmt_Y_m_d; Strptime.fmt_d_m_Y_slash;
           Strptime.fmt_d_m_Y_dash; Strptime.fmt_m_d_Y_slash]
          = earlier ++ fmt :: later
          /\ accepts (PyStr.strip s) fmt = Some d
          /\ forall f, In f earlier -> accepts (PyStr.strip s) f = None)
  /\ _parse_date E (PStr "2024-01-31") = Ok (Some (Date 2024 1 31))
  /\ _parse_date E (PStr "31/01/2024") = Ok (Some (Date 2024 1 31))
  /\ _parse_date E (PStr "31-01-2024") = Ok (Some (Date 2024 1 31))
  /\ _parse_date E (PStr "01/31/2024") = Ok (Some (Date 2024 1 31))
  /\ accepts "01/31/2024" Strptime.fmt_d_m_Y_slash = None
  /\ _parse_date E (PStr "2024-31-01") = Ok None.
Proof.
  split; [apply parse_date_text|].
  split.
  { intros s d H. rewrite parse_date_text in H. injection H as H.
    now apply first_some_Some. }
  repeat split; rewrite ?parse_date_text; vm_compute; reflexivity.
Qed.

(** C8.  A numeric cell: a float with an integral value is rendered as the
    integer it equals, so without a fractional part; an integer from
    1000000000 to 1999999999 (ten digits, the first a 1) gets one leading
    zero and every other integer is rendered unchanged.  1712345678
    becomes "01712345678" and 171234567 stays "171234567", whether the
    reader hands them over as [int] or as [float]. *)
Theorem parse_str_numeric_cell (E : externals) :
  (forall f z,
     PyFloat.is_integer f = true -> PyFloat.to_int f = Some z ->
     _parse_str E (PFloat f) = _parse_str E (PInt z))
  /\ (forall z,
        _parse_str E (PInt z)
        = if (1000000000 <=? z) && (z <? 2000000000)
          then String "0" (PyStr.str_Z z) else PyStr.str_Z z)
  /\ (forall f,
        PyFloat.is_integer f = false ->
        _parse_str E (PFloat f)
        = if (String.length (PyStr.strip (float_repr E f)) =? 10)%nat
             && PyStr.startswith (PyStr.strip (float_repr E f)) "1"
          then String "0" (PyStr.strip (float_repr E f))
          else PyStr.strip (float_repr E f))
  /\ _parse_str E (PInt 1712345678) = "01712345678"
  /\ _parse_str E (PFloat (S754_finite false 7182098326618112 (-22))) = "01712345678"
  /\ _parse_str E (PInt 171234567) = "171234567"
  /\ _parse_str E (PFloat (S754_finite false 5745678634450944 (-25))) = "171234567".
Proof.
  split; [apply parse_str_integral_float|].
  split; [apply parse_str_int|].
  split.
  { intros f Hf. unfold _parse_str. simpl is_none_or_empty. cbv iota.
    rewrite Hf. reflexivity. }
  repeat split;
    rewrite ?(parse_str_integral_float E _ 1712345678 eq_refl eq_refl),
            ?(parse_str_integral_float E _ 171234567 eq_refl eq_refl),
            ?parse_str_int;
    vm_compute; reflexivity.
Qed.

(** C9.  A re-parsed row whose number no preview line carries is matched
    to no line, and then neither loop looks at any validity: the outcome
    of the row is the outcome of [_import_row] on it.  Under
    [stop_on_error] a failed import aborts the run; in the partial import
    it is rolled back and recorded as a failure. *)
Theorem unmatched_row_is_imported_unchecked (E : externals)
  (lines : list line) (row : gmap string pyval) (n : Z)
  (acc : list imported * list failed_row) (w : world) :
  get row "_row_no" = PInt n ->
  (forall ln, ln ∈ lines -> line_row_no ln <> n) ->
  lookup_line (build_line_by_row lines) row = None
  /\ confirm_row_stop E (build_line_by_row lines) acc row w
     = match _import_row E row w with
       | (Ok (Imported r), w') => (Ok (acc.1 ++ [r], acc.2), w')
       | (Ok (ImportFailed e), w') =>
           (Raise (UserError (RowFailedDuringImport (PInt n) (import_error_text e))),
            w')
       | (Raise e, w') => (Raise e, w')
       end
  /\ confirm_row_partial E (build_line_by_row lines) acc row w
     = match _import_row E row w with
       | (Ok (Imported r), w') => (Ok (acc.1 ++ [r], acc.2), w')
       | (Ok (ImportFailed e), w') =>
           (Ok (acc.1, acc.2 ++ [{| fr_row_no := PInt n;
                                    fr_error := import_error_text e |}]),
            rollback w w')
       | (Raise e, w') =>
           (Ok (acc.1, acc.2 ++ [{| fr_row_no := PInt n;
                                    fr_error := exn_str (translate E) e |}]),
            rollback w w')
       end.
Proof.
  intros Hn Hne.
  pose proof (lookup_line_unmatched lines row n Hn Hne) as Hl.
  split; [exact Hl|].
  rewrite confirm_row_stop_cases, confirm_row_partial_cases. cbv zeta.
  unfold marked_invalid, failed. rewrite Hl, Hn. simpl invalid_line. cbv iota.
  split; destruct (_import_row E row w) as [[[e|r]|e] w']; reflexivity.
Qed.

(** C9, an instance: the file confirmed has a row 3 that was never
    previewed and that validation rejects; both policies import it. *)
Lemma unmatched_row_is_imported_unchecked_witness :
  lookup_line (build_line_by_row (line_ids (wiz_of (Sample.grown false))))
    Sample.added_row = None
  /\ (lv_is_valid <$> match _validate_row Sample.ext Sample.added_row (Sample.grown false) with
                      | (Ok vals, _) => Some vals
                      | (Raise _, _) => None
                      end) = Some false
  /\ (fun e => ev_employee_id_no (employee_fields e))
       <$> hr_employee (dir_of (snd (action_confirm_import Sample.ext (Sample.grown false))))
     = ["E1"; "E2"]
  /\ (fun e => ev_employee_id_no (employee_fields e))
       <$> hr_employee (dir_of (snd (action_confirm_import Sample.ext (Sample.grown true))))
     = ["E1"; "E2"].
Proof.
  split.
  - refine (proj1 (unmatched_row_is_imported_unchecked Sample.ext
                     (line_ids (wiz_of (Sample.grown false))) Sample.added_row 3
                     ([], []) (Sample.grown false) _ _)).
    + vm_compute. reflexivity.
    + apply unmatched_by_forallb. vm_compute. reflexivity.
  - repeat split; vm_compute; reflexivity.
Defined.




(** X1.  The batch check never fires: [action_validate] validates every
    row in the world it gets by unlinking the old lines, which holds no
    line, and writes the new lines only afterwards; in a world without
    lines the errors of a row hold no "Duplicate ... in this upload batch"
    message, whatever the other rows of the file carry. *)
Theorem batch_duplicates_are_never_reported (E : externals) (w : world) :
  line_ids (wiz_of (unlinked w)) = []
  /\ (forall row,
        exists errs,
          validation_errors E row (unlinked w) = (Ok errs, unlinked w)
          /\ Forall (fun e => is_batch_duplicate e = false) errs)
  /\ (forall rows,
        is_Some (wizard_file (wiz_of w)) ->
        parse_file E (wizard_file (wiz_of w)) = Ok rows ->
        exists vals,
          forM rows (_validate_row E) (unlinked w) = (Ok vals, unlinked w)
          /\ action_validate E w
             = match lines_of_vals E vals with
               | Ok new_lines =>
                   (Ok (ActWindow (wizard_id (wiz_of w))),
                    previewed new_lines (unlinked w))
               | Raise e => (Raise e, unlinked w)
               end).
Proof.
  split; [reflexivity|]. split.
  - intros row. apply validation_errors_no_batch_duplicate. reflexivity.
  - apply action_validate_run.
Qed.

(** X2.  Partial import: a row whose preview line is marked invalid is not
    imported.  It is added to [failed_rows] under its row number with the
    error text of its line, [results] is unchanged, and nothing is written
    to the directory store or to the import logs. *)
Theorem invalid_row_is_reported_not_imported (E : externals)
  (lbr : gmap Z nat) (acc : list imported * list failed_row)
  (row : gmap string pyval) (w : world) (err : string) :
  marked_invalid lbr row (wiz_of w) = Some err ->
  exists w',
    confirm_row_partial E lbr acc row w
    = (Ok (acc.1, acc.2 ++ [{| fr_row_no := get row "_row_no"; fr_error := err |}]),
       w')
    /\ dir_of w' = dir_of w
    /\ logs_of w' = logs_of w.
Proof.
  intros H. rewrite confirm_row_partial_cases. cbv zeta. rewrite H.
  eexists. split; [reflexivity|].
  split; [apply touch_line_dir | apply touch_line_logs].
Qed.

(** X2, an instance: the row without an Employee Name. *)
Lemma invalid_row_is_reported_not_imported_witness :
  exists w',
    confirm_row_partial Sample.ext
      (build_line_by_row (line_ids (wiz_of (Sample.validated Sample.nameless_file false))))
      ([], []) (nth 0 (Sample.parsed Sample.nameless_file) ∅)
      (Sample.validated Sample.nameless_file false)
    = (Ok ([], [{| fr_row_no := PInt 2; fr_error := "Employee Name is required." |}]),
       w')
    /\ dir_of w' = dir_of (Sample.validated Sample.nameless_file false)
    /\ logs_of w' = logs_of (Sample.validated Sample.nameless_file false).
Proof.
  exact (invalid_row_is_reported_not_imported Sample.ext
           (build_line_by_row (line_ids (wiz_of (Sample.validated Sample.nameless_file false))))
           ([], []) (nth 0 (Sample.parsed Sample.nameless_file) ∅)
           (Sample.validated Sample.nameless_file false)
           "Employee Name is required." eq_refl).
Defined.

(** X3.  Stop-on-error: when the loop reaches a row whose preview line is
    marked invalid, the run raises a [UserError] that names the row and
    carries the error text of its line, and the request rolls the cursor
    back: nothing the earlier rows wrote is kept. *)
Theorem invalid_row_aborts_the_whole_run (E : externals) (w0 w : world)
  (pre post : list (gmap string pyval)) (row : gmap string pyval)
  (acc : list imported * list failed_row) (err : string) :
  stop_on_error (wiz_of w0) = true ->
  wizard_state_of (wiz_of w0) = Preview ->
  parse_file E (wizard_file (wiz_of w0)) = Ok (pre ++ row :: post) ->
  confirm_loop (confirm_row_stop E (build_line_by_row (line_ids (wiz_of w0))))
    ([], []) pre w0 = (Ok acc, w) ->
  marked_invalid (build_line_by_row (line_ids (wiz_of w0))) row (wiz_of w) = Some err ->
  exists w3,
    request (action_confirm_import E) w0
    = (Raise (UserError (RowHasValidationErrors (get row "_row_no") err)), w3)
    /\ cr w3 = cr w0.
Proof.
  intros Hstop Hst Hparse Hpre Hinv.
  pose proof (confirm_row_stop_cases E (build_line_by_row (line_ids (wiz_of w0)))
                acc row w) as Hrow.
  cbv zeta in Hrow. rewrite Hinv in Hrow.
  eexists. split.
  - unfold request. apply savepoint_raise.
    rewrite (action_confirm_import_run E w0 _ Hst Hparse). cbv zeta.
    rewrite Hstop, confirm_loop_app, Hpre, confirm_loop_cons, Hrow. reflexivity.
  - reflexivity.
Qed.

(** X3, an instance: the file whose only row has no Employee Name. *)
Lemma invalid_row_aborts_the_whole_run_witness :
  exists w3,
    request (action_confirm_import Sample.ext)
      (Sample.validated Sample.nameless_file true)
    = (Raise (UserError (RowHasValidationErrors (PInt 2) "Employee Name is required.")),
       w3)
    /\ cr w3 = cr (Sample.validated Sample.nameless_file true).
Proof.
  exact (invalid_row_aborts_the_whole_run Sample.ext
           (Sample.validated Sample.nameless_file true)
           (Sample.validated Sample.nameless_file true)
           [] [] (nth 0 (Sample.parsed Sample.nameless_file) ∅) ([], [])
           "Employee Name is required." eq_refl eq_refl eq_refl eq_refl eq_refl).
Defined.

(** X4.  Right after validation a row is valid exactly when its error text
    is empty: every message the validator appends is a non-empty text, and
    the texts are joined by newlines.  The preview line made from the row
    therefore shows the error notification exactly when it is invalid. *)
Theorem valid_iff_error_text_is_empty (E : externals)
  (row : gmap string pyval) (w : world) :
  exists vals,
    _validate_row E row w = (Ok vals, w)
    /\ (lv_is_valid vals = true <-> lv_error_text vals = EmptyString)
    /\ forall ln,
         line_of_vals E vals = Ok ln ->
         (line_is_valid ln = true <-> action_show_error ln = ShowNothing)
         /\ (line_is_valid ln = false ->
             action_show_error ln
             = DisplayNotification (line_row_no ln) (lv_error_text vals)).
Proof.
  exists (validated_row E w row). split; [apply validate_row_run|].
  unfold validated_row, line_vals_of. simpl lv_is_valid. simpl lv_error_text.
  set (errs := validation_errors_in E _ _ _ _ row).
  assert (Hiff : (length errs =? 0)%nat = true
                 <-> PyStr.join PyStr.nl (List.map verror_text errs) = EmptyString).
  { rewrite length_eqb_0, error_text_empty_iff. reflexivity. }
  split; [exact Hiff|].
  intros ln Hln. unfold line_of_vals in Hln.
  destruct (Integer_convert E _) as [n|e]; [|discriminate].
  injection Hln as <-. unfold action_show_error. simpl.
  unfold nonempty.
  destruct (decide (PyStr.join PyStr.nl (List.map verror_text errs) = EmptyString))
    as [Ht|Ht].
  - rewrite bool_decide_eq_true_2 by exact Ht. simpl.
    split; [tauto|]. intros Hv. apply Hiff in Ht. congruence.
  - rewrite bool_decide_eq_false_2 by exact Ht. simpl.
    split; [|reflexivity].
    split; [|discriminate]. intros Hv. apply Hiff in Hv. contradiction.
Qed.

(** X5.  The headers the template marks as required ([REQUIRED_HEADERS],
    derived from [COLUMN_MAP] and [REQUIRED_FIELDS]) are the headers the
    validator insists on: a cell that is missing or empty under such a
    header is reported as "... is required.", and every such message names
    one of these headers. *)
Theorem required_headers_are_what_validation_requires (E : externals)
  (row : gmap string pyval) (w : world) :
  exists errs,
    validation_errors E row w = (Ok errs, w)
    /\ (forall h, h ∈ REQUIRED_HEADERS ->
          is_none_or_empty (get row h) = true ->
          Required (required_label h) ∈ errs)
    /\ (forall what, Required what ∈ errs ->
          exists h, h ∈ REQUIRED_HEADERS /\ what = required_label h)
    /\ (forall c, c ∈ template_columns ->
          (tc_is_required c = true <-> tc_header c ∈ REQUIRED_HEADERS))
    /\ tc_header <$> template_columns = fst <$> COLUMN_MAP.
Proof.
  eexists. split; [apply validation_errors_run|].
  split; [intros h; apply empty_required_cell_is_reported|].
  split.
  { intros what Hin.
    pose proof (required_errors_name_required_headers E (dir_of w)
                  (line_ids (wiz_of w)) (create_missing_departments (wiz_of w))
                  (create_missing_jobs (wiz_of w)) row) as Hall.
    rewrite Forall_forall in Hall. exact (Hall _ Hin what eq_refl). }
  split.
  { intros c Hc. unfold template_columns in Hc.
    apply list_elem_of_In, in_map_iff in Hc as (header & <- & _). simpl.
    apply bool_decide_eq_true. }
  apply template_headers.
Qed.

(** X6.  What the flag [is_valid] stands for.  A row that [_validate_row]
    marks valid has a cell under every required header, names a company of
    the store, carries an Employee ID and a Device ID that no employee of
    the store has and a Work Email that no account has as its login,
    repeats none of the three keys of the preview lines the wizard holds,
    and its Joining Date is read as a date. *)
Theorem valid_row_passed_every_check (E : externals)
  (row : gmap string pyval) (w w' : world) (vals : line_vals) :
  _validate_row E row w = (Ok vals, w') ->
  lv_is_valid vals = true ->
  (forall h, h ∈ REQUIRED_HEADERS -> is_none_or_empty (get row h) = false)
  /\ (exists c, c ∈ res_company (dir_of w) /\ company_name c = lv_company vals)
  /\ (forall e, e ∈ hr_employee (dir_of w) ->
        ev_employee_id_no (employee_fields e) <> lv_employee_id_no vals
        /\ ev_device_user_id (employee_fields e) <> lv_device_user_id vals)
  /\ (forall u, u ∈ res_users (dir_of w) ->
        uv_login (user_fields u) <> lv_work_email vals)
  /\ (forall ln, ln ∈ line_ids (wiz_of w) ->
        line_employee_id_no ln <> lv_employee_id_no vals
        /\ line_device_user_id ln <> lv_device_user_id vals
        /\ line_work_email ln <> lv_work_email vals)
  /\ (exists d, _parse_date E (get row "Joining Date") = Ok (Some d)).
Proof.
  intros Hrun Hvalid. rewrite validate_row_run in Hrun.
  injection Hrun as <- <-.
  unfold validated_row, line_vals_of in *. simpl in Hvalid |- *.
  apply length_eqb_0 in Hvalid.
  split.
  { intros h Hh. destruct (is_none_or_empty (get row h)) eqn:He; [|reflexivity].
    pose proof (empty_required_cell_is_reported E (dir_of w)
                  (line_ids (wiz_of w)) (create_missing_departments (wiz_of w))
                  (create_missing_jobs (wiz_of w)) row h Hh He) as Hin.
    rewrite Hvalid in Hin. now apply elem_of_nil in Hin. }
  unfold validation_errors_in in Hvalid. cbv zeta in Hvalid.
  apply app_eq_nil in Hvalid as [Hreq H].
  apply app_eq_nil in Hreq as [Hr1 Hreq]. apply app_eq_nil in Hreq as [_ Hreq].
  apply app_eq_nil in Hreq as [Hr3 Hreq]. apply app_eq_nil in Hreq as [Hr4 Hreq].
  apply app_eq_nil in Hreq as [Hr5 _].
  apply when_nil_inv, negb_false_iff in Hr1, Hr3, Hr4, Hr5.
  rewrite Hr1, Hr3, Hr4, Hr5 in H.
  apply app_eq_nil in H as [Hcompany H].
  apply app_eq_nil in H as [Hstore H].
  apply app_eq_nil in Hstore as [Hid Hstore].
  apply app_eq_nil in Hstore as [Hdevice Hlogin].
  apply app_eq_nil in H as [Hbatch H].
  do 3 apply app_eq_nil in H as [_ H].
  apply app_eq_nil in H as [Hjoin _].
  split.
  { apply when_nil_inv in Hcompany. simpl in Hcompany.
    apply negb_false_iff, bool_decide_eq_true in Hcompany as [c Hc].
    apply search_eq_Some in Hc as [Hin Hname]. now exists c. }
  split.
  { intros e He. split.
    - destruct (search_eq _ _ (hr_employee (dir_of w))) eqn:Hs in Hid;
        [discriminate|]. exact (search_eq_None _ _ _ Hs e He).
    - destruct (search_eq _ _ (hr_employee (dir_of w))) eqn:Hs in Hdevice;
        [discriminate|]. exact (search_eq_None _ _ _ Hs e He). }
  split.
  { intros u Hu.
    destruct (search_eq _ _ (res_users (dir_of w))) eqn:Hs in Hlogin;
      [discriminate|]. exact (search_eq_None _ _ _ Hs u Hu). }
  split.
  { now apply batch_duplicates_nil. }
  destruct (blank E (get row "Joining Date")); [discriminate|].
  destruct (_parse_date E (get row "Joining Date")) as [[d|]|e] eqn:Hp.
  - now exists d.
  - discriminate.
  - destruct (parse_date_never_raises E (get row "Joining Date")) as [r Hr].
    congruence.
Qed.

(** X6, an instance: the first row of the sample file, which the validator
    marks valid against the sample store. *)
Lemma valid_row_passed_every_check_witness :
  (exists c, c ∈ res_company Sample.store /\ company_name c = "Acme")
  /\ (exists d, _parse_date Sample.ext (PStr "2024-01-31") = Ok (Some d)).
Proof.
  destruct (valid_row_passed_every_check Sample.ext Sample.first_row
              (Sample.uploaded Sample.same_email_file false)
              (Sample.uploaded Sample.same_email_file false)
              Cases.first_row_vals)
    as (_ & Hc & _ & _ & _ & Hd); [reflexivity | reflexivity |].
  split; [exact Hc | exact Hd].
Defined.

(** X7.  A file that the reader opens, whose header row has no cell that
    reads [_row_no]: the Validate button never raises, whatever the rows
    hold.  It replaces the preview by exactly one line per row that is not
    empty, in the order of the sheet and under the number of the row, each
    made from what [_validate_row] returns for the row in the world without
    lines and each pending; the wizard goes to the state [preview] and the
    directory store is as before. *)
Theorem validation_previews_every_row (E : externals) (w : world)
  (raw_headers : list pyval) (sheet_rows : list (list pyval)) :
  wizard_file (wiz_of w) = Some (Sheet (raw_headers :: sheet_rows)) ->
  openpyxl_installed E = true ->
  "_row_no" ∉ normalise_headers E raw_headers ->
  exists w',
    action_validate E w = (Ok (ActWindow (wizard_id (wiz_of w))), w')
    /\ wizard_state_of (wiz_of w') = Preview
    /\ dir_of w' = dir_of w
    /\ Forall2
         (fun row ln =>
            row !! "_row_no" = Some (PInt (line_row_no ln))
            /\ line_import_status ln = Pending
            /\ exists vals,
                 _validate_row E row (unlinked w) = (Ok vals, unlinked w)
                 /\ line_of_vals E vals = Ok ln)
         (parse_rows E (normalise_headers E raw_headers) 2 sheet_rows)
         (line_ids (wiz_of w')).
Proof.
  intros Hfile Hopx Hhdr.
  rewrite action_validate_cases, Hfile.
  rewrite bool_decide_eq_true_2 by (now eexists). cbn [negb].
  unfold parse_file. rewrite Hopx. cbn [negb]. cbv iota.
  destruct (lines_of_vals_numbered E (unlinked w)
              (parse_rows E (normalise_headers E raw_headers) 2 sheet_rows))
    as (lines & -> & Hall).
  { intros row Hrow.
    destruct (parse_rows_sound E _ _ _ _ Hrow) as (k & rv & _ & _ & ->).
    eexists. now apply make_row_dict_row_no. }
  eexists. split; [reflexivity|]. split; [reflexivity|]. split; [reflexivity|].
  change (line_ids (wiz_of (previewed lines (unlinked w)))) with ([] ++ lines).
  simpl app. eapply Forall2_impl; [exact Hall|].
  intros row ln (Hn & Hst & Hln). split; [exact Hn|]. split; [exact Hst|].
  exists (validated_row E (unlinked w) row). split; [apply validate_row_run|exact Hln].
Qed.

(** X7, an instance: the file with one good row. *)
Lemma validation_previews_every_row_witness :
  exists w',
    action_validate Sample.ext (Sample.uploaded Sample.one_row_file false)
    = (Ok (ActWindow 7), w')
    /\ wizard_state_of (wiz_of w') = Preview
    /\ dir_of w' = Sample.store.
Proof.
  destruct (validation_previews_every_row Sample.ext
              (Sample.uploaded Sample.one_row_file false) Sample.headers
              [Sample.row "Ann" "E1" "D1" "ann@x.org"]
              eq_refl eq_refl headers_have_no_row_no)
    as (w' & Hrun & Hst & Hdir & _).
  exists w'. repeat split; assumption.
Defined.

(** X8.  Validating again changes nothing: when the Validate button has
    returned, pressing it once more (the file, the flags and the directory
    store being as they are) returns the same action and leaves the world,
    with its preview lines, exactly as the first run left it. *)
Theorem validating_again_changes_nothing (E : externals) (w w1 : world)
  (a : action) :
  action_validate E w = (Ok a, w1) ->
  action_validate E w1 = (Ok a, w1).
Proof.
  rewrite (action_validate_cases E w).
  destruct (negb _) eqn:Hfile; [discriminate|].
  destruct (parse_file E (wizard_file (wiz_of w))) as [rows|e] eqn:Hparse;
    [|discriminate].
  destruct (lines_of_vals E _) as [new_lines|e] eqn:Hlines; [|discriminate].
  intros [= <- <-].
  rewrite (action_validate_cases E (previewed new_lines (unlinked w))).
  change (wizard_file (wiz_of (previewed new_lines (unlinked w))))
    with (wizard_file (wiz_of w)).
  rewrite Hfile, Hparse.
  change (List.map (validated_row E (unlinked (previewed new_lines (unlinked w)))) rows)
    with (List.map (validated_row E (unlinked w)) rows).
  rewrite Hlines. reflexivity.
Qed.

(** X8, an instance: the preview of the file with one good row is a fixed
    point of the Validate button. *)
Lemma validating_again_changes_nothing_witness :
  action_validate Sample.ext Cases.one_row_preview
  = (Ok (ActWindow 7), Cases.one_row_preview).
Proof.
  apply (validating_again_changes_nothing Sample.ext
           (Sample.uploaded Sample.one_row_file false)).
  reflexivity.
Defined.

(** X9.  A supervisor or manager reference is looked up as an Employee ID
    first and as a Work Email second.  The empty reference resolves to
    nothing; a result is the id of an employee of the store whose Employee
    ID or Work Email is the reference; when some employee has the
    reference as Employee ID the result is such an employee, whoever has it
    as Work Email; and nothing is found only when no employee has the
    reference in either field.  The store is only read. *)
Theorem employee_reference_resolution (E : externals) (ref : string) (w : world) :
  exists r,
    _resolve_employee_ref ref w = (Ok r, w)
    /\ (ref = EmptyString -> r = None)
    /\ (forall i, r = Some i ->
          exists e, e ∈ hr_employee (dir_of w) /\ employee_id e = i
                    /\ (ev_employee_id_no (employee_fields e) = ref
                        \/ ev_work_email (employee_fields e) = ref))
    /\ (forall e0, e0 ∈ hr_employee (dir_of w) -> ref <> EmptyString ->
          ev_employee_id_no (employee_fields e0) = ref ->
          exists e, e ∈ hr_employee (dir_of w)
                    /\ ev_employee_id_no (employee_fields e) = ref
                    /\ r = Some (employee_id e))
    /\ (r = None -> ref <> EmptyString ->
          forall e, e ∈ hr_employee (dir_of w) ->
            ev_employee_id_no (employee_fields e) <> ref
            /\ ev_work_email (employee_fields e) <> ref).
Proof.
  exists (resolve_in (dir_of w) ref). split; [apply resolve_employee_ref_run|].
  unfold resolve_in.
  split.
  { intros ->. reflexivity. }
  destruct (nonempty ref) eqn:Hne; simpl negb; cbv iota.
  2: { apply negb_false_iff, bool_decide_eq_true in Hne.
       split; [discriminate|]. split; [|contradiction]. intros; contradiction. }
  destruct (search_eq (fun e => ev_employee_id_no (employee_fields e)) ref
              (hr_employee (dir_of w))) as [e1|] eqn:Hid.
  - apply search_eq_Some in Hid as [Hin Hf].
    split; [|split].
    + intros i [= <-]. exists e1. auto.
    + intros e0 _ _ _. exists e1. auto.
    + discriminate.
  - pose proof (search_eq_None _ _ _ Hid) as Hnone.
    destruct (search_eq (fun e => ev_work_email (employee_fields e)) ref
                (hr_employee (dir_of w))) as [e2|] eqn:Hmail; simpl.
    + apply search_eq_Some in Hmail as [Hin Hf].
      split; [|split].
      * intros i [= <-]. exists e2. auto.
      * intros e0 He0 _ Hf0. destruct (Hnone e0 He0 Hf0).
      * discriminate.
    + pose proof (search_eq_None _ _ _ Hmail) as Hnone2.
      split; [discriminate|]. split.
      * intros e0 He0 _ Hf0. destruct (Hnone e0 He0 Hf0).
      * intros _ _ e He. split; [exact (Hnone e He) | exact (Hnone2 e He)].
Qed.

(** X10.  The dictionary of a row holds, under a header, the cell of the
    row that stands under it (the last one, when the header row repeats
    the header over several cells of the row); a header that stands over
    no cell of the row, as when the row is shorter than the header row, is
    no key of the dictionary, so that [get] answers [None] for it; cells
    beyond the header row are dropped. *)
Theorem row_dictionary_holds_the_cells_under_their_headers
  (hs : list string) (n : Z) (vs : list pyval) :
  (forall i h v,
     hs !! i = Some h -> vs !! i = Some v ->
     (forall j, (i < j)%nat -> hs !! j = Some h -> (length vs <= j)%nat) ->
     make_row_dict hs n vs !! h = Some v /\ get (make_row_dict hs n vs) h = v)
  /\ (forall h,
        h <> "_row_no" ->
        (forall j, hs !! j = Some h -> (length vs <= j)%nat) ->
        make_row_dict hs n vs !! h = None /\ get (make_row_dict hs n vs) h = PNone)
  /\ make_row_dict hs n vs = make_row_dict hs n (take (length hs) vs).
Proof.
  split; [|split].
  - intros i h v Hh Hv Hlast.
    assert (H : make_row_dict hs n vs !! h = Some v)
      by (unfold make_row_dict; now apply (fold_insert_lookup_set hs vs _ i)).
    split; [exact H|]. unfold get. now rewrite H.
  - intros h Hno Hunset.
    assert (H : make_row_dict hs n vs !! h = None).
    { unfold make_row_dict. rewrite fold_insert_lookup_unset by exact Hunset.
      apply lookup_singleton_ne. congruence. }
    split; [exact H|]. unfold get. now rewrite H.
  - unfold make_row_dict. f_equal.
    revert vs. induction hs as [|h hs IH]; intros vs; [reflexivity|].
    destruct vs as [|v vs]; [reflexivity|]. simpl. f_equal. apply IH.
Qed.

(** X11.  The rows come out of the reader in the order of the sheet.  The
    dictionaries of [_parse_excel] stand one for one, and in this order,
    for the rows of the sheet that are not empty: the dictionary for the
    row at position [k] below the header is built from the cells of that
    row and carries the number [k + 2], so that the numbers are strictly
    increasing. *)
Theorem rows_are_read_in_sheet_order (E : externals)
  (raw_headers : list pyval) (sheet_rows : list (list pyval))
  (data : list (gmap string pyval)) :
  "_row_no" ∉ normalise_headers E raw_headers ->
  parse_file E (Some (Sheet (raw_headers :: sheet_rows))) = Ok data ->
  exists ks : list nat,
    Forall2 (fun (k : nat) (d : gmap string pyval) =>
               exists rv,
                 sheet_rows !! k = Some rv /\ row_is_empty E rv = false
                 /\ d = make_row_dict (normalise_headers E raw_headers)
                          (Z.of_nat k + 2) rv
                 /\ d !! "_row_no" = Some (PInt (Z.of_nat k + 2)))
            ks data
    /\ (fun d : gmap string pyval => d !! "_row_no") <$> data
       = (fun k : nat => Some (PInt (Z.of_nat k + 2))) <$> ks
    /\ StronglySorted lt ks
    /\ (forall k, k ∈ ks
          <-> exists rv, sheet_rows !! k = Some rv /\ row_is_empty E rv = false).
Proof.
  intros Hh Hp. unfold parse_file in Hp.
  destruct (negb (openpyxl_installed E)); [discriminate|].
  injection Hp as <-.
  exists (kept_rows E sheet_rows). split; [|split; [|split]].
  - eapply Forall2_impl; [apply (parse_rows_Forall2 E _ _ 2 Hh)|].
    intros k d (rv & Hk & He & Hd & Hno). exists rv.
    replace (Z.of_nat k + 2) with (2 + Z.of_nat k) by lia. auto.
  - rewrite parse_rows_numbers by exact Hh.
    apply list_fmap_ext. intros _ k _. do 2 f_equal. lia.
  - apply filter_seq_sorted.
  - apply elem_of_kept_rows.
Qed.

(** X11, an instance: the sheet whose second row is empty. *)
Lemma rows_are_read_in_sheet_order_witness :
  exists ks : list nat,
    Forall2 (fun (k : nat) (d : gmap string pyval) =>
               exists rv,
                 Cases.gap_rows !! k = Some rv
                 /\ d = make_row_dict (normalise_headers Sample.ext Sample.headers)
                          (Z.of_nat k + 2) rv)
            ks (Sample.parsed (Sample.file_of Cases.gap_rows))
    /\ StronglySorted lt ks.
Proof.
  destruct (rows_are_read_in_sheet_order Sample.ext Sample.headers
              Cases.gap_rows
              (Sample.parsed (Sample.file_of Cases.gap_rows))
              headers_have_no_row_no eq_refl)
    as (ks & Hall & _ & Hs & _).
  exists ks. split; [|exact Hs].
  eapply Forall2_impl; [exact Hall|].
  intros k d (rv & Hk & _ & Hd & _). exists rv. auto.
Defined.

(** X12.  A date written day, month, year on two, two and four digits is
    read day first.  With slashes, [DD/MM/YYYY], the day-first date is
    the result whenever it exists, also when the text could be read month
    first ([01/02/2024] is 1 February); only when the day-first date does
    not exist is the text read month first ([02/13/2024] is 13 February);
    when neither date exists the result is [None] ([31/02/2024]).  With
    dashes, [DD-MM-YYYY], there is no second reading: the result is the
    day-first date or [None]. *)
Theorem day_month_year_text_is_read_day_first (E : externals) (a b y : Z) :
  0 <= a <= 99 -> 0 <= b <= 99 -> 1 <= y <= 9999 ->
  _parse_date E (PStr (dmy_text "/" (Z.to_N a) (Z.to_N b) (Z.to_N y)))
  = Ok (if Calendar.valid y b a then Some (Date y b a)
        else if Calendar.valid y a b then Some (Date y a b)
        else None)
  /\ _parse_date E (PStr (dmy_text "-" (Z.to_N a) (Z.to_N b) (Z.to_N y)))
     = Ok (if Calendar.valid y b a then Some (Date y b a) else None).
Proof.
  intros Ha Hb Hy. split.
  - rewrite (parse_date_of_dmy_text E "/" a b y) by (auto; lia). reflexivity.
  - rewrite (parse_date_of_dmy_text E "-" a b y) by (auto; lia).
    destruct (Calendar.valid y b a); reflexivity.
Qed.

(** X12, an instance: month 13 does not exist, so the text with slashes
    is read month first and the text with dashes is no date. *)
Lemma day_month_year_text_is_read_day_first_witness :
  _parse_date Sample.ext (PStr "02/13/2024") = Ok (Some (Date 2024 2 13))
  /\ _parse_date Sample.ext (PStr "02-13-2024") = Ok None.
Proof.
  exact (day_month_year_text_is_read_day_first Sample.ext 2 13 2024
           ltac:(lia) ltac:(lia) ltac:(lia)).
Defined.

(** X13.  [_parse_str] gives a normal form: its result has no white space
    at either end, and normalising it once more changes nothing, also
    when the leading zero was put in front. *)
Theorem parse_str_is_idempotent (E : externals) (v : pyval) :
  PyStr.strip (_parse_str E v) = _parse_str E v
  /\ _parse_str E (PStr (_parse_str E v)) = _parse_str E v.
Proof. apply parse_str_fixed_point. Qed.

(** X14.  The password of a new account: whatever the generator draws
    (each draw [randbelow(n)] being below [n]), [_random_password(length)]
    returns a text of exactly [length] characters, each a letter of the
    English alphabet or a digit. *)
Theorem random_password_is_alphanumeric (rand : nat -> nat -> nat) (k n : nat) :
  (forall j b, (0 < b)%nat -> (rand j b < b)%nat) ->
  exists pw,
    SystemRandom._random_password rand k n = Some pw
    /\ String.length pw = n
    /\ PyStr.all_chars SystemRandom.is_ascii_alnum pw = true.
Proof. intros H. now apply join_choices_alnum. Qed.

(** X14, an instance: twelve characters from a generator that counts. *)
Lemma random_password_is_alphanumeric_witness :
  exists pw,
    SystemRandom._random_password Cases.counting 0 12 = Some pw
    /\ String.length pw = 12%nat
    /\ PyStr.all_chars SystemRandom.is_ascii_alnum pw = true.
Proof.
  apply (random_password_is_alphanumeric Cases.counting 0 12).
  intros j b Hb. apply Nat.mod_upper_bound. lia.
Defined.

(** X15.  The reports of a run that returns.  The wizard and the new
    import log hold the same two workbooks.  The outcome workbook is there
    exactly when a row was imported and lists the imported rows in order,
    six cells each (name, login, password, company, department,
    designation); the error workbook is there exactly when a row failed
    and lists the failed rows in order, with the row number and the
    message.  The download buttons of the wizard raise when the workbook
    is missing and otherwise point to the file under its name; the
    buttons of the log always answer, with "False" for a missing name. *)
Theorem finished_run_offers_its_reports (E : externals) (w w' : world) (a : action) :
  action_confirm_import E w = (Ok a, w') ->
  exists (results : list imported) (failed_rows : list failed_row) log,
    logs_of w' = logs_of w ++ [log]
    /\ log_imported_count log = Z.of_nat (length results)
    /\ log_failed_count log = Z.of_nat (length failed_rows)
    /\ output_file (wiz_of w') = log_output_file log
    /\ error_file (wiz_of w') = log_error_file log
    /\ log_output_file log
       = match results with
         | [] => None
         | _ =>
             Some {| art_title := "Imported Employees";
                     art_headers := ["Employee Name"; "Login Email"; "Password";
                                     "Company"; "Department"; "Designation"];
                     art_rows :=
                       List.map
                         (fun r => [PStr (im_employee_name r);
                                    PStr (im_login_email r);
                                    PStr (im_password r); PStr (im_company r);
                                    PStr (im_department r);
                                    PStr (im_designation r)])
                         results;
                     art_filename :=
                       "employee_import_output_" +:+ date_today E +:+ ".xlsx" |}
         end
    /\ log_error_file log
       = match failed_rows with
         | [] => None
         | _ =>
             Some {| art_title := "Errors";
                     art_headers := ["Row #"; "Error Details"];
                     art_rows :=
                       List.map (fun fr => [fr_row_no fr; PStr (fr_error fr)])
                                failed_rows;
                     art_filename :=
                       "employee_import_errors_" +:+ date_today E +:+ ".xlsx" |}
         end
    /\ action_download_output (wiz_of w')
       = match log_output_file log with
         | None => inl NoOutputFile
         | Some art =>
             inr (ActUrl ("/web/content/employee.bulk.upload.wizard/"
                          +:+ PyStr.str_Z (wizard_id (wiz_of w))
                          +:+ "/output_file/" +:+ art_filename art
                          +:+ "?download=true"))
         end
    /\ action_download_errors (wiz_of w')
       = match log_error_file log with
         | None => inl NoErrorReport
         | Some art =>
             inr (ActUrl ("/web/content/employee.bulk.upload.wizard/"
                          +:+ PyStr.str_Z (wizard_id (wiz_of w))
                          +:+ "/error_file/" +:+ art_filename art
                          +:+ "?download=true"))
         end
    /\ (results = [] ->
        EmployeeBulkImportLog.action_download_output log
        = ActUrl ("/web/content/employee.bulk.import.log/"
                  +:+ PyStr.str_Z (log_id log)
                  +:+ "/output_file/False?download=true"))
    /\ (failed_rows = [] ->
        EmployeeBulkImportLog.action_download_errors log
        = ActUrl ("/web/content/employee.bulk.import.log/"
                  +:+ PyStr.str_Z (log_id log)
                  +:+ "/error_file/False?download=true")).
Proof.
  intros H.
  apply action_confirm_import_Ok_inv in H
    as (Hst & rows & acc & w1 & out & err & Hparse & Hloop & Hout & Herr & _ & _ & _ & ->).
  pose proof (parse_file_ok_openpyxl E _ _ Hparse) as Hopx.
  pose proof (confirm_loop_logs E (stop_on_error (wiz_of w))
                (build_line_by_row (line_ids (wiz_of w))) rows ([], []) w) as Hlogs.
  assert (Hl1 : logs_of w1 = logs_of w).
  { destruct (stop_on_error (wiz_of w)); now rewrite Hloop in Hlogs. }
  assert (Hw1 : wizard_id (wiz_of w1) = wizard_id (wiz_of w)).
  { pose proof (confirm_loop_bare E (stop_on_error (wiz_of w))
                  (build_line_by_row (line_ids (wiz_of w))) rows ([], []) w) as Hb.
    apply (f_equal wizard_id) in Hb.
    destruct (stop_on_error (wiz_of w)); now rewrite Hloop in Hb. }
  exists acc.1, acc.2, (summary_log E (id_seq w1) rows acc.1 acc.2 out err).
  unfold _build_output_excel in Hout. unfold _build_error_excel in Herr.
  rewrite Hopx in Hout, Herr. cbn [negb] in Hout, Herr.
  split; [rewrite <- Hl1; reflexivity|].
  split; [reflexivity|]. split; [reflexivity|].
  split; [reflexivity|]. split; [reflexivity|].
  destruct acc as [results failed_rows]. cbn [fst snd] in *.
  rewrite <- Hw1.
  destruct results, failed_rows; unfold ret in Hout, Herr;
    injection Hout as <-; injection Herr as <-;
    repeat split; try reflexivity; intros; discriminate.
Qed.

(** X15, an instance: the partial import of the two rows with the same
    Work Email. *)
Lemma finished_run_offers_its_reports_witness :
  exists (results : list imported) (failed_rows : list failed_row) log,
    logs_of Cases.same_email_confirmed = logs_of Sample.same_email_preview ++ [log]
    /\ log_imported_count log = Z.of_nat (length results)
    /\ log_failed_count log = Z.of_nat (length failed_rows)
    /\ output_file (wiz_of Cases.same_email_confirmed) = log_output_file log
    /\ error_file (wiz_of Cases.same_email_confirmed) = log_error_file log.
Proof.
  destruct (finished_run_offers_its_reports Sample.ext Sample.same_email_preview
              Cases.same_email_confirmed (ActWindow 7) eq_refl)
    as (results & failed_rows & log & H1 & H2 & H3 & H4 & H5 & _).
  exists results, failed_rows, log. repeat split; assumption.
Defined.

(** X16.  The template button.  Without the spreadsheet library it raises
    and changes nothing.  With it, it writes the template over the
    wizard's outcome workbook, under the name
    [employee_upload_template.xlsx]: one column for each header of
    [COLUMN_MAP], in order, the two date columns being formatted as
    dates; the preview, the state, the error workbook, the directory
    store and the import logs stay as they are.  From then on the button
    that downloads the outcome answers with the very link of the
    template. *)
Theorem template_download_replaces_the_outcome_workbook (E : externals) (w : world) :
  (openpyxl_installed E = false ->
   action_download_template E w = (Raise (UserError OpenpyxlRequired), w))
  /\ (openpyxl_installed E = true ->
      exists w' url,
        action_download_template E w = (Ok (ActUrl url), w')
        /\ output_file (wiz_of w') = Some template_artifact
        /\ action_download_output (wiz_of w') = inr (ActUrl url)
        /\ line_ids (wiz_of w') = line_ids (wiz_of w)
        /\ wizard_state_of (wiz_of w') = wizard_state_of (wiz_of w)
        /\ error_file (wiz_of w') = error_file (wiz_of w)
        /\ dir_of w' = dir_of w
        /\ logs_of w' = logs_of w)
  /\ art_headers template_artifact = fst <$> COLUMN_MAP
  /\ (forall c, c ∈ template_columns ->
        (tc_number_format c = Some "DD/MM/YYYY"
         <-> tc_header c = "Joining Date" \/ tc_header c = "Date of Birth")).
Proof.
  split; [|split; [|split]].
  - intros H. unfold action_download_template. now rewrite H.
  - intros H. unfold action_download_template. rewrite H.
    eexists _, _. split; [reflexivity|]. repeat split.
  - apply template_headers.
  - intros c Hc. unfold template_columns in Hc.
    apply list_elem_of_In, in_map_iff in Hc as (header & <- & _). simpl.
    destruct (decide (header ∈ date_headers)) as [Hd|Hd].
    + rewrite bool_decide_eq_true_2 by exact Hd. split; [intros _|reflexivity].
      rewrite date_headers_eq in Hd.
      apply elem_of_cons in Hd as [->|Hd]; [now left|].
      apply elem_of_cons in Hd as [->|Hd]; [now right|].
      now apply elem_of_nil in Hd.
    + rewrite bool_decide_eq_false_2 by exact Hd. split; [discriminate|].
      intros Hh. exfalso. apply Hd. rewrite date_headers_eq.
      destruct Hh as [-> | ->]; [apply list_elem_of_here|].
      apply list_elem_of_further, list_elem_of_here.
Qed.

(** X17.  A run is confirmed from the preview only, and once: in any
    other state the Confirm button raises and changes nothing; a run that
    has returned leaves the wizard in the state [done], so that pressing
    Confirm again is refused (until the file is validated anew). *)
Theorem finished_run_cannot_be_confirmed_again (E : externals) :
  (forall w,
     wizard_state_of (wiz_of w) <> Preview ->
     action_confirm_import E w = (Raise (UserError ValidateBeforeImporting), w))
  /\ (forall w a w',
        action_confirm_import E w = (Ok a, w') ->
        wizard_state_of (wiz_of w) = Preview
        /\ wizard_state_of (wiz_of w') = Done
        /\ action_confirm_import E w'
           = (Raise (UserError ValidateBeforeImporting), w')).
Proof.
  split; [apply action_confirm_import_refused|].
  intros w a w' H.
  apply action_confirm_import_Ok_inv in H
    as (Hst & rows & acc & w1 & out & err & _ & _ & _ & _ & _ & _ & _ & ->).
  split; [exact Hst|]. split; [reflexivity|].
  apply action_confirm_import_refused. discriminate.
Qed.

(** X18.  The records a run adds are the rows it counts as imported: when
    a run returns, under either policy, the store holds as many employees
    more, and as many accounts more, as the new import log counts imported
    rows; the rows that failed have left neither. *)
Theorem imported_rows_are_the_records_added (E : externals) (w w' : world)
  (a : action) :
  action_confirm_import E w = (Ok a, w') ->
  exists log,
    logs_of w' = logs_of w ++ [log]
    /\ Z.of_nat (employee_count w')
       = Z.of_nat (employee_count w) + log_imported_count log
    /\ Z.of_nat (user_count w')
       = Z.of_nat (user_count w) + log_imported_count log.
Proof.
  intros H.
  apply action_confirm_import_Ok_inv in H
    as (Hst & rows & acc & w1 & out & err & Hparse & Hloop & _ & _ & _ & _ & _ & ->).
  pose proof (confirm_loop_logs E (stop_on_error (wiz_of w))
                (build_line_by_row (line_ids (wiz_of w))) rows ([], []) w) as Hlogs.
  assert (Hl1 : logs_of w1 = logs_of w).
  { destruct (stop_on_error (wiz_of w)); now rewrite Hloop in Hlogs. }
  assert (Hcount : (employee_count w1 + 0 = employee_count w + length acc.1)%nat
                   /\ (user_count w1 + 0 = user_count w + length acc.1)%nat).
  { apply (confirm_loop_counts E (stop_on_error (wiz_of w))
             (build_line_by_row (line_ids (wiz_of w))) rows ([], []) w acc w1).
    destruct (stop_on_error (wiz_of w)); exact Hloop. }
  exists (summary_log E (id_seq w1) rows acc.1 acc.2 out err).
  split; [rewrite <- Hl1; reflexivity|].
  change (employee_count (finished E rows acc out err w1)) with (employee_count w1).
  change (user_count (finished E rows acc out err w1)) with (user_count w1).
  simpl log_imported_count. lia.
Qed.

(** X18, an instance: the same partial import, of which one row went in. *)
Lemma imported_rows_are_the_records_added_witness :
  exists log,
    logs_of Cases.same_email_confirmed = logs_of Sample.same_email_preview ++ [log]
    /\ Z.of_nat (employee_count Cases.same_email_confirmed)
       = Z.of_nat (employee_count Sample.same_email_preview)
         + log_imported_count log
    /\ Z.of_nat (user_count Cases.same_email_confirmed)
       = Z.of_nat (user_count Sample.same_email_preview) + log_imported_count log.
Proof.
  exact (imported_rows_are_the_records_added Sample.ext Sample.same_email_preview
           Cases.same_email_confirmed (ActWindow 7) eq_refl).
Defined.

(** X19.  What a row that went in has written.  When [_import_row]
    returns the outcome of an imported row, the store holds one employee
    and one account more than before, linked to each other: the employee
    carries the normalised name, Employee ID, Device ID and Work Email of
    the row; the account has that name, the Work Email as login and as
    email, the hash of the password of the outcome as its password, and
    the base group among its groups. *)
Theorem imported_row_has_person_and_account (E : externals)
  (row : gmap string pyval) (w w' : world) (r : imported) :
  _import_row E row w = (Ok (Imported r), w') ->
  employee_count w' = S (employee_count w)
  /\ user_count w' = S (user_count w)
  /\ exists e u,
       e ∈ hr_employee (dir_of w') /\ u ∈ res_users (dir_of w')
       /\ employee_user_id e = Some (user_id u)
       /\ ev_name (employee_fields e) = im_employee_name r
       /\ ev_work_email (employee_fields e) = im_login_email r
       /\ ev_employee_id_no (employee_fields e) = _parse_str E (get row "Employee ID")
       /\ ev_device_user_id (employee_fields e) = _parse_str E (get row "Device ID")
       /\ uv_name (user_fields u) = im_employee_name r
       /\ uv_login (user_fields u) = im_login_email r
       /\ uv_email (user_fields u) = im_login_email r
       /\ user_password u = Some (crypt_hash E (im_password r))
       /\ exists g, base_group_user (dir_of w) = Some g
                    /\ g ∈ uv_group_ids (user_fields u).
Proof. intros H. exact (import_row_Imported E row w r w' H). Qed.

(** X19, an instance: the first row of the sample file. *)
Lemma imported_row_has_person_and_account_witness :
  employee_count Cases.first_row_in = S (employee_count Sample.same_email_preview)
  /\ user_count Cases.first_row_in = S (user_count Sample.same_email_preview).
Proof.
  destruct (imported_row_has_person_and_account Sample.ext Sample.first_row
              Sample.same_email_preview Cases.first_row_in
              Cases.first_row_outcome eq_refl)
    as (He & Hu & _).
  split; assumption.
Defined.

(** X20.  A company that is not in the store.  When no company has the
    Business Unit of the row as its name, [_import_row] returns the error
    "Company ... not found." and writes nothing; it returns that error in
    no other case.  A row that validation has marked valid, imported from
    the same store, is therefore never answered with it. *)
Theorem unknown_company_is_reported_without_a_write (E : externals)
  (row : gmap string pyval) (w : world) :
  (search_eq company_name (_parse_str E (get row "Business Unit"))
     (res_company (dir_of w)) = None ->
   _import_row E row w
   = (Ok (ImportFailed (ImportCompanyNotFound (_parse_str E (get row "Business Unit")))),
      w))
  /\ (forall name w',
        _import_row E row w = (Ok (ImportFailed (ImportCompanyNotFound name)), w') ->
        search_eq company_name (_parse_str E (get row "Business Unit"))
          (res_company (dir_of w)) = None)
  /\ (forall vals w1 name w',
        _validate_row E row w = (Ok vals, w1) -> lv_is_valid vals = true ->
        _import_row E row w <> (Ok (ImportFailed (ImportCompanyNotFound name)), w')).
Proof.
  split; [|split].
  - intros H. unfold _import_row. cbv zeta.
    unfold bind at 1. unfold get_wiz at 1. cbv beta iota.
    unfold bind at 1. unfold search_company, bind, get_dir, ret. cbv beta iota.
    fold (dir_of w). rewrite H. reflexivity.
  - apply import_row_company_missing_inv.
  - intros vals w1 name w' Hval Hvalid Himp.
    apply import_row_company_missing_inv in Himp.
    rewrite validate_row_run in Hval. injection Hval as <- _.
    apply length_eqb_0 in Hvalid.
    destruct (valid_row_company E _ _ _ _ _ Hvalid) as (c & Hc).
    congruence.
Qed.

(** X21.  A record of a lookup table (religion, blood group, employment
    type) is created once.  The name is looked up with [=ilike] and created
    when nothing matches; when the name matches itself, looking the same
    name up again finds the record just created, returns the same id and
    writes nothing more.  The empty name is neither looked up nor
    created. *)
Theorem lookup_record_is_created_once (E : externals)
  (table : directory -> list named) (op : string -> store_op)
  (put : (list named -> list named) -> directory -> directory)
  (name : string) (w w1 : world) (r : option Z) :
  (forall f d, table (put f d) = f (table d)) ->
  ilike E name name = true ->
  find_or_create_named E table op put name w = (Ok r, w1) ->
  find_or_create_named E table op put name w1 = (Ok r, w1)
  /\ (name <> EmptyString ->
      exists rec, rec ∈ table (dir_of w1) /\ r = Some (named_id rec)
                  /\ ilike E (named_name rec) name = true)
  /\ (name = EmptyString -> r = None /\ w1 = w).
Proof.
  intros Hlens Hrefl H. unfold find_or_create_named in *.
  destruct (nonempty name) eqn:Hn.
  2: { unfold ret in H. injection H as <- <-.
       apply negb_false_iff, bool_decide_eq_true in Hn.
       split; [reflexivity|]. split; [contradiction|auto]. }
  apply nonempty_true in Hn.
  apply bind_Ok_inv in H as (d & wa & Hd & H).
  unfold get_dir in Hd. injection Hd as <- <-. fold (dir_of w) in H.
  destruct (search_ilike E named_name name (table (dir_of w))) as [rec|] eqn:Hs.
  - unfold ret in H. injection H as <- <-.
    split; [|split; [|contradiction]].
    + unfold bind, get_dir. cbv beta iota. fold (dir_of w). now rewrite Hs.
    + intros _. exists rec. unfold search_ilike in Hs.
      apply find_some in Hs as [Hin Hm].
      split; [now apply list_elem_of_In|]. auto.
  - apply bind_Ok_inv in H as (rec & wb & Hc & H).
    unfold ret in H. injection H as <- <-.
    apply create_named_Ok in Hc as [Hdir Hname].
    assert (Hfound : search_ilike E named_name name (table (dir_of wb)) = Some rec).
    { rewrite Hdir, Hlens. apply search_ilike_app_new; [exact Hs|].
      now rewrite Hname. }
    split; [|split; [|contradiction]].
    + unfold bind, get_dir. cbv beta iota. fold (dir_of wb). now rewrite Hfound.
    + intros _. exists rec. split; [|split; [reflexivity|now rewrite Hname]].
      rewrite Hdir, Hlens. apply elem_of_app. right. apply list_elem_of_here.
Qed.

(** X21, an instance: the religion of the sample rows, created in the empty
    table and found again. *)
Lemma lookup_record_is_created_once_witness :
  find_or_create_named Sample.ext hr_religion CreateReligion with_hr_religion
    "None stated" Cases.religion_created
  = (Ok (Some 100), Cases.religion_created).
Proof.
  refine (proj1 (lookup_record_is_created_once Sample.ext hr_religion
                   CreateReligion with_hr_religion "None stated"
                   (Sample.uploaded Sample.one_row_file false)
                   Cases.religion_created (Some 100) _ eq_refl eq_refl)).
  intros f d. reflexivity.
Defined.

(** X22.  A preview with errors cannot be imported under [stop_on_error].
    The file, whose header row has no cell that reads [_row_no] (such a
    column would overwrite the row numbers by which lines and rows are
    matched), is validated and then confirmed as it is: when the preview
    holds a line that is not valid ([has_errors]), the run raises, and the
    request leaves the cursor as validation left it: no employee, no
    account and no import log is written, whichever row the invalid line
    belongs to and however many valid rows stand before it. *)
Theorem preview_with_errors_is_not_imported_under_stop (E : externals)
  (w w1 : world) (a : action)
  (raw_headers : list pyval) (sheet_rows : list (list pyval)) :
  wizard_file (wiz_of w) = Some (Sheet (raw_headers :: sheet_rows)) ->
  "_row_no" ∉ normalise_headers E raw_headers ->
  stop_on_error (wiz_of w) = true ->
  action_validate E w = (Ok a, w1) ->
  has_errors (wiz_of w1) = true ->
  exists e w2,
    request (action_confirm_import E) w1 = (Raise e, w2)
    /\ cr w2 = cr w1.
Proof.
  intros Hfile Hhdr Hstop Hval Herr.
  rewrite action_validate_cases, Hfile in Hval.
  rewrite bool_decide_eq_true_2 in Hval by (now eexists). cbn [negb] in Hval.
  assert (Hopx : openpyxl_installed E = true).
  { unfold parse_file in Hval. destruct (openpyxl_installed E); [reflexivity|].
    discriminate Hval. }
  assert (Hparse : parse_file E (Some (Sheet (raw_headers :: sheet_rows)))
                   = Ok (parse_rows E (normalise_headers E raw_headers) 2 sheet_rows)).
  { unfold parse_file. now rewrite Hopx. }
  rewrite Hparse in Hval.
  set (rows := parse_rows E (normalise_headers E raw_headers) 2 sheet_rows) in *.
  destruct (lines_of_vals_numbered E (unlinked w) rows) as (lines & Hl & Hall).
  { intros row Hrow.
    destruct (parse_rows_sound E _ _ _ _ Hrow) as (k & rv & _ & _ & ->).
    eexists. now apply make_row_dict_row_no. }
  rewrite Hl in Hval. injection Hval as <- <-.
  assert (Hlines : line_ids (wiz_of (previewed lines (unlinked w))) = lines)
    by reflexivity.
  (* the invalid line and its row *)
  unfold has_errors in Herr. rewrite Hlines in Herr.
  apply existsb_exists in Herr as (ln & Hin & Hinvalid).
  apply negb_true_iff in Hinvalid.
  apply list_elem_of_In, list_elem_of_lookup in Hin as [k Hk].
  destruct (Forall2_lookup_r _ _ _ _ _ Hall Hk) as (row & Hrow & Hno & _).
  (* the row numbers of the lines are distinct *)
  assert (Hnd : NoDup (line_row_no <$> lines)).
  { apply (NoDup_fmap_1 (fun n => Some (PInt n))).
    rewrite <- list_fmap_compose.
    assert (Heq : (fun d : gmap string pyval => d !! "_row_no") <$> rows
                  = ((fun n => Some (PInt n)) ∘ line_row_no) <$> lines).
    { clear -Hall. induction Hall as [|row ln rows lines (Hn & _) _ IH];
        [reflexivity|]. rewrite !fmap_cons, IH, Hn. reflexivity. }
    rewrite <- Heq. now apply parse_rows_numbers_NoDup. }
  assert (Hflag : marked_invalid (build_line_by_row lines) row
                    (wiz_of (previewed lines (unlinked w)))
                  = Some (line_error_text ln)).
  { assert (Hlk : lookup_line (build_line_by_row lines) row = Some k).
    { unfold lookup_line, get. rewrite Hno. simpl.
      exact (build_line_by_row_lookup lines k ln Hnd Hk). }
    unfold marked_invalid. rewrite Hlk.
    change (invalid_line (lines !! k) = Some (line_error_text ln)).
    rewrite Hk. simpl. now rewrite Hinvalid. }
  destruct (stop_loop_raises E (build_line_by_row lines) rows ([], [])
              (previewed lines (unlinked w))) as (e & w2 & Hloop).
  { exists row. split; [eapply list_elem_of_lookup_2; exact Hrow|].
    rewrite Hflag. now eexists. }
  exists e, (rollback (previewed lines (unlinked w)) w2). split; [|reflexivity].
  unfold request. apply savepoint_raise.
  assert (Hparse1 : parse_file E (wizard_file (wiz_of (previewed lines (unlinked w))))
                    = Ok rows).
  { change (wizard_file (wiz_of (previewed lines (unlinked w))))
      with (wizard_file (wiz_of w)).
    rewrite Hfile. exact Hparse. }
  rewrite (action_confirm_import_run E (previewed lines (unlinked w)) rows
             (eq_refl Preview) Hparse1).
  cbv zeta. rewrite Hlines.
  change (stop_on_error (wiz_of (previewed lines (unlinked w))))
    with (stop_on_error (wiz_of w)).
  rewrite Hstop, Hloop. reflexivity.
Qed.

(** X22, an instance: the file whose only row has no Employee Name. *)
Lemma preview_with_errors_is_not_imported_under_stop_witness :
  exists e w2,
    request (action_confirm_import Sample.ext) Cases.nameless_preview_stop
    = (Raise e, w2)
    /\ cr w2 = cr Cases.nameless_preview_stop.
Proof.
  apply (preview_with_errors_is_not_imported_under_stop Sample.ext
           (Sample.uploaded Sample.nameless_file true)
           Cases.nameless_preview_stop (ActWindow 7) Sample.headers
           [Sample.row "" "E1" "D1" "ann@x.org"]);
    [reflexivity | exact headers_have_no_row_no | reflexivity
    | reflexivity | reflexivity].
Defined.

(** X23.  A date written in ISO form is read back: for every date of the
    calendar, the text [YYYY-MM-DD] is read by [_parse_date] as that very
    date, and so is the text that [str] gives for a [date] value.  This
    stops at [datetime] values, which is what the reader hands over for a
    date cell: [_parse_date] takes the date of the [datetime], but the
    text that [str] gives for it, [YYYY-MM-DD HH:MM:SS], is read as no
    date. *)
Theorem iso_date_text_is_read_back (E : externals) (d : date) :
  Calendar.valid (year d) (month d) (day d) = true ->
  _parse_date E (PStr (Calendar.isoformat d)) = Ok (Some d)
  /\ _parse_date E (PStr (py_str E (PDate d))) = _parse_date E (PDate d)
  /\ (forall t : datetime,
        dt_date t = d ->
        _parse_date E (PDateTime t) = Ok (Some d)
        /\ _parse_date E (PStr (py_str E (PDateTime t))) = Ok None).
Proof.
  intros Hv. pose proof (parse_date_of_isoformat E d Hv) as H.
  split; [exact H|]. split.
  - simpl py_str. rewrite H. reflexivity.
  - intros t <-. split; [reflexivity|].
    simpl py_str. apply parse_date_of_datetime_text.
Qed.

(** X23, an instance: 29 February 2024, as a text and as the text of the
    datetime at midnight. *)
Lemma iso_date_text_is_read_back_witness :
  _parse_date Sample.ext (PStr "2024-02-29") = Ok (Some (Date 2024 2 29))
  /\ _parse_date Sample.ext (PStr "2024-02-29 00:00:00") = Ok None.
Proof.
  destruct (iso_date_text_is_read_back Sample.ext (Date 2024 2 29) eq_refl)
    as (H1 & _ & H3).
  split; [exact H1|].
  exact (proj2 (H3 (DateTime (Date 2024 2 29) 0 0 0 0) eq_refl)).
Defined.
